(** * ESG-AI: price fetcher, risk tiering engine and evolutionary allocator

    A shallow embedding of [src/price_data.py], [src/portfolio_optimizer.py]
    and [src/evolutionary_optimizer.py], and of the tier separation of the
    chat endpoint of [app.py], with the properties of the natural-language
    specification stated and settled over it.

    Conventions of the embedding.
    - A Python [float] is a [pyfloat]: a rational, one of the two infinities,
      or NaN.  Arithmetic on finite values is exact (rational); comparisons
      follow IEEE-754 as Python exposes them (every comparison with NaN is
      false).
    - A Python [str] is a [string]; a Python [int] is a [Z].
    - A Python exception is the [Raise] outcome of the [result] type.
    - What the code calls and this development does not open (Yahoo, Stooq,
      the random number generators, pandas' coercions and numeric kernels) are
      the fields of the classes [Pandas], [Sources], [Numerics] and [Random];
      the file system is part of the [world] the IO code runs in. *)

From Stdlib Require Import List String Ascii ZArith QArith Qabs Qround Bool Lia
  Lqa Permutation Sorted Decimal DecimalString DecimalNat.
Import ListNotations.
Local Open Scope string_scope.

(** ** Python floats *)

Inductive pyfloat : Type :=
| NaN
| NInf
| PInf
| Num (q : Q).

Definition Qlt_bool (x y : Q) : bool := negb (Qle_bool y x).

(** [a < b] on Python floats. *)
Definition flt (a b : pyfloat) : bool :=
  match a, b with
  | NaN, _ | _, NaN => false
  | _, NInf => false
  | NInf, _ => true
  | PInf, _ => false
  | Num _, PInf => true
  | Num x, Num y => Qlt_bool x y
  end.

(** [a <= b] on Python floats. *)
Definition fle (a b : pyfloat) : bool :=
  match a, b with
  | NaN, _ | _, NaN => false
  | NInf, _ => true
  | _, PInf => true
  | _, NInf => false
  | PInf, _ => false
  | Num x, Num y => Qle_bool x y
  end.

(** [np.isnan]. *)
Definition isnan (a : pyfloat) : bool :=
  match a with NaN => true | _ => false end.

(** ** Exceptions *)

Inductive exn : Type := ValueError | KeyError | TypeError | IOError.

Inductive result (A : Type) : Type :=
| Return (a : A)
| Raise (e : exn).
Arguments Return {A} a.
Arguments Raise {A} e.

Definition rbind {A B : Type} (c : result A) (k : A -> result B) : result B :=
  match c with
  | Return a => k a
  | Raise e => Raise e
  end.

Declare Scope result_scope.
Delimit Scope result_scope with result.
Notation "x <- c ;; k" := (rbind c (fun x => k))
  (at level 61, c at next level, right associativity) : result_scope.

(** ** Python strings and lists *)

Module Py.

Definition lower_ascii (c : ascii) : ascii :=
  let n := nat_of_ascii c in
  if (65 <=? n)%nat && (n <=? 90)%nat then ascii_of_nat (n + 32) else c.

Definition upper_ascii (c : ascii) : ascii :=
  let n := nat_of_ascii c in
  if (97 <=? n)%nat && (n <=? 122)%nat then ascii_of_nat (n - 32) else c.

Fixpoint smap (f : ascii -> ascii) (s : string) : string :=
  match s with
  | EmptyString => EmptyString
  | String c r => String (f c) (smap f r)
  end.

(** [s.lower()] and [s.upper()], on the ASCII range. *)
Definition lower : string -> string := smap lower_ascii.
Definition upper : string -> string := smap upper_ascii.

(** [str(n)] for a natural number: its decimal digits. *)
Definition str_of_nat (n : nat) : string :=
  NilEmpty.string_of_uint (Nat.to_uint n).

(** [s.startswith(p)]. *)
Definition startswith (p s : string) : bool := String.prefix p s.

(** [p in s] for two strings. *)
Fixpoint contains (p s : string) : bool :=
  String.prefix p s ||
  match s with
  | EmptyString => false
  | String _ r => contains p r
  end.

Definition is_space (c : ascii) : bool :=
  let n := nat_of_ascii c in
  (n =? 32)%nat || ((9 <=? n)%nat && (n <=? 13)%nat)
  || ((28 <=? n)%nat && (n <=? 31)%nat).

Fixpoint lstrip (s : string) : string :=
  match s with
  | String c r => if is_space c then lstrip r else s
  | EmptyString => EmptyString
  end.

Fixpoint rev_string (s acc : string) : string :=
  match s with
  | EmptyString => acc
  | String c r => rev_string r (String c acc)
  end.

(** [s.strip()]. *)
Definition strip (s : string) : string :=
  rev_string (lstrip (rev_string (lstrip s) "")) "".

(** [sep.join(l)]. *)
Fixpoint join (sep : string) (l : list string) : string :=
  match l with
  | [] => ""
  | [x] => x
  | x :: r => x ++ sep ++ join sep r
  end.

(** [x in l] for a list of strings. *)
Definition mem (x : string) (l : list string) : bool :=
  existsb (String.eqb x) l.

(** [next((c for c in cands if c in l), None)]. *)
Definition first_in (cands l : list string) : option string :=
  find (fun c => mem c l) cands.

(** [l[-k:]] for [k >= 1]. *)
Definition last_n {A : Type} (k : nat) (l : list A) : list A :=
  skipn (List.length l - k) l.

(** [d.get(k)] on a dict with string keys, as an association list. *)
Fixpoint lookup {A : Type} (k : string) (l : list (string * A)) : option A :=
  match l with
  | [] => None
  | (k', v) :: r => if String.eqb k k' then Some v else lookup k r
  end.

(** [d[k] = v] on a Python [dict]: insertion-ordered, and assigning to a key
    that exists keeps its place.  The columns of a frame behave the same. *)
Fixpoint dict_set {A : Type} (k : string) (v : A) (d : list (string * A))
  : list (string * A) :=
  match d with
  | [] => [(k, v)]
  | (k', v') :: r =>
      if String.eqb k k' then (k, v) :: r else (k', v') :: dict_set k v r
  end.

End Py.

(** ** The pandas objects the code handles *)

Module Frames.

(** One value of a column: missing ([None], [NaN] of an object column,
    [NaT]), a string, a float, or a timestamp in nanoseconds. *)
Inductive cell : Type :=
| CNone
| CStr (s : string)
| CNum (x : pyfloat)
| CTime (t : Z).

(** The columns of a frame with their labels: names under a plain [Index],
    tuples of names under a [MultiIndex]. *)
Inductive Columns : Type :=
| Index (cols : list (string * list cell))
| MultiIndex (cols : list (list string * list cell)).

(** A [DataFrame]: its columns, each a list of cells as long as [index]. *)
Record DataFrame : Type := mkDataFrame {
  columns : Columns;
  index_name : option string;
  index : list cell
}.

(** [pd.DataFrame()]. *)
Definition empty_frame : DataFrame := mkDataFrame (Index []) None [].

Definition ncols (df : DataFrame) : nat :=
  match columns df with
  | Index l => List.length l
  | MultiIndex l => List.length l
  end.

(** [len(df)]. *)
Definition len (df : DataFrame) : Z := Z.of_nat (List.length (index df)).

(** [df.empty]: some axis has length zero. *)
Definition empty (df : DataFrame) : bool :=
  (List.length (index df) =? 0)%nat || (ncols df =? 0)%nat.

(** [isinstance(df.columns, pd.MultiIndex)]. *)
Definition is_multi (df : DataFrame) : bool :=
  match columns df with MultiIndex _ => true | Index _ => false end.

(** [" ".join([str(c) for c in tup if str(c) != ""])]. *)
Definition join_tuple (tup : list string) : string :=
  Py.join " " (filter (fun c => negb (String.eqb c "")) tup).

(** [df.columns = [" ".join(...) for tup in df.columns]]. *)
Definition flatten (df : DataFrame) : DataFrame :=
  match columns df with
  | Index _ => df
  | MultiIndex l =>
      mkDataFrame (Index (map (fun p => (join_tuple (fst p), snd p)) l))
        (index_name df) (index df)
  end.

(** A frame with plain columns. *)
Definition flat (df : DataFrame) : Prop := is_multi df = false.

(** The labels of plain columns. *)
Definition names (df : DataFrame) : list string :=
  match columns df with
  | Index l => map fst l
  | MultiIndex l => map (fun p => join_tuple (fst p)) l
  end.

(** [c in df.columns]; on a [MultiIndex] a string matches a first level. *)
Definition has_column (c : string) (df : DataFrame) : bool :=
  match columns df with
  | Index l => Py.mem c (map fst l)
  | MultiIndex l => existsb (fun p => String.eqb c (hd "" (fst p))) l
  end.

(** [df[c]]: the column, or [KeyError]; on a [MultiIndex] the one column
    whose first level is [c]. *)
Definition getitem (df : DataFrame) (c : string) : result (list cell) :=
  match columns df with
  | Index l =>
      match Py.lookup c l with
      | Some col => Return col
      | None => Raise KeyError
      end
  | MultiIndex l =>
      match filter (fun p => String.eqb c (hd "" (fst p))) l with
      | [p] => Return (snd p)
      | [] => Raise KeyError
      | _ => Raise ValueError
      end
  end.

Fixpoint set_multi (c : string) (lab : list string) (col : list cell)
    (l : list (list string * list cell)) : list (list string * list cell) :=
  match l with
  | [] => [(lab, col)]
  | p :: r =>
      if String.eqb c (hd "" (fst p)) then (fst p, col) :: r
      else p :: set_multi c lab col r
  end.

(** [df[c] = col]: overwrite the column when the label exists, append it
    otherwise (on a [MultiIndex] the new label is padded with [""]). *)
Definition setitem (df : DataFrame) (c : string) (col : list cell) : DataFrame :=
  match columns df with
  | Index l => mkDataFrame (Index (Py.dict_set c col l)) (index_name df) (index df)
  | MultiIndex l =>
      let lab := c :: repeat "" (List.length (fst (hd ([], []) l)) - 1) in
      mkDataFrame (MultiIndex (set_multi c lab col l)) (index_name df) (index df)
  end.

(** [df.rename(columns={old: new})]. *)
Definition rename (df : DataFrame) (old new : string) : DataFrame :=
  let r := fun n => if String.eqb n old then new else n in
  mkDataFrame
    (match columns df with
     | Index l => Index (map (fun p => (r (fst p), snd p)) l)
     | MultiIndex l => MultiIndex (map (fun p => (map r (fst p), snd p)) l)
     end)
    (index_name df) (index df).

(** A [RangeIndex] of [n] rows. *)
Definition range_index (n : nat) : list cell :=
  map (fun i => CNum (Num (inject_Z (Z.of_nat i)))) (seq 0 n).

(** [df.reset_index()]: the index becomes the first column, labelled with the
    index name, or ["index"] (["level_0"] when ["index"] is taken); inserting
    a label that exists raises [ValueError]. *)
Definition reset_index (df : DataFrame) : result DataFrame :=
  let name :=
    match index_name df with
    | Some n => n
    | None => if has_column "index" df then "level_0" else "index"
    end in
  if has_column name df then Raise ValueError
  else
    Return (mkDataFrame
      (match columns df with
       | Index l => Index ((name, index df) :: l)
       | MultiIndex l =>
           MultiIndex
             ((name :: repeat "" (List.length (fst (hd ([], []) l)) - 1), index df) :: l)
       end)
      None
      (range_index (List.length (index df)))).

(** [pd.isna] of one cell. *)
Definition isna (c : cell) : bool :=
  match c with
  | CNone => true
  | CNum x => isnan x
  | _ => false
  end.

(** The pandas kernels the code calls and this development does not open:
    the two coercions (with [errors="coerce"], so a value that does not
    convert becomes NaN or NaT), [str] of a cell, and the CSV reader and
    writer over the text of a file. *)
Class Pandas : Type := {
  to_numeric : list cell -> list pyfloat;
  to_datetime_format : list cell -> list (option Z);
  to_datetime : list cell -> list (option Z);
  str : cell -> string;
  read_csv : string -> bool -> result DataFrame;
  to_csv : DataFrame -> string
}.

Definition cell_of_time (d : option Z) : cell :=
  match d with Some t => CTime t | None => CNone end.

(** A row of the two canonical columns, with its index label. *)
Record row : Type := mkRow { label : cell; Date : cell; Adj_Close : cell }.

Definition rows_of (idx dates prices : list cell) : list row :=
  map (fun p => mkRow (fst p) (fst (snd p)) (snd (snd p)))
      (combine idx (combine dates prices)).

(** [df.dropna(subset=["Date", "Adj Close"])]. *)
Definition dropna (rs : list row) : list row :=
  filter (fun r => negb (isna (Date r)) && negb (isna (Adj_Close r))) rs.

Definition time_key (c : cell) : Z :=
  match c with CTime t => t | _ => 0%Z end.

Fixpoint insert_by {A : Type} (key : A -> Z) (x : A) (l : list A) : list A :=
  match l with
  | [] => [x]
  | y :: r => if (key x <=? key y)%Z then x :: l else y :: insert_by key x r
  end.

(** [df.sort_values("Date")] on rows whose dates are timestamps.  Rows with
    equal dates keep their relative order here; pandas' default sort does not
    promise an order among them. *)
Definition sort_values (rs : list row) : list row :=
  fold_right (insert_by (fun r => time_key (Date r))) [] rs.

(** The frame [out[["Date", "Adj Close"]]] of a list of rows. *)
Definition frame_of_rows (iname : option string) (rs : list row) : DataFrame :=
  mkDataFrame (Index [("Date", map Date rs); ("Adj Close", map Adj_Close rs)])
    iname (map label rs).

(** Rows in ascending order of a key. *)
Definition key_le {A : Type} (key : A -> Z) (a b : A) : Prop := (key a <= key b)%Z.

(** What [_normalize_df] returns: [pd.DataFrame()] or two typed columns. *)
Inductive canonical : DataFrame -> Prop :=
| canonical_empty : canonical empty_frame
| canonical_rows (iname : option string) (rs : list row) :
    Forall (fun r => exists t x,
              Date r = CTime t /\ Adj_Close r = CNum x /\ isnan x = false) rs ->
    StronglySorted (key_le (fun r => time_key (Date r))) rs ->
    canonical (frame_of_rows iname rs).

End Frames.

(** ** The outside world: the disk and the live sources *)

Module World.
Import Frames.

(** What a run does to the outside world, in order. *)
Inductive event : Type :=
| EvYahoo (ticker : string)
| EvStooq (ticker : string)
| EvExists (path : string)
| EvRead (path : string)
| EvWrite (path : string).

(** The files of the disk (path, text; the first binding of a path is the
    current one) and the events so far, the latest first. *)
Record world : Type := mkWorld {
  disk : list (string * string);
  trace : list event
}.

(** The live sources.  [yf.download] and [pdr.DataReader] may raise, may
    return something that is not a [DataFrame] ([None] here), and may answer
    differently from one call to the next: they see the events so far. *)
Class Sources : Type := {
  HAS_YF : bool;
  HAS_PDR : bool;
  yf_download : list event -> string -> string -> string -> result (option DataFrame);
  DataReader : list event -> string -> result (option DataFrame);
  today : Z
}.

(** Code that runs in the world and may raise. *)
Definition IO (A : Type) : Type := world -> result A * world.

Definition ret {A : Type} (a : A) : IO A := fun w => (Return a, w).

Definition bind {A B : Type} (c : IO A) (k : A -> IO B) : IO B :=
  fun w =>
    match c w with
    | (Return a, w') => k a w'
    | (Raise e, w') => (Raise e, w')
    end.

(** A computation that touches nothing. *)
Definition lift {A : Type} (r : result A) : IO A := fun w => (r, w).

(** [try: c  except Exception: h]. *)
Definition try_except {A : Type} (c : IO A) (h : IO A) : IO A :=
  fun w =>
    match c w with
    | (Return a, w') => (Return a, w')
    | (Raise _, w') => h w'
    end.

Definition log (e : event) : IO unit :=
  fun w => (Return tt, mkWorld (disk w) (e :: trace w)).

(** [f.exists()]. *)
Definition exists_ (path : string) : IO bool :=
  fun w =>
    (Return (match Py.lookup path (disk w) with Some _ => true | None => false end),
     mkWorld (disk w) (EvExists path :: trace w)).

(** The text of a file; a missing file raises. *)
Definition read_file (path : string) : IO string :=
  fun w =>
    (match Py.lookup path (disk w) with
     | Some text => Return text
     | None => Raise IOError
     end,
     mkWorld (disk w) (EvRead path :: trace w)).

(** Overwrite a file with a text. *)
Definition write_file (path text : string) : IO unit :=
  fun w => (Return tt, mkWorld ((path, text) :: disk w) (EvWrite path :: trace w)).

(** *** What a piece of IO code may do *)

(** It returns in every world. *)
Definition total {A : Type} (c : IO A) : Prop :=
  forall w, exists a w', c w = (Return a, w').

(** Whatever it returns satisfies [P]. *)
Definition returns {A : Type} (P : A -> Prop) (c : IO A) : Prop :=
  forall w a w', c w = (Return a, w') -> P a.

(** It leaves the files as they are. *)
Definition keeps_disk {A : Type} (c : IO A) : Prop :=
  forall w, disk (snd (c w)) = disk w.

(** Two worlds hold the same text (or none) at each path of [F]. *)
Definition agree (F : list string) (w1 w2 : world) : Prop :=
  forall f, In f F -> Py.lookup f (disk w1) = Py.lookup f (disk w2).

(** Its outcome depends on the files at the paths of [F] alone, and it writes
    nothing. *)
Definition reads_only (F : list string) {A : Type} (c : IO A) : Prop :=
  keeps_disk c /\ forall w1 w2, agree F w1 w2 -> fst (c w1) = fst (c w2).

End World.

Declare Scope io_scope.
Delimit Scope io_scope with io.
Notation "x <- c ;; k" := (World.bind c (fun x => k))
  (at level 61, c at next level, right associativity) : io_scope.
Notation "c ;;; k" := (World.bind c (fun _ => k))
  (at level 61, right associativity) : io_scope.

(** ** [src/price_data.py] *)

Module PriceData.
Import Frames World.

Section Code.
Context {pandas : Pandas} {sources : Sources}.

(** [_to_datetime_robust(s)]: the ISO format first, then the general parser
    for the values the first pass left as NaT ([dt.fillna(dt2)]). *)
Definition _to_datetime_robust (s : list cell) : list (option Z) :=
  let dt := to_datetime_format s in
  if existsb (fun d => match d with None => true | Some _ => false end) dt then
    let dt2 := to_datetime s in
    map (fun p => match fst p with Some t => Some t | None => snd p end)
        (combine dt dt2)
  else dt.

Definition CACHE_DIRS : list string := ["data/prices"; "data/cache_prices"].

Definition date_names : list string :=
  ["Date"; "Datetime"; "date"; "datetime"; "timestamp"].

Definition price_names : list string :=
  ["Adj Close"; "AdjClose"; "Adjusted Close"; "adjusted close"; "adj close";
   "Close"; "close"; "Last"; "Price"; "price"].

(** [_normalize_df(df)].  The argument is [None] or a frame.  (On a frame
    with a [MultiIndex] the code flattens the labels of its argument in place;
    no caller looks at that frame again.) *)
Definition _normalize_df (df : option DataFrame) : result DataFrame :=
  match df with
  | None => Return empty_frame
  | Some df =>
    if empty df then Return empty_frame else
    (* a MultiIndex is flattened to joined names *)
    let df := if is_multi df then flatten df else df in
    let out := df in
    (* ---- Date ---- *)
    (out <-
      match Py.first_in date_names (names out) with
      | None =>
          match index_name out with
          | Some n =>
              if negb (String.eqb n "")
                 && Py.mem (Py.lower n) ["date"; "datetime"; "timestamp"]
              then (r <- reset_index out ;; Return (rename r n "Date"))
              else (r <- reset_index out ;; Return (rename r "index" "Date"))
          | None => (r <- reset_index out ;; Return (rename r "index" "Date"))
          end
      | Some date_col =>
          if negb (String.eqb date_col "Date")
          then Return (rename out date_col "Date")
          else Return out
      end ;;
    (* ---- Adj Close (fallbacks) ---- *)
    match Py.first_in price_names (names out) with
    | None => Return empty_frame
    | Some adj_col =>
        prices <- getitem out adj_col ;;
        let out := setitem out "Adj Close" (map CNum (to_numeric prices)) in
        dates <- getitem out "Date" ;;
        let out := setitem out "Date" (map cell_of_time (_to_datetime_robust dates)) in
        dates <- getitem out "Date" ;;
        prices <- getitem out "Adj Close" ;;
        Return (frame_of_rows (index_name out)
                  (sort_values (dropna (rows_of (index out) dates prices))))
    end)%result
  end.

(** The cells of a column of a frame; none when the frame lacks the column,
    as [pd.DataFrame()] does. *)
Definition column (df : DataFrame) (c : string) : list cell :=
  match getitem df c with Return l => l | Raise _ => [] end.

(** Keep the rows of a frame that a mask marks, as [df[mask]] does. *)
Fixpoint mask_list {A : Type} (mask : list bool) (l : list A) : list A :=
  match mask, l with
  | b :: m, x :: r => if b then x :: mask_list m r else mask_list m r
  | _, _ => []
  end.

(** Apply [f] to the index and to every column. *)
Definition map_rows (f : list cell -> list cell) (df : DataFrame) : DataFrame :=
  mkDataFrame
    (match columns df with
     | Index l => Index (map (fun p => (fst p, f (snd p))) l)
     | MultiIndex l => MultiIndex (map (fun p => (fst p, f (snd p))) l)
     end)
    (index_name df) (f (index df)).

Definition filter_rows (mask : list bool) (df : DataFrame) : DataFrame :=
  map_rows (mask_list mask) df.

(** [raw.iloc[k:]]. *)
Definition iloc_from (k : nat) (df : DataFrame) : DataFrame :=
  map_rows (skipn k) df.

(** [raw.iloc[i, 0]]. *)
Definition iloc_0 (i : nat) (df : DataFrame) : cell :=
  nth i (match columns df with
         | Index l => snd (hd ("", []) l)
         | MultiIndex l => snd (hd ([], []) l)
         end) CNone.

(** [df.columns = new_names]: a length mismatch raises [ValueError]. *)
Definition set_columns (df : DataFrame) (l : list string) : result DataFrame :=
  if (List.length l =? ncols df)%nat
  then Return (mkDataFrame
                 (Index (combine l (match columns df with
                                    | Index cs => map snd cs
                                    | MultiIndex cs => map snd cs
                                    end)))
                 (index_name df) (index df))
  else Raise ValueError.

Definition csv_path (dirpath ticker : string) : string :=
  dirpath ++ "/" ++ ticker ++ ".csv".

(** The files [_load_csv(t)] looks at. *)
Definition cache_paths (t : string) : list string :=
  map (fun d => csv_path d t) CACHE_DIRS.

(** [_load_csv_from(dirpath, ticker)]. *)
Definition _load_csv_from (dirpath ticker : string) : IO DataFrame :=
  let f := csv_path dirpath ticker in
  (ex <- exists_ f ;;
   if negb ex then ret empty_frame else
   (* the custom cache layout *)
   custom <-
     try_except
       (text <- read_file f ;;
        raw <- lift (read_csv text false) ;;
        if (4 <=? List.length (index raw))%nat && (2 <=? ncols raw)%nat then
          let v00 := Py.lower (Py.strip (str (iloc_0 0 raw))) in
          let v10 := Py.lower (Py.strip (str (iloc_0 1 raw))) in
          let v20 := Py.lower (Py.strip (str (iloc_0 2 raw))) in
          if String.eqb v00 "price" && String.eqb v10 "ticker"
             && Py.startswith "date" v20 then
            lift (df <- set_columns (iloc_from 2 raw) ["Date"; "Adj Close"] ;;
                  r <- _normalize_df (Some df) ;;
                  Return (Some r))%result
          else ret None
        else ret None)
       (ret None) ;;
   match custom with
   | Some df => ret df
   | None =>
     (* normal CSVs *)
     try_except
       (text <- read_file f ;;
        df <- lift (read_csv text true) ;;
        let df :=
          match columns df with
          | Index cs =>
              let l := map fst cs in
              if Py.mem "Date" l && negb (Py.mem "Adj Close" l)
                 && (List.length l =? 2)%nat
              then
                let other := hd "" (filter (fun c => negb (String.eqb c "Date")) l) in
                rename df other "Adj Close"
              else df
          | MultiIndex _ => df
          end in
        lift (_normalize_df (Some df)))
       (ret empty_frame)
   end)%io.

(** [_load_csv(ticker)]: the first cache directory with a non-empty frame. *)
Fixpoint load_csv_dirs (dirs : list string) (ticker : string) : IO DataFrame :=
  match dirs with
  | [] => ret empty_frame
  | d :: rest =>
      (df <- _load_csv_from d ticker ;;
       if negb (empty df) then ret df else load_csv_dirs rest ticker)%io
  end.

Definition _load_csv (ticker : string) : IO DataFrame :=
  load_csv_dirs CACHE_DIRS ticker.

(** [_save_csv(ticker, df)]. *)
Definition _save_csv (ticker : string) (df : DataFrame) : IO unit :=
  if empty df then ret tt else
  (out <- lift (_normalize_df (Some df)) ;;
   if empty out then ret tt
   else write_file (csv_path (hd "" CACHE_DIRS) ticker) (to_csv out))%io.

(** *** Period helpers for Stooq *)

Definition is_digit (c : ascii) : bool :=
  let n := nat_of_ascii c in (48 <=? n)%nat && (n <=? 57)%nat.

(** The leading digits of a string: their value, how many, and the rest. *)
Fixpoint take_digits (s : string) (acc : Z) (count : nat) : Z * nat * string :=
  match s with
  | String c r =>
      if is_digit c
      then take_digits r (10 * acc + Z.of_nat (nat_of_ascii c - 48)) (S count)
      else (acc, count, s)
  | EmptyString => (acc, count, s)
  end.

(** [_period_to_days(period)]: the pattern is
    [^\s*(\d+)\s*([dwmy])\s*$] on the lowercased string. *)
Definition _period_to_days (period : string) : Z :=
  let '(n, count, rest) := take_digits (Py.lstrip (Py.lower period)) 0 0 in
  match count, Py.lstrip rest with
  | S _, String u tl =>
      if String.eqb (Py.lstrip tl) "" then
        if Ascii.eqb u "d" then n
        else if Ascii.eqb u "w" then n * 7
        else if Ascii.eqb u "m" then n * 30
        else if Ascii.eqb u "y" then n * 365
        else 365
      else 365
  | _, _ => 365
  end%Z.

(** [pd.Timedelta(days=1)] in nanoseconds. *)
Definition day_ns : Z := 86400000000000.

(** *** Live downloaders *)

(** [if "Adj Close" not in df.columns and "Close" in df.columns:
       df["Adj Close"] = df["Close"]]. *)
Definition fill_adj_close (df : DataFrame) : result DataFrame :=
  if negb (has_column "Adj Close" df) && has_column "Close" df
  then (c <- getitem df "Close" ;; Return (setitem df "Adj Close" c))%result
  else Return df.

Definition call_yahoo (ticker period interval : string) : IO (option DataFrame) :=
  fun w => (yf_download (trace w) ticker period interval,
            mkWorld (disk w) (EvYahoo ticker :: trace w)).

Definition call_stooq (ticker : string) : IO (option DataFrame) :=
  fun w => (DataReader (trace w) ticker,
            mkWorld (disk w) (EvStooq ticker :: trace w)).

(** [_download_yf(ticker, period, interval)]. *)
Definition _download_yf (ticker period interval : string) : IO DataFrame :=
  if negb HAS_YF then ret empty_frame else
  try_except
    (raw <- call_yahoo ticker period interval ;;
     match raw with
     | Some raw =>
         if negb (empty raw) then
           lift (df <- reset_index raw ;;
                 df <- fill_adj_close df ;;
                 _normalize_df (Some df))%result
         else ret empty_frame
     | None => ret empty_frame
     end)%io
    (ret empty_frame).

(** [df["Date"] >= cutoff], value by value: NaT compares false, a value that
    is not a timestamp raises [TypeError]. *)
Fixpoint ge_cutoff (cutoff : Z) (col : list cell) : result (list bool) :=
  match col with
  | [] => Return []
  | c :: r =>
      (b <- match c with
            | CTime t => Return (cutoff <=? t)%Z
            | CNone => Return false
            | _ => Raise TypeError
            end ;;
       m <- ge_cutoff cutoff r ;;
       Return (b :: m))%result
  end.

(** [_download_stooq(ticker, period)]. *)
Definition _download_stooq (ticker period : string) : IO DataFrame :=
  if negb HAS_PDR then ret empty_frame else
  try_except
    (df <- call_stooq ticker ;;
     match df with
     | Some df =>
         if negb (empty df) then
           lift (df <- reset_index df ;;
                 let days := _period_to_days period in
                 let cutoff := (today - days * day_ns)%Z in
                 dates <- getitem df "Date" ;;
                 mask <- ge_cutoff cutoff dates ;;
                 let df := filter_rows mask df in
                 df <- fill_adj_close df ;;
                 _normalize_df (Some df))%result
         else ret empty_frame
     | None => ret empty_frame
     end)%io
    (ret empty_frame).

(** *** Public API *)

(** [df.empty or len(df) < min_rows]. *)
Definition too_thin (df : DataFrame) (min_rows : Z) : bool :=
  empty df || (len df <? min_rows)%Z.

(** The body of the [for t in tickers] loop of [get_price_history], up to the
    frame it settles on. *)
Definition fetch_one (t period interval : string) (prefer_live : bool)
    (min_rows : Z) (use_cache allow_stooq_fallback : bool) : IO DataFrame :=
  (if prefer_live then
     (* 1) Yahoo *)
     df <- _download_yf t period interval ;;
     (* 2) Stooq fallback (optional) *)
     df <- (if too_thin df min_rows && allow_stooq_fallback
            then _download_stooq t period else ret df) ;;
     (* 3) Cache *)
     if too_thin df min_rows && use_cache then _load_csv t else ret df
   else
     (* 1) Cache *)
     df <- (if use_cache then _load_csv t else ret empty_frame) ;;
     (* 2) Live *)
     if too_thin df min_rows then
       live <- _download_yf t period interval ;;
       live <- (if too_thin live min_rows && allow_stooq_fallback
                then _download_stooq t period else ret live) ;;
       if negb (empty live) then ret live else ret df
     else ret df)%io.

Fixpoint history_loop (tickers : list string) (period interval : string)
    (prefer_live : bool) (min_rows : Z) (use_cache allow_stooq_fallback : bool)
    (out : list (string * DataFrame)) : IO (list (string * DataFrame)) :=
  match tickers with
  | [] => ret out
  | t :: rest =>
      (df <- fetch_one t period interval prefer_live min_rows use_cache
               allow_stooq_fallback ;;
       (if negb (empty df) then _save_csv t df else ret tt) ;;;
       history_loop rest period interval prefer_live min_rows use_cache
         allow_stooq_fallback (Py.dict_set t df out))%io
  end.

(** [get_price_history(tickers, period, interval, prefer_live, min_rows,
    use_cache, allow_stooq_fallback)]. *)
Definition get_price_history (tickers : list string) (period interval : string)
    (prefer_live : bool) (min_rows : Z) (use_cache allow_stooq_fallback : bool)
  : IO (list (string * DataFrame)) :=
  let out := [] in
  let tickers := map Py.upper tickers in
  history_loop tickers period interval prefer_live min_rows use_cache
    allow_stooq_fallback out.

(** The inner loop of [list_cached_tickers]: the stems of one directory. *)
Definition add_stems (seen stems : list string) : list string :=
  fold_left (fun seen stem =>
               let name := Py.upper stem in
               if Py.mem name seen then seen else (seen ++ [name])%list)
            stems seen.

(** [list_cached_tickers()].  [glob_stems d] is the [p.stem] of every path
    [d.glob("*.csv")] yields, in the order it yields them. *)
Definition list_cached_tickers (glob_stems : string -> list string) : list string :=
  let seen := [] in
  fold_left (fun seen d => add_stems seen (glob_stems d)) CACHE_DIRS seen.

(** Every source comes back with nothing for the ticker [T]: Yahoo and Stooq
    whenever they are asked, and the cache as the disk of [w0] has it. *)
Definition sources_fail (T : string) (w0 : world) : Prop :=
  (forall p i w df w', _download_yf T p i w = (Return df, w') -> empty df = true)
  /\ (forall p w df w', _download_stooq T p w = (Return df, w') -> empty df = true)
  /\ (forall tr df w',
        _load_csv T (mkWorld (disk w0) tr) = (Return df, w') -> empty df = true).

(** *** Matrix helpers *)

(** A float [Series] with a name: [df.set_index("Date")["Adj Close"]
    .astype(float).rename(t)]. *)
Record Series : Type := mkSeries {
  sname : string;
  sindex : list cell;
  svalues : list pyfloat
}.

(** The wide price matrix, row-major: one row per date, one value per label
    of [mcolumns].  [pd.DataFrame()] is the matrix without columns or rows. *)
Record Matrix : Type := mkMatrix {
  mcolumns : list string;
  mrows : list (cell * list pyfloat)
}.

(** A series with one value per label, none of them NaN. *)
Definition clean_series (s : Series) : Prop :=
  List.length (sindex s) = List.length (svalues s)
  /\ Forall (fun x => isnan x = false) (svalues s).

Definition empty_matrix : Matrix := mkMatrix [] [].

Definition pyfloat_eqb (a b : pyfloat) : bool :=
  match a, b with
  | NaN, NaN | NInf, NInf | PInf, PInf => true
  | Num x, Num y => Qeq_bool x y
  | _, _ => false
  end.

(** Two index labels are the same label. *)
Definition cell_eqb (a b : cell) : bool :=
  match a, b with
  | CNone, CNone => true
  | CStr x, CStr y => String.eqb x y
  | CNum x, CNum y => pyfloat_eqb x y
  | CTime x, CTime y => (x =? y)%Z
  | _, _ => false
  end.

Fixpoint cells_eqb (a b : list cell) : bool :=
  match a, b with
  | [], [] => true
  | x :: r, y :: r' => cell_eqb x y && cells_eqb r r'
  | _, _ => false
  end.

Fixpoint has_duplicates (l : list cell) : bool :=
  match l with
  | [] => false
  | x :: r => existsb (cell_eqb x) r || has_duplicates r
  end.

(** [.astype(float)] of one cell. *)
Definition as_float (c : cell) : result pyfloat :=
  match c with
  | CNum x => Return x
  | CNone => Return NaN
  | CStr _ => Raise ValueError
  | CTime _ => Raise TypeError
  end.

Fixpoint astype_float (col : list cell) : result (list pyfloat) :=
  match col with
  | [] => Return []
  | c :: r => (x <- as_float c ;; xs <- astype_float r ;; Return (x :: xs))%result
  end.

(** The value of a series at a label (the first row with that label). *)
Fixpoint value_at (d : cell) (idx : list cell) (vals : list pyfloat) : pyfloat :=
  match idx, vals with
  | i :: idx', v :: vals' => if cell_eqb d i then v else value_at d idx' vals'
  | _, _ => NaN
  end.

(** [pd.concat(series, axis=1, join="inner")].  A single series becomes a
    one-column frame on its own index.  Two series or more are reindexed on
    the labels common to all, each label once, in the order of the first
    series; pandas refuses to reindex a series whose index has a label twice
    ([ValueError]: cannot reindex on an axis with duplicate labels). *)
Definition concat_inner (series : list Series) : result Matrix :=
  match series with
  | [] => Raise ValueError
  | s0 :: rest =>
      match rest with
      | [] =>
        Return (mkMatrix (map sname series)
                  (map (fun i => (nth i (sindex s0) CNone,
                                  map (fun s => nth i (svalues s) NaN) series))
                       (seq 0 (List.length (sindex s0)))))
      | _ :: _ =>
        if existsb (fun s => has_duplicates (sindex s)) series then
          Raise ValueError
        else
          let common :=
            filter (fun d => forallb (fun s => existsb (cell_eqb d) (sindex s)) rest)
                   (sindex s0) in
          Return (mkMatrix (map sname series)
                    (map (fun d => (d, map (fun s => value_at d (sindex s) (svalues s))
                                           series))
                         common))
      end
  end.

(** [wide.sort_index()].  Rows of equal date keep their relative order here;
    pandas' default sort does not promise an order among them. *)
Definition sort_index (m : Matrix) : Matrix :=
  mkMatrix (mcolumns m)
    (fold_right (insert_by (fun r => time_key (fst r))) [] (mrows m)).

(** [wide.tail(n)]. *)
Definition tail (n : Z) (m : Matrix) : Matrix :=
  mkMatrix (mcolumns m) (Py.last_n (Z.to_nat n) (mrows m)).

(** [_infer_period_from_lookback(lookback_days)]. *)
Definition _infer_period_from_lookback (lookback_days : Z) : string :=
  if (lookback_days <=? 260)%Z then "2y"
  else if (lookback_days <=? 520)%Z then "3y"
  else "5y".

(** The series of the frames of a bundle that are not empty. *)
Fixpoint series_of_bundle (bundle : list (string * DataFrame)) : result (list Series) :=
  match bundle with
  | [] => Return []
  | (t, df) :: rest =>
      if empty df then series_of_bundle rest
      else
        (idx <- getitem df "Date" ;;
         col <- getitem df "Adj Close" ;;
         vals <- astype_float col ;;
         ss <- series_of_bundle rest ;;
         Return (mkSeries t idx vals :: ss))%result
  end.

(** [get_prices_matrix(tickers, lookback_days, period, interval, prefer_live,
    min_rows, use_cache, allow_stooq_fallback)], the definition in force (the
    second of the module, which replaces the first). *)
Definition get_prices_matrix (tickers : list string) (lookback_days : Z)
    (period : option string) (interval : string) (prefer_live : bool)
    (min_rows : Z) (use_cache allow_stooq_fallback : bool) : IO Matrix :=
  let tickers := map Py.upper tickers in
  let period :=
    match period with
    | Some p => if String.eqb p "" then _infer_period_from_lookback lookback_days else p
    | None => _infer_period_from_lookback lookback_days
    end in
  (bundle <- get_price_history tickers period interval prefer_live min_rows
               use_cache allow_stooq_fallback ;;
   series <- lift (series_of_bundle bundle) ;;
   match series with
   | [] => ret empty_matrix
   | _ =>
       wide <- lift (concat_inner series) ;;
       let wide := sort_index wide in
       let wide := if (lookback_days >? 0)%Z then tail lookback_days wide else wide in
       ret wide
   end)%io.

End Code.
End PriceData.

(** ** [src/portfolio_optimizer.py] *)

Module Tiering.
Import Frames World PriceData.

(** [categorize_esg(esg_score)]. *)
Definition categorize_esg (esg_score : pyfloat) : string :=
  if flt esg_score (Num 20) then "Low"
  else if flt esg_score (Num 30) then "Medium"
  else "High".

(** The [thresholds] dict, with its two keys ["low"] and ["high"]. *)
Record thresholds_t : Type := mkThresholds { low : pyfloat; high : pyfloat }.

(** [categorize_risk(volatility, thresholds)]. *)
Definition categorize_risk (volatility : pyfloat) (thresholds : thresholds_t) : string :=
  let v := volatility in
  if fle v (low thresholds) then "Low"
  else if fle v (high thresholds) then "Medium"
  else "High".

(** A row of [esg_df]; [row.get("ESG_Score", np.nan)] is [NaN] for a missing
    score and [row.get("Industry", "")] is [""] for a missing industry. *)
Record esg_row : Type := mkEsgRow {
  row_Ticker : string;
  row_ESG_Score : pyfloat;
  row_Industry : string
}.

(** One dict of the list that [optimize_portfolio] returns: a full
    recommendation, or a dict with the key ["Ticker"] alone. *)
Record recommendation : Type := mkRec {
  Ticker : string;
  ESG_Score : pyfloat;
  ESG_Category : string;
  Risk_Category : string;
  Volatility : pyfloat;
  Sentiment : string;
  Industry : string;
  Tier : string
}.

Inductive record : Type :=
| Full (r : recommendation)
| TickerOnly (ticker : string).

(** The numeric kernels this development does not open: the annualised
    volatility of one price column ([pct_change], [std], times [sqrt(252)])
    and [Series.quantile]. *)
Class Numerics : Type := {
  annualized_volatility : list pyfloat -> pyfloat;
  quantile : list pyfloat -> Q -> pyfloat
}.

(** The tier of one ticker, as the strict tier logic of the loop decides it. *)
Definition decide_tier (esg_cat risk_cat sentiment esg_pref risk_pref : string)
    (industry_label : option string) (industry : string) : string :=
  if String.eqb esg_cat esg_pref && String.eqb risk_cat risk_pref then
    if match industry_label with
       | None => true
       | Some l => String.eqb l "" || Py.contains (Py.lower l) (Py.lower industry)
       end
    then "Green"
    else "Green"
  else if (String.eqb esg_cat esg_pref || String.eqb risk_cat risk_pref)
          && negb (String.eqb sentiment "negative")
  then "Yellow"
  else "Red".

(** [d.get(k, default)]. *)
Definition dict_get {A : Type} (d : list (string * A)) (k : string) (default : A) : A :=
  match Py.lookup k d with Some v => v | None => default end.

(** [k in d]. *)
Definition dict_mem {A : Type} (k : string) (d : list (string * A)) : bool :=
  match Py.lookup k d with Some _ => true | None => false end.

(** The rows the loop does not skip: a ticker gets a recommendation when its score is a number and it has a
    volatility. *)
Definition eligible (vol : list (string * pyfloat)) (row : esg_row) : bool :=
  negb (isnan (row_ESG_Score row) || negb (dict_mem (row_Ticker row) vol)).

(** The [for _, row in esg_df.iterrows()] loop. *)
Fixpoint recommend (esg_df : list esg_row) (vol : list (string * pyfloat))
    (thresholds : thresholds_t) (sentiment_scores : list (string * string))
    (esg_pref risk_pref : string) (industry_label : option string)
  : list recommendation :=
  match esg_df with
  | [] => []
  | row :: rest =>
      let t := row_Ticker row in
      let esg_score := row_ESG_Score row in
      let others := recommend rest vol thresholds sentiment_scores esg_pref
                      risk_pref industry_label in
      if isnan esg_score || negb (dict_mem t vol) then others
      else
        let esg_cat := categorize_esg esg_score in
        let risk_cat := categorize_risk (dict_get vol t NaN) thresholds in
        let sentiment := dict_get sentiment_scores t "neutral" in
        let industry := row_Industry row in
        let tier := decide_tier esg_cat risk_cat sentiment esg_pref risk_pref
                      industry_label industry in
        mkRec t esg_score esg_cat risk_cat (dict_get vol t NaN) sentiment
          industry tier :: others
  end.

Fixpoint insert_float (x : pyfloat) (l : list pyfloat) : list pyfloat :=
  match l with
  | [] => [x]
  | y :: r => if fle x y then x :: l else y :: insert_float x r
  end.

Section Code.
Context {pandas : Pandas} {sources : Sources} {numerics : Numerics}.

(** [vol = rets.std() * np.sqrt(252)]: one value per column of [prices]. *)
Definition volatility (prices : Matrix) : list (string * pyfloat) :=
  map (fun j => (nth j (mcolumns prices) "",
                 annualized_volatility (map (fun r => nth j (snd r) NaN) (mrows prices))))
      (seq 0 (List.length (mcolumns prices))).

(** The thresholds from the distribution of the volatilities. *)
Definition thresholds_of (vol : list (string * pyfloat)) : thresholds_t :=
  let vols := fold_right insert_float []
                (filter (fun v => negb (isnan v)) (map snd vol)) in
  let low_thr := match vols with [] => Num 0.2 | _ => quantile vols 0.33 end in
  let high_thr := match vols with [] => Num 0.4 | _ => quantile vols 0.66 end in
  mkThresholds low_thr high_thr.

(** [optimize_portfolio] once the price matrix is there. *)
Definition optimize_from_prices (prices : Matrix) (esg_df : list esg_row)
    (sentiment_scores : list (string * string)) (esg_pref risk_pref : string)
    (industry_label : option string) : list record :=
  let vol := volatility prices in
  let thresholds := thresholds_of vol in
  let recommendations :=
    recommend esg_df vol thresholds sentiment_scores esg_pref risk_pref
      industry_label in
  match recommendations with
  | [] => [TickerOnly "No suitable match"]
  | _ => map Full recommendations
  end.

(** [optimize_portfolio(esg_df, sentiment_scores, esg_pref, risk_pref,
    industry_label)]. *)
Definition optimize_portfolio (esg_df : list esg_row)
    (sentiment_scores : list (string * string)) (esg_pref risk_pref : string)
    (industry_label : option string) : IO (list record) :=
  let tickers := map row_Ticker esg_df in
  (prices <- get_prices_matrix tickers 252 None "1d" false 120 true true ;;
   ret (optimize_from_prices prices esg_df sentiment_scores esg_pref risk_pref
          industry_label))%io.

End Code.
End Tiering.

(** ** [src/evolutionary_optimizer.py] *)

Module Allocator.
Import World.

(** The random number generators, as streams of raw draws; a run reads them
    at a position that advances with every draw. *)
Class Random : Type := {
  raw_unit : nat -> Q;
  raw_int : nat -> Z;
  raw_normal : nat -> Q
}.

(** Code that draws random numbers and may raise. *)
Definition Gen (A : Type) : Type := nat -> result (A * nat).

Definition gret {A : Type} (a : A) : Gen A := fun s => Return (a, s).

Definition gbind {A B : Type} (c : Gen A) (k : A -> Gen B) : Gen B :=
  fun s =>
    match c s with
    | Return (a, s') => k a s'
    | Raise e => Raise e
    end.

Definition graise {A : Type} (e : exn) : Gen A := fun _ => Raise e.

Definition glift {A : Type} (r : result A) : Gen A :=
  fun s => match r with Return a => Return (a, s) | Raise e => Raise e end.

Declare Scope gen_scope.
Delimit Scope gen_scope with gen.
Notation "x <- c ;; k" := (gbind c (fun x => k))
  (at level 61, c at next level, right associativity) : gen_scope.

Definition Qsum (l : list Q) : Q := fold_left Qplus l 0.

(** [np.clip(x, 0, None)] of one component. *)
Definition clip (x : Q) : Q := if Qle_bool 0 x then x else 0.

Definition epsilon : Q := 1 # 1000000000.

(** [normalize(weights)]. *)
Definition normalize (weights : list Q) : list Q :=
  let w := map clip weights in
  map (fun x => x / (Qsum w + epsilon)) w.

(** A candidate is an output of [normalize]. *)
Definition normalized (c : list Q) : Prop := exists w, c = normalize w.

(** The shape a population keeps: [size] candidates of [n] weights each. *)
Definition shaped (size n : nat) (pop : list (list Q)) : Prop :=
  List.length pop = size /\ Forall (fun c => List.length c = n) pop.

(** Scored positions in ascending order of score. *)
Definition score_le (a b : Q * nat) : Prop := fst a <= fst b.

(** Every ticker of [returns] has a risk. *)
Definition risks_cover (returns risks : list (string * Q)) : Prop :=
  forall t, In t (map fst returns) -> exists v, Py.lookup t risks = Some v.

(** [int(q)]: truncation toward zero. *)
Definition int_of (q : Q) : Z := Z.quot (Qnum q) (Zpos (Qden q)).

(** [round(w, 3)], halves to even. *)
Definition round3 (w : Q) : Q :=
  let x := w * 1000 in
  let z := Qfloor x in
  let r := x - inject_Z z in
  let up := if Qlt_bool (1 # 2) r then true
            else if Qlt_bool r (1 # 2) then false
            else Z.odd z in
  inject_Z (if up then z + 1 else z) / 1000.

Section Code.
Context {random : Random}.

(** A draw in [0, 1): [random.random()] and one component of
    [np.random.rand]. *)
Definition random_unit : Gen Q :=
  fun s => let q := raw_unit s in Return (q - inject_Z (Qfloor q), S s).

(** [np.random.rand(n)]. *)
Fixpoint rand (n : nat) : Gen (list Q) :=
  match n with
  | O => gret []
  | S m => (x <- random_unit ;; r <- rand m ;; gret (x :: r))%gen
  end.

(** [random.randint(a, b)]: an empty range raises [ValueError]. *)
Definition randint (a b : Z) : Gen Z :=
  fun s =>
    if (b <? a)%Z then Raise ValueError
    else Return ((a + (raw_int s) mod (b - a + 1))%Z, S s).

(** [np.random.normal(0, 0.1)]. *)
Definition normal : Gen Q := fun s => Return (raw_normal s, S s).

(** [random.sample(l, 2)]: two entries at distinct positions; a list shorter
    than two raises [ValueError]. *)
Definition sample2 {A : Type} (default : A) (l : list A) : Gen (A * A) :=
  let n := Z.of_nat (List.length l) in
  if (n <? 2)%Z then graise ValueError
  else
    (i <- randint 0 (n - 1) ;;
     j <- randint 0 (n - 2) ;;
     let j := if (i <=? j)%Z then (j + 1)%Z else j in
     gret (nth (Z.to_nat i) l default, nth (Z.to_nat j) l default))%gen.

(** [fitness(weights)]; [risks[t]] raises [KeyError] for a ticker that
    [risks] lacks, [sentiments.get(t, 0)] does not. *)
Fixpoint weighted (weights : list Q) (tickers : list string)
    (value : string -> result Q) (acc : Q) : result Q :=
  match weights, tickers with
  | w :: ws, t :: ts => (v <- value t ;; weighted ws ts value (acc + w * v))%result
  | _, [] => Return acc
  | [], _ :: _ => Raise ValueError
  end.

Definition getitem (d : list (string * Q)) (t : string) : result Q :=
  match Py.lookup t d with Some v => Return v | None => Raise KeyError end.

Definition fitness (returns risks sentiments : list (string * Q))
    (weights : list Q) : result Q :=
  let tickers := map fst returns in
  (exp_return <- weighted weights tickers (getitem returns) 0 ;;
   risk <- weighted weights tickers (getitem risks) 0 ;;
   sentiment <- weighted weights tickers
                  (fun t => Return (match Py.lookup t sentiments with
                                    | Some v => v | None => 0 end)) 0 ;;
   Return (exp_return - (1 # 2) * risk + (3 # 10) * sentiment))%result.

Fixpoint map_result {A B : Type} (f : A -> result B) (l : list A) : result (list B) :=
  match l with
  | [] => Return []
  | x :: r => (y <- f x ;; ys <- map_result f r ;; Return (y :: ys))%result
  end.

Fixpoint insert_score (x : Q * nat) (l : list (Q * nat)) : list (Q * nat) :=
  match l with
  | [] => [x]
  | y :: r => if Qle_bool (fst x) (fst y) then x :: l else y :: insert_score x r
  end.

(** [np.argsort(scores)]: the positions in ascending order of score (equal
    scores keep their order here; numpy's default sort promises none). *)
Definition argsort (scores : list Q) : list nat :=
  map snd (fold_right insert_score []
             (combine scores (seq 0 (List.length scores)))).

(** [max(1, int(elite_frac * population_size))]. *)
Definition elite_count (elite_frac : Q) (population_size : Z) : Z :=
  Z.max 1 (int_of (elite_frac * inject_Z population_size)).

(** The elites of a scored population. *)
Definition select_elites (population : list (list Q)) (scores : list Q)
    (count : Z) : list (list Q) :=
  let elite_idx := Py.last_n (Z.to_nat count) (argsort scores) in
  map (fun i => nth i population []) elite_idx.

(** [child[idx] += x]. *)
Fixpoint add_at (idx : nat) (x : Q) (child : list Q) : list Q :=
  match child, idx with
  | [], _ => []
  | c :: r, O => (c + x) :: r
  | c :: r, S i => c :: add_at i x r
  end.

(** One pass of the body of the [while] loop: one child. *)
Definition make_child (n : Z) (elites : list (list Q)) (mutation_rate : Q)
  : Gen (list Q) :=
  (parents <- sample2 [] elites ;;
   let '(p1, p2) := parents in
   cut <- randint 1 (n - 1) ;;
   let child := (firstn (Z.to_nat cut) p1 ++ skipn (Z.to_nat cut) p2)%list in
   u <- random_unit ;;
   child <- (if Qlt_bool u mutation_rate then
               idx <- randint 0 (n - 1) ;;
               x <- normal ;;
               gret (add_at (Z.to_nat idx) x child)
             else gret child) ;;
   gret (normalize child))%gen.

(** The [while len(children) < population_size - elite_count] loop, by the
    number of children still to make. *)
Fixpoint make_children (todo : nat) (n : Z) (elites : list (list Q))
    (mutation_rate : Q) : Gen (list (list Q)) :=
  match todo with
  | O => gret []
  | S k =>
      (child <- make_child n elites mutation_rate ;;
       rest <- make_children k n elites mutation_rate ;;
       gret (child :: rest))%gen
  end.

(** One generation: the body of the [for _ in range(generations)] loop. *)
Definition generation (returns risks sentiments : list (string * Q))
    (population_size : Z) (elite_frac mutation_rate : Q)
    (population : list (list Q)) : Gen (list (list Q)) :=
  let n := Z.of_nat (List.length returns) in
  (scores <- glift (map_result (fitness returns risks sentiments) population) ;;
   let count := elite_count elite_frac population_size in
   let elites := select_elites population scores count in
   children <- make_children (Z.to_nat (population_size - count)) n elites
                 mutation_rate ;;
   gret (elites ++ children)%list)%gen.

Fixpoint evolve (generations : nat) (returns risks sentiments : list (string * Q))
    (population_size : Z) (elite_frac mutation_rate : Q)
    (population : list (list Q)) : Gen (list (list Q)) :=
  match generations with
  | O => gret population
  | S g =>
      (population <- generation returns risks sentiments population_size
                       elite_frac mutation_rate population ;;
       evolve g returns risks sentiments population_size elite_frac
         mutation_rate population)%gen
  end.

(** [[normalize(np.random.rand(n)) for _ in range(population_size)]]. *)
Fixpoint initial_population (size n : nat) : Gen (list (list Q)) :=
  match size with
  | O => gret []
  | S k =>
      (w <- rand n ;;
       rest <- initial_population k n ;;
       gret (normalize w :: rest))%gen
  end.

(** The position of the first largest score and that score ([np.argmax] and
    [max]); an empty list raises [ValueError]. *)
Fixpoint argmax_from (i best_i : nat) (best : Q) (scores : list Q) : nat * Q :=
  match scores with
  | [] => (best_i, best)
  | s :: r =>
      if Qlt_bool best s then argmax_from (S i) i s r
      else argmax_from (S i) best_i best r
  end.

Definition argmax (scores : list Q) : result (nat * Q) :=
  match scores with
  | [] => Raise ValueError
  | s :: r => Return (argmax_from 1 0 s r)
  end.

(** The population after the last generation. *)
Definition final_population (returns risks sentiments : list (string * Q))
    (population_size generations : Z) (elite_frac mutation_rate : Q)
  : Gen (list (list Q)) :=
  let n := List.length returns in
  (population <- initial_population (Z.to_nat population_size) n ;;
   evolve (Z.to_nat generations) returns risks sentiments population_size
     elite_frac mutation_rate population)%gen.

(** [evolutionary_optimize(returns, risks, sentiments, population_size,
    generations, elite_frac, mutation_rate)]. *)
Definition evolutionary_optimize (returns risks sentiments : list (string * Q))
    (population_size generations : Z) (elite_frac mutation_rate : Q)
  : Gen (list (string * Q) * Q) :=
  let tickers := map fst returns in
  (population <- final_population returns risks sentiments population_size
                   generations elite_frac mutation_rate ;;
   (* final evaluation *)
   scores <- glift (map_result (fitness returns risks sentiments) population) ;;
   best <- glift (argmax scores) ;;
   let allocation := combine tickers (map round3 (nth (fst best) population [])) in
   gret (allocation, snd best))%gen.

End Code.

(** The arguments under which no step of a run can fail: two tickers or more,
    a risk for each, a population, and either no child to make or two elites
    to make it from. *)
Definition runnable (returns risks : list (string * Q)) (population_size : Z)
    (elite_frac : Q) : Prop :=
  (2 <= List.length returns)%nat
  /\ risks_cover returns risks
  /\ (1 <= population_size)%Z
  /\ ((population_size <= elite_count elite_frac population_size)%Z
      \/ (2 <= elite_count elite_frac population_size)%Z).

End Allocator.

(** ** [app.py]: what the chat shows of the recommendations *)

Module App.
Import Tiering.

(** [r.get("Tier")]: [None] for a dict without the key. *)
Definition get_Tier (r : record) : option string :=
  match r with
  | Full x => Some (Tier x)
  | TickerOnly _ => None
  end.

(** [r.get("Tier") == tier]. *)
Definition has_tier (tier : string) (r : record) : bool :=
  match get_Tier r with
  | Some t => String.eqb t tier
  | None => false
  end.

(** The tier separation of [chat], after the loop that attaches the news to
    each row (which adds keys and leaves ["Tier"] as it is): the records shown
    and the next step. *)
Definition tier_separation (all_recs : list record) : list record * string :=
  let greens := filter (has_tier "Green") all_recs in
  let yellows := filter (has_tier "Yellow") all_recs in
  let reds := filter (has_tier "Red") all_recs in
  match greens with
  | _ :: _ => (greens, "pick_tickers")
  | [] =>
      match (yellows ++ reds)%list with
      | _ :: _ => ((yellows ++ reds)%list, "pick_tickers")
      | [] => ([TickerOnly "No suitable match"], "restart")
      end
  end.

End App.

(** ** The specification's wording, for comparison with the code *)

Module Spec.

(** The tier decision in precedence order: Green when both categories match
    the preferences; else Yellow when exactly one of them matches and the
    sentiment is not negative; else Red. *)
Definition tier_by_precedence (esg_match risk_match : bool) (sentiment : string)
  : string :=
  if esg_match && risk_match then "Green"
  else if xorb esg_match risk_match && negb (String.eqb sentiment "negative")
  then "Yellow"
  else "Red".

(** The number of elites as the specification has it:
    [ceil(eliteFraction * populationSize)], at least 1. *)
Definition elite_count_ceil (elite_frac : Q) (population_size : Z) : Z :=
  Z.max 1 (Qceiling (elite_frac * inject_Z population_size)).

End Spec.

(** ** Sample environments, for the concrete runs below *)

Module Samples.
Import Frames World Tiering Allocator.

(** Kernels that keep a value that already has the target type and turn any
    other into NaN or NaT; files that cannot be parsed. *)
Definition typed_pandas : Pandas := {|
  to_numeric := map (fun c => match c with CNum x => x | _ => NaN end);
  to_datetime_format := map (fun c => match c with CTime t => Some t | _ => None end);
  to_datetime := map (fun c => match c with CTime t => Some t | _ => None end);
  str := fun c => match c with CStr s => s | _ => "" end;
  read_csv := fun _ _ => Raise ValueError;
  to_csv := fun _ => ""
|}.

(** Yahoo answers an empty frame, Stooq is unreachable. *)
Definition empty_yahoo : Sources := {|
  HAS_YF := true;
  HAS_PDR := true;
  yf_download := fun _ _ _ _ => Return (Some empty_frame);
  DataReader := fun _ _ => Raise IOError;
  today := 0
|}.

(** Numeric kernels that answer a constant. *)
Definition constant_numerics : Numerics := {|
  annualized_volatility := fun _ => Num 0.3;
  quantile := fun _ q => Num q
|}.

(** A generator whose raw draws follow the position. *)
Definition counting_random : Random := {|
  raw_unit := fun i => inject_Z (Z.of_nat i) / 7;
  raw_int := fun i => Z.of_nat i;
  raw_normal := fun i => (inject_Z (Z.of_nat i) - 3) / 10
|}.

Definition no_files : world := mkWorld [] [].

(** A frame as recent yfinance versions answer it, after [reset_index]: the
    columns are pairs of a field and the ticker. *)
Definition yahoo_multi : DataFrame :=
  mkDataFrame
    (MultiIndex
       [(["Date"; ""], [CTime 1704153600000000000; CTime 1704240000000000000]);
        (["Adj Close"; "AAPL"], [CNum (Num 10); CNum (Num 11)]);
        (["Close"; "AAPL"], [CNum (Num 10); CNum (Num 11)])])
    None (range_index 2).

(** Two trading days as Yahoo hands them over: the dates are the index. *)
Definition two_days : DataFrame :=
  mkDataFrame
    (Index [("Close", [CNum (Num 10); CNum (Num 11)]);
            ("Adj Close", [CNum (Num 10); CNum (Num 11)])])
    (Some "Date")
    [CTime 1704153600000000000; CTime 1704240000000000000].

(** Yahoo has prices for BBB and fails for every other ticker; Stooq is
    unreachable. *)
Definition yahoo_knows_bbb : Sources := {|
  HAS_YF := true;
  HAS_PDR := true;
  yf_download := fun _ t _ _ =>
    if String.eqb t "BBB" then Return (Some two_days) else Raise IOError;
  DataReader := fun _ _ => Raise IOError;
  today := 0
|}.

(** Two rows for the same day (2024-01-02), and a row whose price is
    infinite. *)
Definition same_day_twice : DataFrame :=
  mkDataFrame
    (Index [("Date", [CTime 1704153600000000000; CTime 1704153600000000000]);
            ("Adj Close", [CNum (Num 10); CNum (Num 11)])])
    None (range_index 2).

Definition infinite_price : DataFrame :=
  mkDataFrame
    (Index [("Date", [CTime 1704153600000000000]); ("Close", [CNum PInf])])
    None (range_index 1).




(** Two tickers and four candidate allocations over them. *)
Definition two_returns : list (string * Q) := [("AAA", 1 # 10); ("BBB", 2 # 10)].
Definition two_risks : list (string * Q) := [("AAA", 1 # 5); ("BBB", 3 # 10)].
Definition two_sentiments : list (string * Q) := [("AAA", 1)].
Definition four_candidates : list (list Q) :=
  [[1 # 2; 1 # 2]; [1; 0]; [0; 1]; [1 # 4; 3 # 4]].

End Samples.

(** * Properties *)

(** ** Comparisons *)

Lemma Qlt_bool_iff (x y : Q) : Qlt_bool x y = true <-> x < y.
Proof.
  unfold Qlt_bool. rewrite negb_true_iff.
  split; intro H.
  - apply Qnot_le_lt. intro Hle. apply Qle_bool_iff in Hle. congruence.
  - destruct (Qle_bool y x) eqn:E; [|reflexivity].
    apply Qle_bool_iff in E. exfalso. apply (Qlt_not_le _ _ H E).
Qed.

Lemma Qlt_bool_false_iff (x y : Q) : Qlt_bool x y = false <-> y <= x.
Proof.
  unfold Qlt_bool. rewrite negb_false_iff. apply Qle_bool_iff.
Qed.

Lemma Qle_bool_false_iff (x y : Q) : Qle_bool x y = false <-> y < x.
Proof.
  rewrite <- Qlt_bool_iff. unfold Qlt_bool.
  destruct (Qle_bool x y); simpl; split; congruence.
Qed.

(** ** The tiering engine *)

Module TieringFacts.
Import Frames World PriceData Tiering.

Lemma categorize_esg_cases (s : pyfloat) :
  (categorize_esg s = "Low" <-> flt s (Num 20) = true)
  /\ (categorize_esg s = "Medium" <-> flt s (Num 20) = false /\ flt s (Num 30) = true)
  /\ (categorize_esg s = "High" <-> flt s (Num 20) = false /\ flt s (Num 30) = false).
Proof.
  unfold categorize_esg.
  destruct (flt s (Num 20)), (flt s (Num 30));
    repeat split; intros; try discriminate; try tauto;
    match goal with H : _ /\ _ |- _ => destruct H; discriminate end.
Qed.

Lemma categorize_risk_cases (v : pyfloat) (th : thresholds_t) :
  (categorize_risk v th = "Low" <-> fle v (low th) = true)
  /\ (categorize_risk v th = "Medium" <-> fle v (low th) = false /\ fle v (high th) = true)
  /\ (categorize_risk v th = "High" <-> fle v (low th) = false /\ fle v (high th) = false).
Proof.
  unfold categorize_risk.
  destruct (fle v (low th)), (fle v (high th));
    repeat split; intros; try discriminate; try tauto;
    match goal with H : _ /\ _ |- _ => destruct H; discriminate end.
Qed.

(** C7.  For every numeric ESG score [s], [categorize_esg] answers ["Low"]
    exactly when [s < 20], ["Medium"] exactly when [20 <= s < 30] and ["High"]
    exactly when [s >= 30]; for every numeric volatility [v] and numeric
    thresholds, [categorize_risk] answers ["Low"] exactly when [v <= low],
    ["Medium"] exactly when [low < v <= high], and ["High"] in every other
    case. *)
Theorem categorize_bands (s v lo hi : Q) :
  (categorize_esg (Num s) = "Low" <-> s < 20)
  /\ (categorize_esg (Num s) = "Medium" <-> 20 <= s /\ s < 30)
  /\ (categorize_esg (Num s) = "High" <-> 30 <= s)
  /\ (categorize_risk (Num v) (mkThresholds (Num lo) (Num hi)) = "Low" <-> v <= lo)
  /\ (categorize_risk (Num v) (mkThresholds (Num lo) (Num hi)) = "Medium"
      <-> lo < v /\ v <= hi)
  /\ (categorize_risk (Num v) (mkThresholds (Num lo) (Num hi)) = "High"
      <-> ~ v <= lo /\ ~ (lo < v /\ v <= hi)).
Proof.
  destruct (categorize_esg_cases (Num s)) as (E1 & E2 & E3).
  destruct (categorize_risk_cases (Num v) (mkThresholds (Num lo) (Num hi)))
    as (R1 & R2 & R3).
  simpl in *.
  rewrite E1, E2, E3, R1, R2, R3.
  rewrite !Qlt_bool_iff, !Qlt_bool_false_iff, !Qle_bool_iff, !Qle_bool_false_iff.
  repeat split; try tauto.
  - apply Qle_trans with 30; [discriminate | assumption].
  - apply Qlt_not_le; tauto.
  - intros [H3 H4]. apply (Qlt_not_le hi v); tauto.
  - apply Qnot_le_lt; tauto.
  - apply Qnot_le_lt. intro Hle.
    assert (lo < v) by (apply Qnot_le_lt; tauto). tauto.
Qed.

Lemma decide_tier_precedence (esg_cat risk_cat sentiment esg_pref risk_pref : string)
    (industry_label : option string) (industry : string) :
  decide_tier esg_cat risk_cat sentiment esg_pref risk_pref industry_label industry
  = Spec.tier_by_precedence (String.eqb esg_cat esg_pref)
      (String.eqb risk_cat risk_pref) sentiment.
Proof.
  unfold decide_tier, Spec.tier_by_precedence.
  destruct (String.eqb esg_cat esg_pref), (String.eqb risk_cat risk_pref); simpl;
    try reflexivity.
  destruct industry_label as [l|]; [|reflexivity].
  destruct (String.eqb l "" || Py.contains (Py.lower l) (Py.lower industry));
    reflexivity.
Qed.

(** C1.  The loop of [optimize_portfolio] emits one recommendation per
    eligible ticker, in order, and its Tier follows the precedence: Green
    when the ESG category equals the ESG preference and the risk category
    equals the risk preference, whatever the industry; else Yellow when
    exactly one of the two matches and the sentiment is not negative; else
    Red. *)
Theorem tier_precedence (esg_df : list esg_row) (vol : list (string * pyfloat))
    (th : thresholds_t) (sentiment_scores : list (string * string))
    (esg_pref risk_pref : string) (industry_label : option string) :
  recommend esg_df vol th sentiment_scores esg_pref risk_pref industry_label
  = map (fun row =>
           let t := row_Ticker row in
           let esg_cat := categorize_esg (row_ESG_Score row) in
           let risk_cat := categorize_risk (dict_get vol t NaN) th in
           let sentiment := dict_get sentiment_scores t "neutral" in
           mkRec t (row_ESG_Score row) esg_cat risk_cat (dict_get vol t NaN)
             sentiment (row_Industry row)
             (Spec.tier_by_precedence (String.eqb esg_cat esg_pref)
                (String.eqb risk_cat risk_pref) sentiment))
        (filter (eligible vol) esg_df).
Proof.
  induction esg_df as [|row rest IH]; [reflexivity|].
  simpl. unfold eligible at 1.
  destruct (isnan (row_ESG_Score row) || negb (dict_mem (row_Ticker row) vol));
    simpl.
  - exact IH.
  - rewrite decide_tier_precedence. f_equal. exact IH.
Qed.


Lemma dict_mem_In {A : Type} (k : string) (d : list (string * A)) :
  dict_mem k d = true <-> In k (map fst d).
Proof.
  unfold dict_mem.
  induction d as [|[k' v] d IH]; simpl.
  - split; [discriminate | tauto].
  - destruct (String.eqb k k') eqn:E.
    + apply String.eqb_eq in E. subst. tauto.
    + apply String.eqb_neq in E. rewrite IH.
      split; [tauto | intros [H | H]; [congruence | exact H]].
Qed.

Section WithNumerics.
Context {numerics : Numerics}.


Lemma recommend_nil_iff (esg_df : list esg_row) (vol : list (string * pyfloat))
    (th : thresholds_t) (sentiment_scores : list (string * string))
    (esg_pref risk_pref : string) (industry_label : option string) :
  recommend esg_df vol th sentiment_scores esg_pref risk_pref industry_label = []
  <-> forall row, In row esg_df -> eligible vol row = false.
Proof.
  induction esg_df as [|row rest IH]; simpl.
  - tauto.
  - assert (E : eligible vol row
                = negb (isnan (row_ESG_Score row)
                        || negb (dict_mem (row_Ticker row) vol))) by reflexivity.
    destruct (isnan (row_ESG_Score row) || negb (dict_mem (row_Ticker row) vol));
      simpl in E.
    + rewrite IH. split.
      * intros H r [<- | Hr]; [exact E | exact (H r Hr)].
      * intros H r Hr. apply H. right. exact Hr.
    + split; [discriminate|].
      intro H. specialize (H row (or_introl eq_refl)). congruence.
Qed.

End WithNumerics.

Section WithSources.
Context {pandas : Pandas} {sources : Sources} {numerics : Numerics}.


End WithSources.


End TieringFacts.

(** ** The evolutionary allocator *)

Module AllocatorFacts.
Import World Allocator.

(** *** Sums of rationals *)

Lemma fold_Qplus_acc (l : list Q) (a : Q) :
  fold_left Qplus l a == a + Qsum l.
Proof.
  unfold Qsum. revert a.
  induction l as [|x l IH]; intro a; simpl.
  - ring.
  - rewrite IH. rewrite (IH (0 + x)). ring.
Qed.

Lemma Qsum_cons (x : Q) (l : list Q) : Qsum (x :: l) == x + Qsum l.
Proof.
  unfold Qsum at 1. simpl. rewrite fold_Qplus_acc. ring.
Qed.

Lemma Qsum_nonneg (l : list Q) : Forall (fun x => 0 <= x) l -> 0 <= Qsum l.
Proof.
  induction 1 as [|x l Hx _ IH].
  - discriminate.
  - rewrite Qsum_cons.
    apply Qle_trans with (0 + 0); [discriminate|].
    apply Qplus_le_compat; assumption.
Qed.

Lemma Qsum_scale (l : list Q) (c : Q) :
  Qsum (map (fun x => x / c) l) == Qsum l / c.
Proof.
  induction l as [|x l IH]; simpl.
  - unfold Qsum; simpl. unfold Qdiv. ring.
  - rewrite !Qsum_cons, IH. unfold Qdiv. ring.
Qed.

Lemma clip_nonneg (x : Q) : 0 <= clip x.
Proof.
  unfold clip. destruct (Qle_bool 0 x) eqn:E.
  - apply Qle_bool_iff. exact E.
  - discriminate.
Qed.

Lemma clip_nonpos (x : Q) : x <= 0 -> clip x == 0.
Proof.
  intro H. unfold clip. destruct (Qle_bool 0 x) eqn:E; [|reflexivity].
  apply Qle_bool_iff in E. apply Qle_antisym; assumption.
Qed.

Lemma clipped_nonneg (w : list Q) : Forall (fun x => 0 <= x) (map clip w).
Proof.
  induction w; simpl; constructor; [apply clip_nonneg | assumption].
Qed.

Lemma clipped_sum_nonneg (w : list Q) : 0 <= Qsum (map clip w).
Proof. apply Qsum_nonneg, clipped_nonneg. Qed.

Lemma denominator_pos (w : list Q) : 0 < Qsum (map clip w) + epsilon.
Proof.
  apply Qlt_le_trans with (0 + epsilon); [reflexivity|].
  apply Qplus_le_compat; [apply clipped_sum_nonneg | apply Qle_refl].
Qed.

Lemma normalize_nonneg (w : list Q) : Forall (fun x => 0 <= x) (normalize w).
Proof.
  unfold normalize. apply Forall_forall. intros y Hy.
  apply in_map_iff in Hy. destruct Hy as (x & <- & Hx).
  apply in_map_iff in Hx. destruct Hx as (z & <- & _).
  apply Qle_shift_div_l; [apply denominator_pos|].
  rewrite Qmult_0_l. apply clip_nonneg.
Qed.

Lemma normalize_sum (w : list Q) :
  Qsum (normalize w) == Qsum (map clip w) / (Qsum (map clip w) + epsilon).
Proof. unfold normalize. apply Qsum_scale. Qed.

Lemma normalize_gap (w : list Q) :
  1 - Qsum (normalize w) == epsilon / (Qsum (map clip w) + epsilon).
Proof.
  rewrite normalize_sum.
  pose proof (denominator_pos w) as Hpos.
  field. intro E. rewrite E in Hpos. discriminate Hpos.
Qed.

Lemma normalize_sum_below_one (w : list Q) : Qsum (normalize w) < 1.
Proof.
  assert (0 < 1 - Qsum (normalize w)) as H.
  { rewrite normalize_gap. apply Qlt_shift_div_l; [apply denominator_pos|].
    rewrite Qmult_0_l. reflexivity. }
  apply Qlt_minus_iff. setoid_replace (1 + - Qsum (normalize w))
    with (1 - Qsum (normalize w)) by ring. exact H.
Qed.

Lemma normalize_collapsed (w : list Q) :
  Forall (fun x => x <= 0) w -> Qsum (normalize w) == 0.
Proof.
  intro H. rewrite normalize_sum.
  assert (E : Qsum (map clip w) == 0).
  { induction H as [|x l Hx _ IH]; [reflexivity|].
    simpl. rewrite Qsum_cons, IH, (clip_nonpos x Hx). reflexivity. }
  rewrite E. reflexivity.
Qed.

(** The vector of two zeros is normalised to itself: its entries sum to 0,
    not to 1. *)
Lemma normalize_zero_vector :
  normalize [0; 0] = [0 / (0 + 0 + epsilon); 0 / (0 + 0 + epsilon)]
  /\ Qsum (normalize [0; 0]) == 0
  /\ ~ Qabs (Qsum (normalize [0; 0]) - 1) <= 1 # 1000000.
Proof.
  split; [reflexivity|]. split; [reflexivity|].
  intro H. vm_compute in H. apply H. reflexivity.
Qed.

(** Half of five is two by [int], three by [ceil]. *)
Lemma elite_count_truncates :
  elite_count (1 # 2) 5 = 2%Z
  /\ Spec.elite_count_ceil (1 # 2) 5 = 3%Z
  /\ elite_count (1 # 2) 5 <> Spec.elite_count_ceil (1 # 2) 5.
Proof. repeat split; discriminate. Qed.

(** *** Runs *)

Section Runs.
Context {random : Random}.

Lemma gbind_Return {A B : Type} (c : Gen A) (k : A -> Gen B) (s s' : nat) (b : B) :
  gbind c k s = Return (b, s') ->
  exists a s1, c s = Return (a, s1) /\ k a s1 = Return (b, s').
Proof.
  unfold gbind. destruct (c s) as [[a s1]|e]; [|discriminate].
  intro H. exists a, s1. split; [reflexivity | exact H].
Qed.

Lemma gbind_Raise {A B : Type} (c : Gen A) (k : A -> Gen B) (s : nat) (e : exn) :
  c s = Raise e -> gbind c k s = Raise e.
Proof. unfold gbind. intros ->. reflexivity. Qed.

Lemma gbind_step {A B : Type} (c : Gen A) (k : A -> Gen B) (s s1 : nat) (a : A) :
  c s = Return (a, s1) -> gbind c k s = k a s1.
Proof. unfold gbind. intros ->. reflexivity. Qed.

Ltac gen_inv H :=
  let a := fresh "a" in
  let s1 := fresh "s" in
  let H1 := fresh "H" in
  apply gbind_Return in H; destruct H as (a & s1 & H1 & H).

Lemma normalized_nil : normalized [].
Proof. exists []. reflexivity. Qed.

Lemma initial_population_normalized (size n s s' : nat) (pop : list (list Q)) :
  initial_population size n s = Return (pop, s') -> Forall normalized pop.
Proof.
  revert s s' pop.
  induction size as [|k IH]; intros s s' pop H; simpl in H.
  - inversion H. constructor.
  - gen_inv H. gen_inv H. inversion H; subst.
    constructor; [eexists; reflexivity | eapply IH; eassumption].
Qed.

Lemma make_child_normalized (n : Z) (elites : list (list Q)) (mr : Q)
    (s s' : nat) (child : list Q) :
  make_child n elites mr s = Return (child, s') -> normalized child.
Proof.
  unfold make_child. intro H.
  gen_inv H. destruct a as [p1 p2].
  gen_inv H. gen_inv H. gen_inv H.
  inversion H. eexists; reflexivity.
Qed.

Lemma make_children_spec (todo : nat) (n : Z) (elites : list (list Q)) (mr : Q)
    (s s' : nat) (children : list (list Q)) :
  make_children todo n elites mr s = Return (children, s') ->
  List.length children = todo /\ Forall normalized children.
Proof.
  revert s s' children.
  induction todo as [|k IH]; intros s s' children H; simpl in H.
  - inversion H. split; [reflexivity | constructor].
  - gen_inv H. gen_inv H. inversion H; subst.
    destruct (IH _ _ _ H1) as [L F].
    split; [simpl; congruence|].
    constructor; [eapply make_child_normalized; eassumption | exact F].
Qed.

Lemma nth_normalized (pop : list (list Q)) (i : nat) :
  Forall normalized pop -> normalized (nth i pop []).
Proof.
  intro F. destruct (nth_in_or_default i pop []) as [Hin | ->].
  - rewrite Forall_forall in F. apply F, Hin.
  - apply normalized_nil.
Qed.

Lemma select_elites_normalized (pop : list (list Q)) (scores : list Q) (count : Z) :
  Forall normalized pop -> Forall normalized (select_elites pop scores count).
Proof.
  intro F. unfold select_elites. apply Forall_forall. intros e He.
  apply in_map_iff in He. destruct He as (i & <- & _).
  apply nth_normalized, F.
Qed.

Lemma glift_Return {A : Type} (r : result A) (s s' : nat) (a : A) :
  glift r s = Return (a, s') -> r = Return a /\ s' = s.
Proof.
  unfold glift. destruct r; [|discriminate].
  intro H. inversion H. split; reflexivity.
Qed.

(** What one generation that returns has done. *)
Lemma generation_Return (returns risks sentiments : list (string * Q))
    (population_size : Z) (elite_frac mutation_rate : Q)
    (population pop' : list (list Q)) (s s' : nat) :
  generation returns risks sentiments population_size elite_frac mutation_rate
    population s = Return (pop', s') ->
  exists scores children,
    map_result (fitness returns risks sentiments) population = Return scores
    /\ pop' = (select_elites population scores
                 (elite_count elite_frac population_size) ++ children)%list
    /\ List.length children
       = Z.to_nat (population_size - elite_count elite_frac population_size)
    /\ Forall normalized children.
Proof.
  unfold generation. intro H.
  gen_inv H. apply glift_Return in H0. destruct H0 as [Hs ->].
  gen_inv H. inversion H; subst.
  destruct (make_children_spec _ _ _ _ _ _ _ H0) as [L F].
  exists a, a0. repeat split; assumption.
Qed.

Lemma generation_normalized (returns risks sentiments : list (string * Q))
    (population_size : Z) (elite_frac mutation_rate : Q)
    (population pop' : list (list Q)) (s s' : nat) :
  Forall normalized population ->
  generation returns risks sentiments population_size elite_frac mutation_rate
    population s = Return (pop', s') ->
  Forall normalized pop'.
Proof.
  intros F H. apply generation_Return in H.
  destruct H as (scores & children & _ & -> & _ & Fc).
  apply Forall_app. split; [apply select_elites_normalized, F | exact Fc].
Qed.

Lemma evolve_normalized (generations : nat) (returns risks sentiments : list (string * Q))
    (population_size : Z) (elite_frac mutation_rate : Q)
    (population pop' : list (list Q)) (s s' : nat) :
  Forall normalized population ->
  evolve generations returns risks sentiments population_size elite_frac
    mutation_rate population s = Return (pop', s') ->
  Forall normalized pop'.
Proof.
  revert population s.
  induction generations as [|g IH]; intros population s F H; simpl in H.
  - inversion H; subst. exact F.
  - gen_inv H. eapply IH; [|exact H].
    eapply generation_normalized; eassumption.
Qed.

(** C3.  [normalize] clips the negative components to zero and divides by
    the clipped sum [S] plus [1e-9]: its output has no negative entry and its
    entries sum to [S / (S + 1e-9)], which is below 1 by [1e-9 / (S + 1e-9)]
    and is 0 when no component is positive.  Every candidate of the
    population an allocator run ends with is an output of [normalize]. *)
Theorem normalize_candidates :
  (forall w : list Q,
     Forall (fun x => 0 <= x) (normalize w)
     /\ Qsum (normalize w) == Qsum (map clip w) / (Qsum (map clip w) + epsilon)
     /\ 1 - Qsum (normalize w) == epsilon / (Qsum (map clip w) + epsilon)
     /\ Qsum (normalize w) < 1
     /\ (Forall (fun x => x <= 0) w -> Qsum (normalize w) == 0))
  /\ (forall (returns risks sentiments : list (string * Q))
        (population_size generations : Z) (elite_frac mutation_rate : Q)
        (s s' : nat) (pop : list (list Q)),
        final_population returns risks sentiments population_size generations
          elite_frac mutation_rate s = Return (pop, s') ->
        Forall (fun c => exists w, c = normalize w) pop).
Proof.
  split.
  - intro w. repeat split.
    + apply normalize_nonneg.
    + apply normalize_sum.
    + apply normalize_gap.
    + apply normalize_sum_below_one.
    + apply normalize_collapsed.
  - intros returns risks sentiments population_size generations elite_frac
      mutation_rate s s' pop H.
    unfold final_population in H. gen_inv H.
    eapply evolve_normalized; [|exact H].
    eapply initial_population_normalized. exact H0.
Qed.

(** *** Elites *)

Lemma map_result_length {A B : Type} (f : A -> result B) (l : list A) (l' : list B) :
  map_result f l = Return l' -> List.length l' = List.length l.
Proof.
  revert l'. induction l as [|x l IH]; intros l' H; simpl in H.
  - inversion H. reflexivity.
  - destruct (f x) as [y|e]; simpl in H; [|discriminate].
    destruct (map_result f l) as [ys|e]; simpl in H; [|discriminate].
    inversion H. simpl. f_equal. apply IH. reflexivity.
Qed.

Lemma insert_score_perm (x : Q * nat) (l : list (Q * nat)) :
  Permutation (insert_score x l) (x :: l).
Proof.
  induction l as [|y l IH]; simpl; [reflexivity|].
  destruct (Qle_bool (fst x) (fst y)); [reflexivity|].
  rewrite IH. apply perm_swap.
Qed.

Lemma sort_scores_perm (l : list (Q * nat)) :
  Permutation (fold_right insert_score [] l) l.
Proof.
  induction l as [|x l IH]; simpl; [reflexivity|].
  rewrite insert_score_perm. constructor. exact IH.
Qed.

Lemma map_snd_combine_seq {A : Type} (l : list A) (k : nat) :
  map snd (combine l (seq k (List.length l))) = seq k (List.length l).
Proof.
  revert k. induction l as [|x l IH]; intro k; simpl; [reflexivity|].
  f_equal. apply IH.
Qed.

Lemma argsort_perm (scores : list Q) :
  Permutation (argsort scores) (seq 0 (List.length scores)).
Proof.
  unfold argsort. rewrite <- (map_snd_combine_seq scores 0) at 2.
  apply Permutation_map, sort_scores_perm.
Qed.

Lemma last_n_In {A : Type} (k : nat) (l : list A) (x : A) :
  In x (Py.last_n k l) -> In x l.
Proof.
  unfold Py.last_n. intro H.
  rewrite <- (firstn_skipn (List.length l - k) l).
  apply in_or_app. right. exact H.
Qed.

Lemma last_n_length {A : Type} (k : nat) (l : list A) :
  List.length (Py.last_n k l) = Nat.min k (List.length l).
Proof. unfold Py.last_n. rewrite length_skipn. lia. Qed.

Lemma select_elites_spec (population : list (list Q)) (scores : list Q) (count : Z) :
  List.length scores = List.length population ->
  List.length (select_elites population scores count)
  = Nat.min (Z.to_nat count) (List.length population)
  /\ Forall (fun e => In e population) (select_elites population scores count).
Proof.
  intro L. unfold select_elites. split.
  - rewrite length_map, last_n_length.
    rewrite (Permutation_length (argsort_perm scores)), length_seq, L.
    reflexivity.
  - apply Forall_forall. intros e He.
    apply in_map_iff in He. destruct He as (i & <- & Hi).
    apply last_n_In in Hi.
    apply (Permutation_in _ (argsort_perm scores)) in Hi.
    apply in_seq in Hi. apply nth_In. lia.
Qed.

Lemma int_of_floor (q : Q) : 0 <= q -> int_of q = Qfloor q.
Proof.
  destruct q as [n d]. unfold Qle, int_of, Qfloor. simpl. intro H.
  apply Z.quot_div_nonneg; lia.
Qed.

(** C9.  The number of elites of a generation is
    [max(1, int(elite_frac * population_size))]: the product truncated toward
    zero (its floor when it is not negative), and at least 1.  The elites are
    members of the current population, as many as that number (or the whole
    population when it is smaller), and they open the next population
    unchanged, followed by the children. *)
Theorem elites_by_truncation (returns risks sentiments : list (string * Q))
    (population_size : Z) (elite_frac mutation_rate : Q)
    (population pop' : list (list Q)) (s s' : nat)
    (H : generation returns risks sentiments population_size elite_frac
           mutation_rate population s = Return (pop', s')) :
  let q := elite_frac * inject_Z population_size in
  let count := elite_count elite_frac population_size in
  count = Z.max 1 (Z.quot (Qnum q) (Zpos (Qden q)))
  /\ (1 <= count)%Z
  /\ (0 <= q -> count = Z.max 1 (Qfloor q))
  /\ exists scores children,
       map_result (fitness returns risks sentiments) population = Return scores
       /\ pop' = (select_elites population scores count ++ children)%list
       /\ List.length (select_elites population scores count)
          = Nat.min (Z.to_nat count) (List.length population)
       /\ Forall (fun e => In e population) (select_elites population scores count)
       /\ List.length children = Z.to_nat (population_size - count).
Proof.
  intros q count. split; [reflexivity|]. split; [unfold count, elite_count; lia|].
  split.
  - intro Hq. unfold count, elite_count. fold q. rewrite (int_of_floor q Hq).
    reflexivity.
  - apply generation_Return in H.
    destruct H as (scores & children & Hs & -> & L & _).
    exists scores, children.
    destruct (select_elites_spec population scores count
                (map_result_length _ _ _ Hs)) as [L1 F1].
    repeat split; assumption.
Qed.

(** *** A single ticker *)

Lemma rand_total (n s : nat) : exists w, rand n s = Return (w, (s + n)%nat).
Proof.
  revert s. induction n as [|m IH]; intro s; simpl.
  - exists []. unfold gret. rewrite Nat.add_0_r. reflexivity.
  - destruct (IH (S s)) as (w & Hw).
    eexists. unfold gbind, random_unit. rewrite Hw. unfold gret.
    rewrite <- plus_n_Sm. reflexivity.
Qed.

Lemma initial_population_total (size n s : nat) :
  exists pop s', initial_population size n s = Return (pop, s').
Proof.
  revert s. induction size as [|k IH]; intro s; simpl.
  - exists [], s. reflexivity.
  - destruct (rand_total n s) as (w & Hw).
    destruct (IH (s + n)%nat) as (pop & s' & Hp).
    exists (normalize w :: pop), s'.
    unfold gbind. rewrite Hw, Hp. reflexivity.
Qed.

(** With one ticker the cut is drawn from the empty range [1..0]. *)
Lemma make_child_single (elites : list (list Q)) (mr : Q) (s : nat) :
  make_child 1 elites mr s = Raise ValueError.
Proof.
  unfold make_child, sample2.
  destruct (Z.of_nat (List.length elites) <? 2)%Z eqn:E; [reflexivity|].
  apply Z.ltb_ge in E.
  unfold gbind at 1. unfold gbind at 1.
  unfold randint at 1.
  destruct (Z.of_nat (List.length elites) - 1 <? 0)%Z eqn:E1; [lia|].
  unfold gbind at 1. unfold randint at 1.
  destruct (Z.of_nat (List.length elites) - 2 <? 0)%Z eqn:E2; [lia|].
  unfold gret at 1. reflexivity.
Qed.

Lemma make_children_single (todo : nat) (elites : list (list Q)) (mr : Q) (s : nat) :
  (0 < todo)%nat -> make_children todo 1 elites mr s = Raise ValueError.
Proof.
  destruct todo as [|k]; [lia|]. intros _. simpl.
  apply gbind_Raise, make_child_single.
Qed.

(** C2.  With a single ticker, a run that has at least one generation and
    needs at least one child raises: it does not return an allocation. *)
Theorem single_ticker_raises (t : string) (r : Q)
    (risks sentiments : list (string * Q)) (population_size generations : Z)
    (elite_frac mutation_rate : Q) (s : nat)
    (Hg : (0 < generations)%Z)
    (Hc : (elite_count elite_frac population_size < population_size)%Z) :
  exists e,
    evolutionary_optimize [(t, r)] risks sentiments population_size generations
      elite_frac mutation_rate s = Raise e.
Proof.
  unfold evolutionary_optimize.
  assert (E : exists e, final_population [(t, r)] risks sentiments population_size
                generations elite_frac mutation_rate s = Raise e).
  { unfold final_population.
    destruct (initial_population_total (Z.to_nat population_size) 1 s)
      as (pop & s1 & Hp).
    simpl List.length. rewrite (gbind_step _ _ _ _ _ Hp).
    destruct (Z.to_nat generations) as [|g] eqn:G; [lia|].
    simpl evolve. unfold generation at 1.
    simpl List.length. change (Z.of_nat 1) with 1%Z.
    destruct (map_result (fitness [(t, r)] risks sentiments) pop) as [scores|e] eqn:F.
    - exists ValueError. apply gbind_Raise.
      rewrite (gbind_step _ _ s1 s1 scores) by reflexivity.
      apply gbind_Raise, make_children_single. lia.
    - exists e. apply gbind_Raise, gbind_Raise. reflexivity. }
  destruct E as (e & He). exists e. apply gbind_Raise. exact He.
Qed.

End Runs.

(** *** Concrete runs *)

Lemma normalize_candidates_witness :
  exists pop s',
    final_population (random := Samples.counting_random) Samples.two_returns Samples.two_risks
      Samples.two_sentiments 4%Z 2%Z (1 # 2) (1 # 10) 0%nat = Return (pop, s')
    /\ Forall (fun c => exists w, c = normalize w) pop.
Proof.
  eexists. eexists. split.
  - vm_compute. reflexivity.
  - eapply (proj2 (normalize_candidates (random := Samples.counting_random))
              Samples.two_returns Samples.two_risks Samples.two_sentiments 4%Z 2%Z (1 # 2) (1 # 10) 0%nat).
    vm_compute. reflexivity.
Defined.

Lemma elites_by_truncation_witness :
  exists pop' s',
    generation (random := Samples.counting_random) Samples.two_returns Samples.two_risks
      Samples.two_sentiments 4%Z (1 # 2) (1 # 10) Samples.four_candidates 0%nat = Return (pop', s')
    /\ exists scores children,
         pop' = (select_elites Samples.four_candidates scores
                   (elite_count (1 # 2) 4) ++ children)%list
         /\ List.length (select_elites Samples.four_candidates scores (elite_count (1 # 2) 4))
            = 2%nat.
Proof.
  eexists. eexists. split.
  - vm_compute. reflexivity.
  - destruct (elites_by_truncation (random := Samples.counting_random)
                Samples.two_returns Samples.two_risks Samples.two_sentiments 4%Z (1 # 2) (1 # 10)
                Samples.four_candidates _ 0%nat _ eq_refl)
      as (_ & _ & _ & scores & children & _ & E & L & _).
    exists scores, children. split; [exact E | exact L].
Defined.

Lemma single_ticker_raises_witness :
  exists e,
    evolutionary_optimize (random := Samples.counting_random)
      [("AAPL", 1 # 10)] [("AAPL", 1 # 5)] [] 50%Z 100%Z (1 # 5) (1 # 10) 0%nat = Raise e.
Proof.
  apply (single_ticker_raises (random := Samples.counting_random)).
  - reflexivity.
  - reflexivity.
Defined.

(** The default run on one ticker, evaluated: [ValueError]. *)
Lemma single_ticker_default_run :
  evolutionary_optimize (random := Samples.counting_random)
    [("AAPL", 1 # 10)] [("AAPL", 1 # 5)] [] 50%Z 100%Z (1 # 5) (1 # 10) 0%nat
  = Raise ValueError.
Proof. vm_compute. reflexivity. Qed.

End AllocatorFacts.

(** ** The price fetcher *)

Module PriceDataFacts.
Import Frames World PriceData.

(** *** Frames with plain columns *)

Lemma lookup_dict_set_same {A : Type} (k : string) (v : A) (d : list (string * A)) :
  Py.lookup k (Py.dict_set k v d) = Some v.
Proof.
  induction d as [|[k' v'] d IH]; simpl.
  - rewrite String.eqb_refl. reflexivity.
  - destruct (String.eqb k k') eqn:E; simpl.
    + rewrite String.eqb_refl. reflexivity.
    + rewrite E. exact IH.
Qed.

Lemma lookup_dict_set_other {A : Type} (k k' : string) (v : A) (d : list (string * A)) :
  k <> k' -> Py.lookup k' (Py.dict_set k v d) = Py.lookup k' d.
Proof.
  intro N. induction d as [|[k0 v0] d IH]; simpl.
  - destruct (String.eqb k' k) eqn:E; [|reflexivity].
    apply String.eqb_eq in E. congruence.
  - destruct (String.eqb k k0) eqn:E; simpl.
    + apply String.eqb_eq in E. subst k0.
      destruct (String.eqb k' k) eqn:E'; [|reflexivity].
      apply String.eqb_eq in E'. congruence.
    + rewrite IH. reflexivity.
Qed.

Lemma getitem_setitem_same (df : DataFrame) (c : string) (col : list cell) :
  flat df -> getitem (setitem df c col) c = Return col.
Proof.
  unfold flat, is_multi, getitem, setitem.
  destruct (columns df) as [l|l]; [|discriminate].
  intros _. simpl. rewrite lookup_dict_set_same. reflexivity.
Qed.

Lemma getitem_setitem_other (df : DataFrame) (c c' : string) (col : list cell) :
  flat df -> c <> c' -> getitem (setitem df c col) c' = getitem df c'.
Proof.
  unfold flat, is_multi, getitem, setitem.
  destruct (columns df) as [l|l]; [|discriminate].
  intros _ N. simpl. rewrite lookup_dict_set_other by exact N. reflexivity.
Qed.

Lemma setitem_flat (df : DataFrame) (c : string) (col : list cell) :
  flat df -> flat (setitem df c col).
Proof.
  unfold flat, is_multi, setitem.
  destruct (columns df); [reflexivity | discriminate].
Qed.

Lemma setitem_index (df : DataFrame) (c : string) (col : list cell) :
  index (setitem df c col) = index df /\ index_name (setitem df c col) = index_name df.
Proof. unfold setitem. destruct (columns df); split; reflexivity. Qed.

Lemma rename_flat (df : DataFrame) (old new : string) :
  flat df -> flat (rename df old new).
Proof.
  unfold flat, is_multi, rename. simpl.
  destruct (columns df); [reflexivity | discriminate].
Qed.

Lemma reset_index_flat (df r : DataFrame) :
  flat df -> reset_index df = Return r -> flat r.
Proof.
  unfold flat, is_multi, reset_index.
  destruct (columns df) as [l|l]; [|discriminate].
  intros _. destruct (has_column _ _); [discriminate|].
  intro H. inversion H. reflexivity.
Qed.

Lemma flatten_flat (df : DataFrame) : flat (if is_multi df then flatten df else df).
Proof.
  unfold flat, is_multi, flatten.
  destruct (columns df) eqn:E; simpl; [rewrite E|]; reflexivity.
Qed.

Lemma rbind_Return {A B : Type} (c : result A) (k : A -> result B) (b : B) :
  rbind c k = Return b -> exists a, c = Return a /\ k a = Return b.
Proof.
  destruct c as [a|e]; simpl; [|discriminate].
  intro H. exists a. split; [reflexivity | exact H].
Qed.

Ltac result_inv H :=
  let a := fresh "a" in
  let H1 := fresh "H" in
  apply rbind_Return in H; destruct H as (a & H1 & H).

(** *** Sorting by a key *)

Section SortByKey.
Context {A : Type} (key : A -> Z).

Lemma insert_by_perm (x : A) (l : list A) :
  Permutation (insert_by key x l) (x :: l).
Proof.
  induction l as [|y l IH]; simpl; [reflexivity|].
  destruct (key x <=? key y)%Z; [reflexivity|].
  rewrite IH. apply perm_swap.
Qed.

Lemma sort_by_perm (l : list A) :
  Permutation (fold_right (insert_by key) [] l) l.
Proof.
  induction l as [|x l IH]; simpl; [reflexivity|].
  rewrite insert_by_perm. constructor. exact IH.
Qed.

Lemma insert_by_sorted (x : A) (l : list A) :
  StronglySorted (key_le key) l -> StronglySorted (key_le key) (insert_by key x l).
Proof.
  induction 1 as [|y l S IH F]; simpl.
  - repeat constructor.
  - destruct (key x <=? key y)%Z eqn:E.
    + apply Z.leb_le in E. constructor.
      * constructor; assumption.
      * constructor; [exact E|].
        eapply Forall_impl; [|exact F].
        intros a Ha. unfold key_le in *. lia.
    + apply Z.leb_gt in E. constructor; [exact IH|].
      apply (Permutation_Forall (Permutation_sym (insert_by_perm x l))).
      constructor; [unfold key_le; lia | exact F].
Qed.

Lemma sort_by_sorted (l : list A) :
  StronglySorted (key_le key) (fold_right (insert_by key) [] l).
Proof.
  induction l as [|x l IH]; simpl; [constructor|].
  apply insert_by_sorted, IH.
Qed.

Lemma sorted_keys (l : list A) :
  StronglySorted (key_le key) l -> StronglySorted Z.le (map key l).
Proof.
  induction 1 as [|y l S IH F]; simpl; constructor; [exact IH|].
  apply Forall_map. exact F.
Qed.

End SortByKey.

(** *** The normaliser *)

Lemma rows_of_In (idx ds ps : list cell) (r : row) :
  In r (rows_of idx ds ps) -> In (Date r) ds /\ In (Adj_Close r) ps.
Proof.
  unfold rows_of. intro H. apply in_map_iff in H.
  destruct H as ([i [d p]] & <- & H). simpl.
  apply in_combine_r in H. split.
  - eapply in_combine_l; exact H.
  - eapply in_combine_r; exact H.
Qed.

Lemma typed_rows_kept (idx : list cell) (D : list (option Z)) (P : list pyfloat) :
  Forall (fun r => exists t x,
            Date r = CTime t /\ Adj_Close r = CNum x /\ isnan x = false)
    (sort_values (dropna (rows_of idx (map cell_of_time D) (map CNum P)))).
Proof.
  apply Forall_forall. intros r Hr.
  apply (Permutation_in _ (sort_by_perm _ _)) in Hr.
  unfold dropna in Hr. apply filter_In in Hr. destruct Hr as [Hr Hk].
  apply rows_of_In in Hr. destruct Hr as [Hd Hp].
  apply in_map_iff in Hd. destruct Hd as (d & Hd & _).
  apply in_map_iff in Hp. destruct Hp as (x & Hp & _).
  apply andb_true_iff in Hk. destruct Hk as [K1 K2].
  rewrite <- Hd in K1. rewrite <- Hp in K2.
  destruct d as [t|]; [|discriminate K1].
  exists t, x. repeat split; [symmetry; exact Hd | symmetry; exact Hp |].
  simpl in K2. apply negb_true_iff. exact K2.
Qed.

(** *** Rules for IO code *)

Section Rules.
Context {A B : Type}.

Lemma total_ret (a : A) : total (ret a).
Proof. intro w. exists a, w. reflexivity. Qed.

Lemma total_bind (c : IO A) (k : A -> IO B) :
  total c -> (forall a, total (k a)) -> total (bind c k).
Proof.
  intros Hc Hk w. destruct (Hc w) as (a & w' & E).
  unfold bind. rewrite E. apply Hk.
Qed.

Lemma total_try (c h : IO A) : total h -> total (try_except c h).
Proof.
  intros Hh w. unfold try_except.
  destruct (c w) as [[a|e] w']; [exists a, w'; reflexivity | apply Hh].
Qed.

Lemma returns_ret (P : A -> Prop) (a : A) : P a -> returns P (ret a).
Proof. intros H w a' w' E. inversion E. subst. exact H. Qed.

Lemma returns_lift (P : A -> Prop) (r : result A) :
  (forall a, r = Return a -> P a) -> returns P (lift r).
Proof. intros H w a w' E. inversion E. apply H. assumption. Qed.

Lemma returns_bind (P : B -> Prop) (c : IO A) (k : A -> IO B) :
  (forall a, returns P (k a)) -> returns P (bind c k).
Proof.
  intros Hk w b w' E. unfold bind in E.
  destruct (c w) as [[a|e] w1]; [|discriminate].
  eapply Hk. exact E.
Qed.

Lemma returns_bind_from (Q : A -> Prop) (P : B -> Prop) (c : IO A) (k : A -> IO B) :
  returns Q c -> (forall a, Q a -> returns P (k a)) -> returns P (bind c k).
Proof.
  intros Hc Hk w b w' E. unfold bind in E.
  destruct (c w) as [[a|e] w1] eqn:Ec; [|discriminate].
  eapply Hk; [eapply Hc; exact Ec | exact E].
Qed.

Lemma returns_try (P : A -> Prop) (c h : IO A) :
  returns P c -> returns P h -> returns P (try_except c h).
Proof.
  intros Hc Hh w a w' E. unfold try_except in E.
  destruct (c w) as [[a'|e] w1] eqn:Ec.
  - inversion E. subst. eapply Hc. exact Ec.
  - eapply Hh. exact E.
Qed.

Lemma keeps_ret (a : A) : keeps_disk (ret a).
Proof. intro w. reflexivity. Qed.

Lemma keeps_lift (r : result A) : keeps_disk (lift r).
Proof. intro w. reflexivity. Qed.

Lemma keeps_bind (c : IO A) (k : A -> IO B) :
  keeps_disk c -> (forall a, keeps_disk (k a)) -> keeps_disk (bind c k).
Proof.
  intros Hc Hk w. unfold bind. specialize (Hc w).
  destruct (c w) as [[a|e] w1]; simpl in *.
  - rewrite Hk. exact Hc.
  - exact Hc.
Qed.

Lemma keeps_try (c h : IO A) :
  keeps_disk c -> keeps_disk h -> keeps_disk (try_except c h).
Proof.
  intros Hc Hh w. unfold try_except. specialize (Hc w).
  destruct (c w) as [[a|e] w1]; simpl in *.
  - exact Hc.
  - rewrite Hh. exact Hc.
Qed.

Lemma agree_keeps (F : list string) (c : IO A) (w1 w2 : world) :
  keeps_disk c -> agree F w1 w2 -> agree F (snd (c w1)) (snd (c w2)).
Proof.
  intros Hc H f Hf. rewrite !Hc. apply H, Hf.
Qed.

Lemma reads_ret (F : list string) (a : A) : reads_only F (ret a).
Proof. split; [apply keeps_ret | reflexivity]. Qed.

Lemma reads_lift (F : list string) (r : result A) : reads_only F (lift r).
Proof. split; [apply keeps_lift | reflexivity]. Qed.

Lemma reads_bind (F : list string) (c : IO A) (k : A -> IO B) :
  reads_only F c -> (forall a, reads_only F (k a)) -> reads_only F (bind c k).
Proof.
  intros [Kc Rc] Hk. split.
  - apply keeps_bind; [exact Kc | intro a; apply Hk].
  - intros w1 w2 H. unfold bind.
    pose proof (Rc w1 w2 H) as E.
    pose proof (agree_keeps F c w1 w2 Kc H) as H'.
    destruct (c w1) as [r1 w1'], (c w2) as [r2 w2']. simpl in *. subst r2.
    destruct r1 as [a|e]; [|reflexivity].
    apply (proj2 (Hk a)). exact H'.
Qed.

Lemma reads_try (F : list string) (c h : IO A) :
  reads_only F c -> reads_only F h -> reads_only F (try_except c h).
Proof.
  intros [Kc Rc] [Kh Rh]. split.
  - apply keeps_try; assumption.
  - intros w1 w2 H. unfold try_except.
    pose proof (Rc w1 w2 H) as E.
    pose proof (agree_keeps F c w1 w2 Kc H) as H'.
    destruct (c w1) as [r1 w1'], (c w2) as [r2 w2']. simpl in *. subst r2.
    destruct r1 as [a|e]; [reflexivity|].
    apply Rh. exact H'.
Qed.

End Rules.

Lemma total_exists (f : string) : total (exists_ f).
Proof. intro w. eexists. eexists. reflexivity. Qed.

Lemma reads_exists (F : list string) (f : string) :
  In f F -> reads_only F (exists_ f).
Proof.
  intro Hf. split; [intro w; reflexivity|].
  intros w1 w2 H. unfold exists_. simpl. rewrite (H f Hf). reflexivity.
Qed.

Lemma reads_read_file (F : list string) (f : string) :
  In f F -> reads_only F (read_file f).
Proof.
  intro Hf. split; [intro w; reflexivity|].
  intros w1 w2 H. unfold read_file. simpl. rewrite (H f Hf). reflexivity.
Qed.

Section WithPandas.
Context {pandas : Pandas}.

Lemma normalize_df_canonical (df : option DataFrame) (out : DataFrame) :
  _normalize_df df = Return out -> canonical out.
Proof.
  unfold _normalize_df. destruct df as [df|]; [|intro H; inversion H; constructor].
  destruct (empty df); [intro H; inversion H; constructor|].
  pose proof (flatten_flat df) as F0.
  set (df0 := if is_multi df then flatten df else df) in *.
  intro H. result_inv H.
  assert (F1 : flat a).
  { destruct (Py.first_in date_names (names df0)) as [c|].
    - destruct (negb (String.eqb c "Date")); inversion H0; subst;
        [apply rename_flat|]; exact F0.
    - destruct (index_name df0) as [n|];
        [destruct (negb (String.eqb n "") && _)|];
        result_inv H0; inversion H0; subst;
        apply rename_flat; eapply reset_index_flat; eassumption. }
  destruct (Py.first_in price_names (names a)) as [adj|];
    [|inversion H; constructor].
  result_inv H. result_inv H.
  rewrite getitem_setitem_same in H by (apply setitem_flat; exact F1).
  rewrite getitem_setitem_other in H
    by (try (apply setitem_flat; exact F1); discriminate).
  rewrite getitem_setitem_same in H by exact F1.
  simpl in H. inversion H. subst out.
  constructor; [apply typed_rows_kept | apply sort_by_sorted].
Qed.

(** C8.  The frame [_normalize_df] returns holds two columns of equal
    length, timestamps and floats: the dates are in ascending order (a date
    that occurs twice in the input occurs twice in the output, so the order is
    not strict) and no price is NaN (an infinite price is kept); the rows
    whose date or price did not coerce are not among them. *)
Theorem normalize_df_series (df : option DataFrame) (out : DataFrame)
    (H : _normalize_df df = Return out) :
  exists (ts : list Z) (xs : list pyfloat),
    column out "Date" = map CTime ts
    /\ column out "Adj Close" = map CNum xs
    /\ List.length ts = List.length xs
    /\ StronglySorted Z.le ts
    /\ Forall (fun x => isnan x = false) xs.
Proof.
  apply normalize_df_canonical in H.
  destruct H as [|iname rs T S].
  - exists [], []. repeat split; constructor.
  - exists (map (fun r => time_key (Date r)) rs),
           (map (fun r => match Adj_Close r with CNum x => x | _ => NaN end) rs).
    rewrite Forall_forall in T.
    repeat split.
    + change (column (frame_of_rows iname rs) "Date") with (map Date rs).
      rewrite map_map. apply map_ext_in. intros r Hr.
      destruct (T r Hr) as (t & x & -> & _). reflexivity.
    + change (column (frame_of_rows iname rs) "Adj Close") with (map Adj_Close rs).
      rewrite map_map. apply map_ext_in. intros r Hr.
      destruct (T r Hr) as (t & x & _ & -> & _). reflexivity.
    + rewrite !length_map. reflexivity.
    + apply sorted_keys. exact S.
    + apply Forall_forall. intros x Hx.
      apply in_map_iff in Hx. destruct Hx as (r & <- & Hr).
      destruct (T r Hr) as (t & x & _ & -> & N). exact N.
Qed.

End WithPandas.

(** *** Paths and keys *)

Lemma length_append (a b : string) :
  String.length (a ++ b) = (String.length a + String.length b)%nat.
Proof. induction a as [|c a IH]; simpl; [reflexivity | rewrite IH; reflexivity]. Qed.

Lemma append_cancel_r (a b c : string) : a ++ c = b ++ c -> a = b.
Proof.
  revert b. induction a as [|x a IH]; intros [|y b] H; simpl in H.
  - reflexivity.
  - apply (f_equal String.length) in H. simpl in H. rewrite length_append in H. lia.
  - apply (f_equal String.length) in H. simpl in H. rewrite length_append in H. lia.
  - injection H as -> H. f_equal. apply IH. exact H.
Qed.

(** The file [_save_csv(t, _)] writes is a cache file of [t] alone. *)
Lemma save_path_other (t T : string) :
  In (csv_path (hd "" CACHE_DIRS) t) (cache_paths T) -> t = T.
Proof.
  unfold cache_paths, csv_path. simpl.
  intros [H | [H | []]].
  - injection H as H. apply append_cancel_r in H. symmetry. exact H.
  - discriminate H.
Qed.

Lemma upper_ascii_idem (c : ascii) :
  Py.upper_ascii (Py.upper_ascii c) = Py.upper_ascii c.
Proof. destruct c as [[] [] [] [] [] [] [] []]; reflexivity. Qed.

Lemma upper_idem (t : string) : Py.upper (Py.upper t) = Py.upper t.
Proof.
  unfold Py.upper.
  induction t as [|c t IH]; simpl; [reflexivity|].
  rewrite upper_ascii_idem, IH. reflexivity.
Qed.

Lemma dict_set_keys {A : Type} (k k' : string) (v : A) (d : list (string * A)) :
  In k' (map fst (Py.dict_set k v d)) <-> k' = k \/ In k' (map fst d).
Proof.
  induction d as [|[k0 v0] d IH]; simpl.
  - intuition congruence.
  - destruct (String.eqb k k0) eqn:E; simpl.
    + apply String.eqb_eq in E. subst. intuition congruence.
    + rewrite IH. intuition congruence.
Qed.

Lemma dict_set_NoDup {A : Type} (k : string) (v : A) (d : list (string * A)) :
  NoDup (map fst d) -> NoDup (map fst (Py.dict_set k v d)).
Proof.
  induction d as [|[k0 v0] d IH]; simpl; intro N.
  - constructor; [intros [] | constructor].
  - inversion N as [|x l Hn N']; subst.
    destruct (String.eqb k k0) eqn:E; simpl.
    + apply String.eqb_eq in E. subst. constructor; assumption.
    + apply String.eqb_neq in E. constructor; [|apply IH, N'].
      rewrite dict_set_keys. intros [-> | H]; [congruence | contradiction].
Qed.

Lemma lookup_In {A : Type} (k : string) (v : A) (d : list (string * A)) :
  Py.lookup k d = Some v -> In (k, v) d.
Proof.
  induction d as [|[k0 v0] d IH]; simpl; [discriminate|].
  destruct (String.eqb k k0) eqn:E.
  - apply String.eqb_eq in E. intro H. inversion H. subst. left. reflexivity.
  - intro H. right. apply IH, H.
Qed.

Lemma lookup_NoDup {A : Type} (k : string) (v v' : A) (d : list (string * A)) :
  NoDup (map fst d) -> Py.lookup k d = Some v -> In (k, v') d -> v' = v.
Proof.
  induction d as [|[k0 v0] d IH]; simpl; [tauto|].
  intros N L H. inversion N as [|x l Hn N']; subst.
  destruct (String.eqb k k0) eqn:E.
  - apply String.eqb_eq in E. subst k0. inversion L; subst.
    destruct H as [H | H]; [congruence|].
    exfalso. apply Hn. apply in_map_iff. exists (k, v'). split; [reflexivity | exact H].
  - apply String.eqb_neq in E. destruct H as [H | H]; [congruence|].
    apply IH; assumption.
Qed.

Lemma lookup_Some_of_key {A : Type} (k : string) (d : list (string * A)) :
  In k (map fst d) -> exists v, Py.lookup k d = Some v.
Proof.
  induction d as [|[k0 v0] d IH]; simpl; [tauto|].
  intro H. destruct (String.eqb k k0) eqn:E; [eexists; reflexivity|].
  apply String.eqb_neq in E. destruct H as [H | H]; [congruence | apply IH, H].
Qed.

(** *** The three sources *)

Ltac total_tac :=
  repeat first
    [ apply total_ret
    | apply total_exists
    | apply total_try
    | apply total_bind; [|intro]
    | match goal with
      | |- total (if ?b then _ else _) => destruct b
      | |- total (match ?x with Some _ => _ | None => _ end) => destruct x
      end ].

Ltac reads_tac :=
  cbv zeta;
  repeat first
    [ apply reads_ret
    | apply reads_lift
    | apply reads_exists; simpl; tauto
    | apply reads_read_file; simpl; tauto
    | apply reads_try
    | apply reads_bind; [|intro]
    | match goal with
      | |- reads_only _ (if ?b then _ else _) => destruct b
      | |- reads_only _ (match ?x with Some _ => _ | None => _ end) => destruct x
      end ].

Section WithSources.
Context {pandas : Pandas} {sources : Sources}.

Local Arguments _normalize_df : simpl never.

Lemma normalize_df_again (df : DataFrame) :
  canonical df -> exists out, _normalize_df (Some df) = Return out.
Proof.
  intros [|iname rs _ _].
  - exists empty_frame. reflexivity.
  - unfold _normalize_df.
    destruct (empty (frame_of_rows iname rs));
      [exists empty_frame; reflexivity|].
    eexists. reflexivity.
Qed.

Lemma load_csv_from_total (d t : string) : total (_load_csv_from d t).
Proof. unfold _load_csv_from. total_tac. Qed.

Lemma load_csv_from_reads (F : list string) (d t : string) :
  In (csv_path d t) F -> reads_only F (_load_csv_from d t).
Proof. intro H. unfold _load_csv_from. reads_tac. Qed.

Lemma load_csv_from_canonical (d t : string) :
  returns canonical (_load_csv_from d t).
Proof.
  unfold _load_csv_from.
  apply returns_bind. intro ex.
  destruct (negb ex); [apply returns_ret; constructor|].
  apply returns_bind_from
    with (Q := fun o => forall df, o = Some df -> canonical df).
  - apply returns_try; [|apply returns_ret; discriminate].
    apply returns_bind. intro text. apply returns_bind. intro raw.
    destruct (_ && _); [|apply returns_ret; discriminate].
    destruct (_ && _); [|apply returns_ret; discriminate].
    apply returns_lift. intros o H df ->.
    result_inv H. result_inv H. inversion H; subst.
    eapply normalize_df_canonical. eassumption.
  - intros [df|] Q; [apply returns_ret, Q; reflexivity|].
    apply returns_try; [|apply returns_ret; constructor].
    apply returns_bind. intro text. apply returns_bind. intro df.
    apply returns_lift. intros out H.
    eapply normalize_df_canonical. exact H.
Qed.

Lemma load_csv_dirs_total (dirs : list string) (t : string) :
  total (load_csv_dirs dirs t).
Proof.
  induction dirs as [|d dirs IH]; simpl; [apply total_ret|].
  apply total_bind; [apply load_csv_from_total|].
  intro df. destruct (negb (empty df)); [apply total_ret | exact IH].
Qed.

Lemma load_csv_dirs_canonical (dirs : list string) (t : string) :
  returns canonical (load_csv_dirs dirs t).
Proof.
  induction dirs as [|d dirs IH]; simpl; [apply returns_ret; constructor|].
  apply returns_bind_from with (Q := canonical);
    [apply load_csv_from_canonical|].
  intros df C. destruct (negb (empty df)); [apply returns_ret, C | exact IH].
Qed.

Lemma load_csv_dirs_reads (F dirs : list string) (t : string) :
  (forall d, In d dirs -> In (csv_path d t) F) ->
  reads_only F (load_csv_dirs dirs t).
Proof.
  induction dirs as [|d dirs IH]; intro H; simpl; [apply reads_ret|].
  apply reads_bind.
  - apply load_csv_from_reads, H. left. reflexivity.
  - intro df. destruct (negb (empty df)); [apply reads_ret|].
    apply IH. intros d' Hd'. apply H. right. exact Hd'.
Qed.

Lemma load_csv_reads (t : string) : reads_only (cache_paths t) (_load_csv t).
Proof.
  apply load_csv_dirs_reads. intros d Hd.
  unfold cache_paths. apply in_map_iff. exists d. split; [reflexivity | exact Hd].
Qed.

(** Yahoo: the call never raises, its frame is canonical, the files are
    untouched and at most one event, a call to Yahoo, is added. *)
Lemma download_yf_spec (t p i : string) (w : world) :
  exists df,
    _download_yf t p i w
    = (Return df,
       mkWorld (disk w) ((if HAS_YF then [EvYahoo t] else []) ++ trace w))
    /\ canonical df.
Proof.
  unfold _download_yf. destruct HAS_YF; simpl.
  - unfold try_except, bind, call_yahoo.
    destruct (yf_download (trace w) t p i) as [[raw|]|e]; simpl;
      try (exists empty_frame; split; [reflexivity | constructor]).
    destruct (empty raw); simpl;
      try (exists empty_frame; split; [reflexivity | constructor]).
    unfold lift.
    destruct (rbind (reset_index raw) _) as [df|e] eqn:E;
      [|exists empty_frame; split; [reflexivity | constructor]].
    exists df. split; [reflexivity|].
    result_inv E. result_inv E. eapply normalize_df_canonical. exact E.
  - exists empty_frame. destruct w. split; [reflexivity | constructor].
Qed.

Lemma download_stooq_spec (t p : string) (w : world) :
  exists df,
    _download_stooq t p w
    = (Return df,
       mkWorld (disk w) ((if HAS_PDR then [EvStooq t] else []) ++ trace w))
    /\ canonical df.
Proof.
  unfold _download_stooq. destruct HAS_PDR; simpl.
  - unfold try_except, bind, call_stooq.
    destruct (DataReader (trace w) t) as [[raw|]|e]; simpl;
      try (exists empty_frame; split; [reflexivity | constructor]).
    destruct (empty raw); simpl;
      try (exists empty_frame; split; [reflexivity | constructor]).
    unfold lift.
    destruct (rbind (reset_index raw) _) as [df|e] eqn:E;
      [|exists empty_frame; split; [reflexivity | constructor]].
    exists df. split; [reflexivity|].
    result_inv E. result_inv E. result_inv E. result_inv E.
    eapply normalize_df_canonical. exact E.
  - exists empty_frame. destruct w. split; [reflexivity | constructor].
Qed.

Lemma download_yf_total (t p i : string) : total (_download_yf t p i).
Proof.
  intro w. destruct (download_yf_spec t p i w) as (df & E & _).
  eexists. eexists. exact E.
Qed.

Lemma download_yf_canonical (t p i : string) : returns canonical (_download_yf t p i).
Proof.
  intros w a w' E. destruct (download_yf_spec t p i w) as (df & E' & C).
  rewrite E' in E. inversion E. subst. exact C.
Qed.

Lemma download_yf_keeps (t p i : string) : keeps_disk (_download_yf t p i).
Proof.
  intro w. destruct (download_yf_spec t p i w) as (df & E & _).
  rewrite E. reflexivity.
Qed.

Lemma download_stooq_total (t p : string) : total (_download_stooq t p).
Proof.
  intro w. destruct (download_stooq_spec t p w) as (df & E & _).
  eexists. eexists. exact E.
Qed.

Lemma download_stooq_canonical (t p : string) : returns canonical (_download_stooq t p).
Proof.
  intros w a w' E. destruct (download_stooq_spec t p w) as (df & E' & C).
  rewrite E' in E. inversion E. subst. exact C.
Qed.

Lemma download_stooq_keeps (t p : string) : keeps_disk (_download_stooq t p).
Proof.
  intro w. destruct (download_stooq_spec t p w) as (df & E & _).
  rewrite E. reflexivity.
Qed.

Lemma load_csv_total (t : string) : total (_load_csv t).
Proof. apply load_csv_dirs_total. Qed.

Lemma load_csv_canonical (t : string) : returns canonical (_load_csv t).
Proof. apply load_csv_dirs_canonical. Qed.

Lemma load_csv_keeps (t : string) : keeps_disk (_load_csv t).
Proof. apply (proj1 (load_csv_reads t)). Qed.

Lemma fetch_one_total (t p i : string) (pl : bool) (m : Z) (uc al : bool) :
  total (fetch_one t p i pl m uc al).
Proof.
  unfold fetch_one. destruct pl.
  - apply total_bind; [apply download_yf_total | intro a].
    apply total_bind.
    + destruct (_ && _); [apply download_stooq_total | apply total_ret].
    + intro b. destruct (_ && _); [apply load_csv_total | apply total_ret].
  - apply total_bind.
    + destruct uc; [apply load_csv_total | apply total_ret].
    + intro c. destruct (too_thin c m); [|apply total_ret].
      apply total_bind; [apply download_yf_total | intro a].
      apply total_bind.
      * destruct (_ && _); [apply download_stooq_total | apply total_ret].
      * intro b. destruct (negb (empty b)); apply total_ret.
Qed.

Lemma fetch_one_canonical (t p i : string) (pl : bool) (m : Z) (uc al : bool) :
  returns canonical (fetch_one t p i pl m uc al).
Proof.
  unfold fetch_one. destruct pl.
  - apply returns_bind_from with (Q := canonical);
      [apply download_yf_canonical | intros a Ca].
    apply returns_bind_from with (Q := canonical).
    + destruct (_ && _); [apply download_stooq_canonical | apply returns_ret, Ca].
    + intros b Cb.
      destruct (_ && _); [apply load_csv_canonical | apply returns_ret, Cb].
  - apply returns_bind_from with (Q := canonical).
    + destruct uc; [apply load_csv_canonical | apply returns_ret; constructor].
    + intros c Cc. destruct (too_thin c m); [|apply returns_ret, Cc].
      apply returns_bind_from with (Q := canonical);
        [apply download_yf_canonical | intros a Ca].
      apply returns_bind_from with (Q := canonical).
      * destruct (_ && _); [apply download_stooq_canonical | apply returns_ret, Ca].
      * intros b Cb. destruct (negb (empty b)); apply returns_ret; assumption.
Qed.

Lemma fetch_one_keeps (t p i : string) (pl : bool) (m : Z) (uc al : bool) :
  keeps_disk (fetch_one t p i pl m uc al).
Proof.
  unfold fetch_one. destruct pl.
  - apply keeps_bind; [apply download_yf_keeps | intro a].
    apply keeps_bind.
    + destruct (_ && _); [apply download_stooq_keeps | apply keeps_ret].
    + intro b. destruct (_ && _); [apply load_csv_keeps | apply keeps_ret].
  - apply keeps_bind.
    + destruct uc; [apply load_csv_keeps | apply keeps_ret].
    + intro c. destruct (too_thin c m); [|apply keeps_ret].
      apply keeps_bind; [apply download_yf_keeps | intro a].
      apply keeps_bind.
      * destruct (_ && _); [apply download_stooq_keeps | apply keeps_ret].
      * intro b. destruct (negb (empty b)); apply keeps_ret.
Qed.

(** [_save_csv] of a canonical frame returns; it writes at most the cache
    file of its ticker, and nothing for an empty frame. *)
Lemma save_csv_spec (t : string) (df : DataFrame) (w : world) :
  canonical df ->
  exists w',
    (if negb (empty df) then _save_csv t df else ret tt) w = (Return tt, w')
    /\ (w' = w
        \/ empty df = false
           /\ exists text,
                disk w' = (csv_path (hd "" CACHE_DIRS) t, text) :: disk w).
Proof.
  intro C. destruct (empty df) eqn:Em; simpl.
  - exists w. split; [reflexivity | left; reflexivity].
  - unfold _save_csv. rewrite Em.
    destruct (normalize_df_again df C) as (out & E).
    unfold bind, lift. rewrite E.
    destruct (empty out).
    + exists w. split; [reflexivity | left; reflexivity].
    + eexists. split; [reflexivity|].
      right. split; [reflexivity|]. eexists. reflexivity.
Qed.

(** One turn of the loop of [get_price_history]. *)
Lemma history_loop_step (t : string) (rest : list string) (p i : string)
    (pl : bool) (m : Z) (uc al : bool) (out : list (string * DataFrame))
    (w : world) :
  exists df w1 w2,
    fetch_one t p i pl m uc al w = (Return df, w1)
    /\ canonical df
    /\ disk w1 = disk w
    /\ (w2 = w1
        \/ empty df = false
           /\ exists text,
                disk w2 = (csv_path (hd "" CACHE_DIRS) t, text) :: disk w1)
    /\ history_loop (t :: rest) p i pl m uc al out w
       = history_loop rest p i pl m uc al (Py.dict_set t df out) w2.
Proof.
  destruct (fetch_one_total t p i pl m uc al w) as (df & w1 & E).
  pose proof (fetch_one_canonical t p i pl m uc al w df w1 E) as C.
  pose proof (fetch_one_keeps t p i pl m uc al w) as K. rewrite E in K. simpl in K.
  destruct (save_csv_spec t df w1 C) as (w2 & Es & Hw).
  exists df, w1, w2. repeat split; try assumption.
  simpl history_loop. unfold bind at 1. rewrite E.
  unfold bind at 1. rewrite Es. reflexivity.
Qed.

(** [get_price_history] returns, with one key per requested ticker. *)
Lemma history_loop_keys (tickers : list string) (p i : string)
    (pl : bool) (m : Z) (uc al : bool) :
  forall (out : list (string * DataFrame)) (w : world),
  exists out' w',
    history_loop tickers p i pl m uc al out w = (Return out', w')
    /\ (forall k, In k (map fst out') <-> In k (map fst out) \/ In k tickers)
    /\ (NoDup (map fst out) -> NoDup (map fst out')).
Proof.
  induction tickers as [|t rest IH]; intros out w.
  - exists out, w. split; [reflexivity|]. split; [simpl; tauto | tauto].
  - destruct (history_loop_step t rest p i pl m uc al out w)
      as (df & w1 & w2 & _ & _ & _ & _ & ->).
    destruct (IH (Py.dict_set t df out) w2) as (out' & w' & E & Hk & Hn).
    exists out', w'. split; [exact E|]. split.
    + intro k. rewrite Hk, dict_set_keys. simpl. intuition congruence.
    + intro N. apply Hn, dict_set_NoDup, N.
Qed.

(** *** A ticker no source has data for *)

Section Failing.
Variables (T : string) (w0 : world).
Hypothesis HF : sources_fail T w0.

Lemma cache_fails_agree (w : world) (df : DataFrame) (w' : world) :
  agree (cache_paths T) w w0 ->
  _load_csv T w = (Return df, w') -> empty df = true.
Proof.
  intros H E. destruct HF as (_ & _ & Hc).
  destruct (load_csv_reads T) as [_ R].
  assert (H' : agree (cache_paths T) w (mkWorld (disk w0) (trace w)))
    by (intros f Hf; simpl; apply H, Hf).
  specialize (R _ _ H').
  destruct (load_csv_total T (mkWorld (disk w0) (trace w))) as (df2 & w2 & E2).
  rewrite E, E2 in R. simpl in R. inversion R. subst df2.
  eapply Hc. exact E2.
Qed.

Lemma fetch_one_failing (p i : string) (pl : bool) (m : Z) (uc al : bool)
    (w : world) (df : DataFrame) (w' : world) :
  agree (cache_paths T) w w0 ->
  fetch_one T p i pl m uc al w = (Return df, w') -> empty df = true.
Proof.
  intro H. destruct HF as (Hy & Hs & _).
  assert (Y : returns (fun df => empty df = true) (_download_yf T p i))
    by (intros w1 a w1' E; eapply Hy; exact E).
  assert (S : returns (fun df => empty df = true) (_download_stooq T p))
    by (intros w1 a w1' E; eapply Hs; exact E).
  unfold fetch_one. destruct pl; unfold bind.
  - pose proof (download_yf_keeps T p i w) as K1.
    destruct (_download_yf T p i w) as [[a|e] wa] eqn:Ea; [|discriminate].
    simpl in K1.
    pose proof (Y _ _ _ Ea) as Ha.
    unfold too_thin at 1. rewrite Ha. simpl.
    destruct al.
    + pose proof (download_stooq_keeps T p wa) as K2.
      destruct (_download_stooq T p wa) as [[b|e] wb] eqn:Eb; [|discriminate].
      simpl in K2.
      pose proof (S _ _ _ Eb) as Hb.
      unfold too_thin. rewrite Hb. simpl.
      destruct uc.
      * apply cache_fails_agree. intros f Hf. rewrite K2, K1. apply H, Hf.
      * intro E. inversion E. subst. exact Hb.
    + unfold ret at 1. unfold too_thin. rewrite Ha. simpl.
      destruct uc.
      * apply cache_fails_agree. intros f Hf. rewrite K1. apply H, Hf.
      * intro E. inversion E. subst. exact Ha.
  - assert (C : exists c wc,
               (if uc then _load_csv T else ret empty_frame) w = (Return c, wc)
               /\ empty c = true).
    { destruct uc.
      - destruct (load_csv_total T w) as (c & wc & Ec).
        exists c, wc. split; [exact Ec|]. eapply cache_fails_agree; eassumption.
      - exists empty_frame, w. split; reflexivity. }
    destruct C as (c & wc & Ec & Hc'). rewrite Ec.
    unfold too_thin at 1. rewrite Hc'. simpl.
    destruct (_download_yf T p i wc) as [[a|e] wa] eqn:Ea; [|discriminate].
    pose proof (Y _ _ _ Ea) as Ha.
    unfold too_thin at 1. rewrite Ha. simpl.
    destruct al.
    + destruct (_download_stooq T p wa) as [[b|e] wb] eqn:Eb; [|discriminate].
      pose proof (S _ _ _ Eb) as Hb. rewrite Hb. simpl.
      intro E. inversion E. subst. exact Hc'.
    + unfold ret at 1. rewrite Ha. simpl.
      intro E. inversion E. subst. exact Hc'.
Qed.

Lemma history_loop_failing (tickers : list string) (p i : string)
    (pl : bool) (m : Z) (uc al : bool) :
  forall (out out' : list (string * DataFrame)) (w w' : world),
    agree (cache_paths T) w w0 ->
    history_loop tickers p i pl m uc al out w = (Return out', w') ->
    In T tickers \/ (exists df, Py.lookup T out = Some df /\ empty df = true) ->
    exists df, Py.lookup T out' = Some df /\ empty df = true.
Proof.
  induction tickers as [|t rest IH]; intros out out' w w' H E HT.
  - inversion E. subst. destruct HT as [[] | HT]. exact HT.
  - destruct (history_loop_step t rest p i pl m uc al out w)
      as (df & w1 & w2 & Ef & _ & K1 & Hw & Eq).
    rewrite Eq in E.
    destruct (string_dec t T) as [-> | N].
    + pose proof (fetch_one_failing _ _ _ _ _ _ _ _ _ H Ef) as Hd.
      apply (IH (Py.dict_set T df out) out' w2 w'); [|exact E|].
      * destruct Hw as [-> | [Hne _]]; [|congruence].
        intros f Hf. rewrite K1. apply H, Hf.
      * right. exists df. split; [apply lookup_dict_set_same | exact Hd].
    + apply (IH (Py.dict_set t df out) out' w2 w'); [|exact E|].
      * destruct Hw as [-> | (_ & text & Hdisk)].
        -- intros f Hf. rewrite K1. apply H, Hf.
        -- intros f Hf. rewrite Hdisk. cbn [Py.lookup].
           destruct (String.eqb f (csv_path (hd "" CACHE_DIRS) t)) eqn:Ep.
           ++ apply String.eqb_eq in Ep. subst f.
              apply save_path_other in Hf. contradiction.
           ++ rewrite K1. apply H, Hf.
      * destruct HT as [[-> | HT] | (d & L & Hd)]; [contradiction | left; exact HT |].
        right. exists d. split; [|exact Hd].
        rewrite lookup_dict_set_other by exact N. exact L.
Qed.

End Failing.

(** *** The price matrix *)

Lemma series_of_bundle_names (bundle : list (string * DataFrame)) (ss : list Series) :
  series_of_bundle bundle = Return ss ->
  map sname ss = map fst (filter (fun p => negb (empty (snd p))) bundle).
Proof.
  revert ss. induction bundle as [|[t df] bundle IH]; intros ss H; simpl in H.
  - inversion H. reflexivity.
  - simpl. destruct (empty df); simpl; [apply IH, H|].
    result_inv H. result_inv H. result_inv H. result_inv H.
    inversion H. subst. simpl. f_equal. apply IH. assumption.
Qed.

Lemma concat_inner_columns (ss : list Series) (m : Matrix) :
  concat_inner ss = Return m -> mcolumns m = map sname ss.
Proof.
  unfold concat_inner. destruct ss as [|s0 rest]; [discriminate|].
  destruct rest as [|s1 rest]; [intro H; inversion H; reflexivity|].
  destruct (existsb _ (s0 :: s1 :: rest)); [discriminate|].
  intro H. inversion H. reflexivity.
Qed.

(** The columns of the matrix are the tickers of the bundle whose frame is not
    empty, in the order of the bundle. *)
Lemma prices_matrix_columns (tickers : list string) (lookback_days : Z)
    (period : option string) (i : string) (pl : bool) (m : Z) (uc al : bool)
    (w w' : world) (mat : Matrix) :
  get_prices_matrix tickers lookback_days period i pl m uc al w = (Return mat, w') ->
  exists p bundle w1,
    get_price_history (map Py.upper tickers) p i pl m uc al w = (Return bundle, w1)
    /\ mcolumns mat = map fst (filter (fun p => negb (empty (snd p))) bundle).
Proof.
  unfold get_prices_matrix.
  set (p := match period with
            | Some p => if String.eqb p "" then _ else p
            | None => _
            end).
  intro H. unfold bind at 1 in H.
  destruct (get_price_history (map Py.upper tickers) p i pl m uc al w)
    as [[bundle|e] w1] eqn:Eh; [|discriminate].
  exists p, bundle, w1. split; [exact Eh|].
  unfold bind at 1 in H. unfold lift at 1 in H.
  destruct (series_of_bundle bundle) as [ss|e] eqn:Es; [|discriminate].
  rewrite <- (series_of_bundle_names _ _ Es).
  destruct ss as [|s0 rest]; [inversion H; reflexivity|].
  unfold bind, lift in H.
  destruct (concat_inner (s0 :: rest)) as [wide|e] eqn:Ec; [|discriminate].
  apply concat_inner_columns in Ec. rewrite <- Ec.
  inversion H. destruct (lookback_days >? 0)%Z; reflexivity.
Qed.

(** *** The claims on the fetcher *)

Lemma too_thin_false (df : DataFrame) (m : Z) :
  too_thin df m = false <-> empty df = false /\ (m <= len df)%Z.
Proof.
  unfold too_thin. rewrite orb_false_iff, Z.ltb_ge. reflexivity.
Qed.

(** C4.  In live-first mode [get_price_history] asks Yahoo first.  A frame
    that is not empty and has at least [min_rows] rows is accepted on the
    spot: the result and the world are those Yahoo left, so neither Stooq nor
    the cache has been consulted.  Otherwise (an empty frame, or fewer rows)
    Stooq is asked next, when the fallback is enabled, and judged the same
    way; and when that is too thin as well the cache is read last, when it is
    enabled, and its frame taken as it is. *)
Theorem live_first_order (t p i : string) (m : Z) (uc al : bool) (w : world) :
  exists a wa,
    _download_yf t p i w = (Return a, wa)
    /\ wa = mkWorld (disk w) ((if HAS_YF then [EvYahoo t] else []) ++ trace w)
    /\ (too_thin a m = false <-> empty a = false /\ (m <= len a)%Z)
    /\ exists b wb,
         _download_stooq t p wa = (Return b, wb)
         /\ wb = mkWorld (disk w) ((if HAS_PDR then [EvStooq t] else []) ++ trace wa)
         /\ (too_thin b m = false <-> empty b = false /\ (m <= len b)%Z)
         /\ fetch_one t p i true m uc al w
            = if too_thin a m then
                if al then
                  if too_thin b m then
                    if uc then _load_csv t wb else (Return b, wb)
                  else (Return b, wb)
                else
                  if uc then _load_csv t wa else (Return a, wa)
              else (Return a, wa).
Proof.
  destruct (download_yf_spec t p i w) as (a & Ea & _).
  eexists a, _. split; [exact Ea|]. split; [reflexivity|].
  split; [apply too_thin_false|].
  match type of Ea with _ = (_, ?x) => set (wa := x) in * end.
  destruct (download_stooq_spec t p wa) as (b & Eb & _).
  eexists b, _. split; [exact Eb|]. split; [reflexivity|].
  split; [apply too_thin_false|].
  unfold fetch_one, bind. rewrite Ea.
  destruct (too_thin a m) eqn:Ta; simpl.
  - destruct al; simpl.
    + rewrite Eb. destruct (too_thin b m); simpl; [|reflexivity].
      destruct uc; reflexivity.
    + unfold ret at 1. rewrite Ta. simpl. destruct uc; reflexivity.
  - unfold ret at 1. rewrite Ta. reflexivity.
Qed.

(** C10.  [get_price_history] returns a map with exactly one entry per
    requested ticker, keyed by the uppercased ticker; a ticker every source
    failed for has its entry too, an empty frame. *)
Theorem history_one_entry_per_ticker (tickers : list string) (p i : string)
    (pl : bool) (m : Z) (uc al : bool) (w0 : world) :
  exists out w1,
    get_price_history tickers p i pl m uc al w0 = (Return out, w1)
    /\ NoDup (map fst out)
    /\ (forall k, In k (map fst out) <-> In k (map Py.upper tickers))
    /\ (forall k, In k (map Py.upper tickers) -> exists df, Py.lookup k out = Some df)
    /\ (forall T, In T (map Py.upper tickers) -> sources_fail T w0 ->
          exists df, Py.lookup T out = Some df /\ empty df = true).
Proof.
  unfold get_price_history.
  destruct (history_loop_keys (map Py.upper tickers) p i pl m uc al [] w0)
    as (out & w1 & E & Hk & Hn).
  exists out, w1. split; [exact E|].
  assert (K : forall k, In k (map fst out) <-> In k (map Py.upper tickers))
    by (intro k; rewrite Hk; simpl; tauto).
  split; [apply Hn; constructor|]. split; [exact K|]. split.
  - intros k Hin. apply lookup_Some_of_key, K, Hin.
  - intros T HT HF.
    eapply (history_loop_failing T w0 HF) with (out := []) (w := w0);
      [intros f _; reflexivity | exact E | left; exact HT].
Qed.

(** C5.  When every source fails for a ticker, [get_price_history] raises
    nothing and keeps the ticker in the map it returns, with an empty frame;
    the ticker is not a column of the matrix [get_prices_matrix] returns. *)
Theorem failed_ticker_excluded (T : string) (tickers : list string)
    (p i : string) (pl : bool) (m : Z) (uc al : bool) (w0 : world)
    (HT : In T (map Py.upper tickers))
    (HF : sources_fail T w0) :
  (exists out w1,
     get_price_history tickers p i pl m uc al w0 = (Return out, w1)
     /\ exists df, Py.lookup T out = Some df /\ empty df = true)
  /\ (forall (lookback_days : Z) (period : option string) (mat : Matrix) (w1 : world),
        get_prices_matrix tickers lookback_days period i pl m uc al w0
        = (Return mat, w1) ->
        ~ In T (mcolumns mat)).
Proof.
  split.
  - unfold get_price_history.
    destruct (history_loop_keys (map Py.upper tickers) p i pl m uc al [] w0)
      as (out & w1 & E & _ & _).
    exists out, w1. split; [exact E|].
    eapply (history_loop_failing T w0 HF) with (out := []) (w := w0);
      [intros f _; reflexivity | exact E | left; exact HT].
  - intros lookback_days period mat w1 H.
    apply prices_matrix_columns in H.
    destruct H as (p' & bundle & w2 & Eh & ->).
    unfold get_price_history in Eh.
    assert (U : map Py.upper (map Py.upper tickers) = map Py.upper tickers).
    { rewrite map_map. apply map_ext. intro t. apply upper_idem. }
    rewrite U in Eh.
    destruct (history_loop_keys (map Py.upper tickers) p' i pl m uc al [] w0)
      as (out & w3 & E & _ & Hn).
    rewrite E in Eh. inversion Eh. subst bundle w3.
    assert (D : exists d, Py.lookup T out = Some d /\ empty d = true).
    { eapply (history_loop_failing T w0 HF) with (out := []) (w := w0);
        [intros f _; reflexivity | exact E | left; exact HT]. }
    destruct D as (d & L & Hd).
    intro Hin. apply in_map_iff in Hin. destruct Hin as ([k df] & Hk & Hin).
    simpl in Hk. subst k. apply filter_In in Hin. destruct Hin as [Hin Hne].
    simpl in Hne.
    rewrite (lookup_NoDup T d df out (Hn (NoDup_nil _)) L Hin) in Hne.
    rewrite Hd in Hne. discriminate.
Qed.

End WithSources.

(** Two rows of the same day both survive, and so does an infinite price. *)
Lemma normalize_df_keeps_duplicates :
  (exists out,
     _normalize_df (pandas := Samples.typed_pandas) (Some Samples.same_day_twice)
     = Return out
     /\ column out "Date"
        = [CTime 1704153600000000000; CTime 1704153600000000000]
     /\ ~ StronglySorted Z.lt [1704153600000000000; 1704153600000000000]%Z
     /\ ~ NoDup [1704153600000000000; 1704153600000000000]%Z)
  /\ (exists out,
        _normalize_df (pandas := Samples.typed_pandas) (Some Samples.infinite_price)
        = Return out
        /\ column out "Adj Close" = [CNum PInf]).
Proof.
  split.
  - eexists. split; [vm_compute; reflexivity|].
    split; [reflexivity|]. split.
    + intro S. inversion S as [|a l _ F]; subst.
      inversion F as [|b l' Hlt _]; subst. lia.
    + intro N. inversion N as [|a l Hn _]; subst. apply Hn. left. reflexivity.
  - eexists. split; [vm_compute; reflexivity | reflexivity].
Qed.

(** With [min_rows = 0] the empty frame Yahoo answers has enough rows, and
    yet Stooq and the cache are consulted. *)
Lemma empty_answer_not_accepted :
  exists a wa,
    _download_yf (pandas := Samples.typed_pandas) (sources := Samples.empty_yahoo)
      "AAA" "3y" "1d" Samples.no_files = (Return a, wa)
    /\ (0 <= len a)%Z
    /\ trace (snd (get_price_history (pandas := Samples.typed_pandas)
                     (sources := Samples.empty_yahoo)
                     ["AAA"] "3y" "1d" true 0 true true Samples.no_files))
       = [EvExists "data/cache_prices/AAA.csv"; EvExists "data/prices/AAA.csv";
          EvStooq "AAA"; EvYahoo "AAA"].
Proof.
  eexists. eexists. split; [vm_compute; reflexivity|].
  split; [vm_compute; discriminate | vm_compute; reflexivity].
Qed.

Lemma nothing_for_aaa :
  sources_fail (pandas := Samples.typed_pandas) (sources := Samples.yahoo_knows_bbb)
    "AAA" Samples.no_files.
Proof.
  repeat split.
  - intros p i w df w' H. vm_compute in H. inversion H. reflexivity.
  - intros p w df w' H. vm_compute in H. inversion H. reflexivity.
  - intros tr df w' H. vm_compute in H. inversion H. reflexivity.
Defined.

(** The ticker every source failed for is in the returned map. *)
Lemma failed_ticker_in_map :
  sources_fail (pandas := Samples.typed_pandas) (sources := Samples.yahoo_knows_bbb)
    "AAA" Samples.no_files
  /\ exists out w1,
       get_price_history (pandas := Samples.typed_pandas)
         (sources := Samples.yahoo_knows_bbb)
         ["aaa"; "bbb"] "3y" "1d" true 1 true true Samples.no_files
       = (Return out, w1)
       /\ map fst out = ["AAA"; "BBB"]
       /\ In "AAA" (map fst out).
Proof.
  split; [exact nothing_for_aaa|].
  eexists. eexists. split; [vm_compute; reflexivity|].
  split; [reflexivity | left; reflexivity].
Qed.

Lemma failed_ticker_excluded_witness :
  (exists out w1,
     get_price_history (pandas := Samples.typed_pandas)
       (sources := Samples.yahoo_knows_bbb)
       ["aaa"; "bbb"] "3y" "1d" true 1 true true Samples.no_files
     = (Return out, w1)
     /\ exists df, Py.lookup "AAA" out = Some df /\ empty df = true)
  /\ (forall (lookback_days : Z) (period : option string) (mat : Matrix) (w1 : world),
        get_prices_matrix (pandas := Samples.typed_pandas)
          (sources := Samples.yahoo_knows_bbb)
          ["aaa"; "bbb"] lookback_days period "1d" true 1 true true Samples.no_files
        = (Return mat, w1) ->
        ~ In "AAA" (mcolumns mat)).
Proof.
  apply (failed_ticker_excluded (pandas := Samples.typed_pandas)
           (sources := Samples.yahoo_knows_bbb) "AAA").
  - simpl. left. reflexivity.
  - exact nothing_for_aaa.
Defined.

(** The matrix of that run, evaluated: the one column is BBB. *)
Lemma matrix_of_two_tickers :
  fst (get_prices_matrix (pandas := Samples.typed_pandas)
         (sources := Samples.yahoo_knows_bbb)
         ["aaa"; "bbb"] 252 None "1d" true 1 true true Samples.no_files)
  = Return (mkMatrix ["BBB"]
              [(CTime 1704153600000000000, [Num 10]);
               (CTime 1704240000000000000, [Num 11])]).
Proof. vm_compute. reflexivity. Qed.

Lemma normalize_df_series_witness :
  exists (ts : list Z) (xs : list pyfloat),
    column (frame_of_rows None
              [mkRow (CNum (Num 0)) (CTime 1704153600000000000) (CNum (Num 10));
               mkRow (CNum (Num 1)) (CTime 1704153600000000000) (CNum (Num 11))])
      "Date" = map CTime ts
    /\ column (frame_of_rows None
              [mkRow (CNum (Num 0)) (CTime 1704153600000000000) (CNum (Num 10));
               mkRow (CNum (Num 1)) (CTime 1704153600000000000) (CNum (Num 11))])
      "Adj Close" = map CNum xs
    /\ List.length ts = List.length xs
    /\ StronglySorted Z.le ts
    /\ Forall (fun x => isnan x = false) xs.
Proof.
  apply (normalize_df_series (pandas := Samples.typed_pandas)
           (Some Samples.same_day_twice)).
  vm_compute. reflexivity.
Defined.

End PriceDataFacts.

(** ** More on the evolutionary allocator *)

Module AllocatorShape.
Import World Allocator AllocatorFacts.

Ltac unbind H :=
  let a := fresh "a" in
  let s1 := fresh "s" in
  let H1 := fresh "H" in
  apply gbind_Return in H; destruct H as (a & s1 & H1 & H).

Section Shape.
Context {random : Random}.

Lemma normalize_length (w : list Q) : List.length (normalize w) = List.length w.
Proof. unfold normalize. rewrite !length_map. reflexivity. Qed.

Lemma rand_length (n s s' : nat) (w : list Q) :
  rand n s = Return (w, s') -> List.length w = n.
Proof.
  revert s s' w. induction n as [|m IH]; intros s s' w H; simpl in H.
  - inversion H. reflexivity.
  - unbind H. unbind H. inversion H. subst. simpl. f_equal. eapply IH. eassumption.
Qed.

Lemma initial_population_shape (size n s s' : nat) (pop : list (list Q)) :
  initial_population size n s = Return (pop, s') ->
  List.length pop = size /\ Forall (fun c => List.length c = n) pop.
Proof.
  revert s s' pop. induction size as [|k IH]; intros s s' pop H; simpl in H.
  - inversion H. split; [reflexivity | constructor].
  - unbind H. unbind H. inversion H. subst.
    destruct (IH _ _ _ H1) as [L F]. split; [simpl; congruence|].
    constructor; [|exact F].
    rewrite normalize_length. eapply rand_length. eassumption.
Qed.

Lemma randint_range (a b x : Z) (s s' : nat) :
  randint a b s = Return (x, s') -> (a <= x <= b)%Z.
Proof.
  unfold randint. destruct (b <? a)%Z eqn:E; [discriminate|].
  apply Z.ltb_ge in E. intro H. inversion H. subst.
  pose proof (Z.mod_pos_bound (raw_int s) (b - a + 1)). lia.
Qed.

Lemma sample2_In {A : Type} (d : A) (l : list A) (s s' : nat) (p1 p2 : A) :
  sample2 d l s = Return ((p1, p2), s') -> In p1 l /\ In p2 l.
Proof.
  unfold sample2. destruct (Z.of_nat (List.length l) <? 2)%Z; [discriminate|].
  intro H. unbind H. unbind H. inversion H. subst.
  apply randint_range in H0. apply randint_range in H1.
  split; apply nth_In.
  - lia.
  - destruct (a <=? a0)%Z eqn:E; [apply Z.leb_le in E | apply Z.leb_gt in E]; lia.
Qed.

Lemma add_at_length (idx : nat) (x : Q) (child : list Q) :
  List.length (add_at idx x child) = List.length child.
Proof.
  revert idx. induction child as [|c r IH]; intro idx; destruct idx; simpl;
    try reflexivity.
  rewrite IH. reflexivity.
Qed.

Lemma make_child_length (n : nat) (elites : list (list Q)) (mr : Q)
    (s s' : nat) (child : list Q) :
  Forall (fun c => List.length c = n) elites ->
  make_child (Z.of_nat n) elites mr s = Return (child, s') ->
  List.length child = n.
Proof.
  intros F H. unfold make_child in H.
  unbind H. destruct a as [p1 p2].
  apply sample2_In in H0. destruct H0 as [I1 I2].
  rewrite Forall_forall in F. pose proof (F _ I1) as L1. pose proof (F _ I2) as L2.
  unbind H. apply randint_range in H0.
  unbind H. unbind H. unfold gret in H. injection H as Hc _. subst child.
  rewrite normalize_length.
  assert (L : List.length (firstn (Z.to_nat a) p1 ++ skipn (Z.to_nat a) p2)%list = n).
  { rewrite length_app, length_firstn, length_skipn. lia. }
  destruct (Qlt_bool a0 mr).
  - unbind H2. unbind H2. unfold gret in H2. injection H2 as Hc _. subst a1.
    rewrite add_at_length. exact L.
  - unfold gret in H2. injection H2 as Hc _. subst a1. exact L.
Qed.

Lemma make_children_length (todo n : nat) (elites : list (list Q)) (mr : Q)
    (s s' : nat) (children : list (list Q)) :
  Forall (fun c => List.length c = n) elites ->
  make_children todo (Z.of_nat n) elites mr s = Return (children, s') ->
  Forall (fun c => List.length c = n) children.
Proof.
  intro F. revert s s' children.
  induction todo as [|k IH]; intros s s' children H; simpl in H.
  - inversion H. constructor.
  - unbind H. unbind H. inversion H. subst.
    constructor; [eapply make_child_length; eassumption | eapply IH; eassumption].
Qed.

Lemma generation_shape (returns risks sentiments : list (string * Q))
    (population_size : Z) (elite_frac mutation_rate : Q)
    (population pop' : list (list Q)) (s s' : nat) :
  shaped (Z.to_nat population_size) (List.length returns) population ->
  generation returns risks sentiments population_size elite_frac mutation_rate
    population s = Return (pop', s') ->
  shaped (Z.to_nat population_size) (List.length returns) pop'.
Proof.
  intros [L F] H.
  pose proof H as H'. unfold generation in H'.
  unbind H'. apply glift_Return in H0. destruct H0 as [Hs ->].
  unbind H'. inversion H'. subst pop'.
  pose proof (map_result_length _ _ _ Hs) as Ls.
  destruct (select_elites_spec population a
              (elite_count elite_frac population_size) Ls) as [Le Fe].
  assert (Fl : Forall (fun c => List.length c = List.length returns)
                 (select_elites population a (elite_count elite_frac population_size))).
  { rewrite Forall_forall in *. intros c Hc. apply F, Fe, Hc. }
  destruct (make_children_spec _ _ _ _ _ _ _ H0) as [Lc _].
  split.
  - rewrite length_app, Le, Lc, L.
    assert (1 <= elite_count elite_frac population_size)%Z
      by (unfold elite_count; lia).
    lia.
  - apply Forall_app. split; [exact Fl|].
    eapply make_children_length; eassumption.
Qed.

Lemma evolve_shape (generations : nat) (returns risks sentiments : list (string * Q))
    (population_size : Z) (elite_frac mutation_rate : Q)
    (population pop' : list (list Q)) (s s' : nat) :
  shaped (Z.to_nat population_size) (List.length returns) population ->
  evolve generations returns risks sentiments population_size elite_frac
    mutation_rate population s = Return (pop', s') ->
  shaped (Z.to_nat population_size) (List.length returns) pop'.
Proof.
  revert population s.
  induction generations as [|g IH]; intros population s Sh H; simpl in H.
  - inversion H. subst. exact Sh.
  - unbind H. eapply IH; [|exact H]. eapply generation_shape; eassumption.
Qed.

Lemma final_population_shaped (returns risks sentiments : list (string * Q))
    (population_size generations : Z) (elite_frac mutation_rate : Q)
    (s s' : nat) (pop : list (list Q)) :
  final_population returns risks sentiments population_size generations
    elite_frac mutation_rate s = Return (pop, s') ->
  shaped (Z.to_nat population_size) (List.length returns) pop.
Proof.
  intro H. unfold final_population in H. unbind H.
  eapply evolve_shape; [|exact H].
  eapply initial_population_shape. exact H0.
Qed.

(** X1.  A run of the allocator that gets through its generations ends with
    exactly [population_size] candidates, each with one weight per ticker of
    [returns]. *)
Theorem final_population_shape (returns risks sentiments : list (string * Q))
    (population_size generations : Z) (elite_frac mutation_rate : Q)
    (s s' : nat) (pop : list (list Q))
    (H : final_population returns risks sentiments population_size generations
           elite_frac mutation_rate s = Return (pop, s')) :
  List.length pop = Z.to_nat population_size
  /\ Forall (fun c => List.length c = List.length returns) pop.
Proof.
  unfold final_population in H. unbind H.
  eapply evolve_shape; [|exact H].
  eapply initial_population_shape. exact H0.
Qed.

End Shape.

Lemma final_population_shape_witness :
  exists pop s',
    final_population (random := Samples.counting_random) Samples.two_returns
      Samples.two_risks Samples.two_sentiments 4%Z 2%Z (1 # 2) (1 # 10) 0%nat
    = Return (pop, s')
    /\ List.length pop = 4%nat
    /\ Forall (fun c => List.length c = 2%nat) pop.
Proof.
  eexists. eexists. split; [vm_compute; reflexivity|].
  eapply (final_population_shape (random := Samples.counting_random)
            Samples.two_returns Samples.two_risks Samples.two_sentiments
            4%Z 2%Z (1 # 2) (1 # 10) 0%nat).
  vm_compute. reflexivity.
Defined.

End AllocatorShape.

Module AllocatorElite.
Import World Allocator AllocatorFacts AllocatorShape.

Lemma map_result_nth {A B : Type} (f : A -> result B) (l : list A) (l' : list B) :
  map_result f l = Return l' ->
  forall i a, nth_error l i = Some a ->
  exists b, nth_error l' i = Some b /\ f a = Return b.
Proof.
  revert l'. induction l as [|x l IH]; intros l' H i a Hi.
  - destruct i; discriminate.
  - simpl in H. destruct (f x) as [y|e] eqn:Ef; simpl in H; [|discriminate].
    destruct (map_result f l) as [ys|e]; simpl in H; [|discriminate].
    inversion H. subst l'. destruct i as [|i]; simpl in *.
    + inversion Hi. subst. exists y. split; [reflexivity | exact Ef].
    + eapply IH; [reflexivity | exact Hi].
Qed.

Lemma combine_seq_In {A : Type} (l : list A) (k i : nat) (q : A) :
  In (q, i) (combine l (seq k (List.length l))) <->
  (k <= i)%nat /\ nth_error l (i - k) = Some q.
Proof.
  revert k. induction l as [|x l IH]; intro k; simpl.
  - split; [tauto|]. intros [_ H]. destruct (i - k)%nat; discriminate.
  - rewrite IH. split.
    + intros [H | [Hk Hn]].
      * inversion H. subst. split; [lia|]. rewrite Nat.sub_diag. reflexivity.
      * split; [lia|]. replace (i - k)%nat with (S (i - S k)) by lia. exact Hn.
    + intros [Hk Hn]. destruct (Nat.eq_dec i k) as [-> | N].
      * left. rewrite Nat.sub_diag in Hn. simpl in Hn. congruence.
      * right. split; [lia|].
        replace (i - k)%nat with (S (i - S k)) in Hn by lia. exact Hn.
Qed.

Lemma insert_score_sorted (x : Q * nat) (l : list (Q * nat)) :
  StronglySorted score_le l -> StronglySorted score_le (insert_score x l).
Proof.
  induction 1 as [|y l S IH F]; simpl.
  - repeat constructor.
  - destruct (Qle_bool (fst x) (fst y)) eqn:E.
    + apply Qle_bool_iff in E. constructor.
      * constructor; assumption.
      * constructor; [exact E|].
        eapply Forall_impl; [|exact F].
        intros a Ha. unfold score_le in *. eapply Qle_trans; eassumption.
    + apply Qle_bool_false_iff in E. constructor; [exact IH|].
      apply (Permutation_Forall (Permutation_sym (insert_score_perm x l))).
      constructor; [unfold score_le; apply Qlt_le_weak, E | exact F].
Qed.

Lemma sort_scores_sorted (l : list (Q * nat)) :
  StronglySorted score_le (fold_right insert_score [] l).
Proof.
  induction l as [|x l IH]; simpl; [constructor|].
  apply insert_score_sorted, IH.
Qed.

Lemma sorted_split_le {A : Type} (R : A -> A -> Prop) (l : list A) (k : nat) :
  StronglySorted R l ->
  forall x y, In x (firstn k l) -> In y (skipn k l) -> R x y.
Proof.
  intro S. revert k. induction S as [|a l S IH F]; intros k x y Hx Hy.
  - destruct k; simpl in Hx; contradiction.
  - destruct k as [|k]; simpl in Hx, Hy; [contradiction|].
    destruct Hx as [<- | Hx].
    + rewrite Forall_forall in F. apply F.
      rewrite <- (firstn_skipn k l). apply in_or_app. right. exact Hy.
    + eapply IH; eassumption.
Qed.

Section Elite.
Context {random : Random}.

(** The elites dominate: every member of the population is an elite, or
    scores no more than some elite. *)
Lemma select_elites_dominate (f : list Q -> result Q)
    (population : list (list Q)) (scores : list Q) (count : Z)
    (c : list Q) (q : Q) :
  (1 <= count)%Z ->
  map_result f population = Return scores ->
  In c population -> f c = Return q ->
  exists c' q',
    In c' (select_elites population scores count)
    /\ In c' population /\ f c' = Return q' /\ q <= q'.
Proof.
  intros Hc Hs Hin Hf.
  pose proof (map_result_length _ _ _ Hs) as L.
  apply In_nth_error in Hin. destruct Hin as (i & Hi).
  destruct (map_result_nth _ _ _ Hs i c Hi) as (q0 & Hq0 & Hf0).
  assert (q0 = q) by congruence. subst q0.
  set (sorted := fold_right insert_score []
                   (combine scores (seq 0 (List.length scores)))).
  assert (Hmem : In (q, i) sorted).
  { apply (Permutation_in _ (Permutation_sym (sort_scores_perm _))).
    apply combine_seq_In. rewrite Nat.sub_0_r. split; [lia | exact Hq0]. }
  assert (Lsorted : List.length sorted = List.length population).
  { unfold sorted. rewrite (Permutation_length (sort_scores_perm _)).
    rewrite length_combine, length_seq. lia. }
  set (k := (List.length sorted - Z.to_nat count)%nat).
  assert (Helite : forall q' i', In (q', i') (skipn k sorted) ->
            exists c', In c' (select_elites population scores count)
                       /\ In c' population /\ f c' = Return q').
  { intros q' i' Hsk.
    assert (Hs' : In (q', i') sorted).
    { rewrite <- (firstn_skipn k sorted). apply in_or_app. right. exact Hsk. }
    apply (Permutation_in _ (sort_scores_perm _)) in Hs'.
    apply combine_seq_In in Hs'. rewrite Nat.sub_0_r in Hs'. destruct Hs' as [_ Hn].
    assert (Hlt : (i' < List.length population)%nat).
    { rewrite <- L. apply nth_error_Some. congruence. }
    destruct (nth_error population i') as [c'|] eqn:Ec';
      [|apply nth_error_None in Ec'; lia].
    destruct (map_result_nth _ _ _ Hs i' c' Ec') as (q2 & Hq2 & Hf2).
    exists c'. split; [|split].
    - unfold select_elites, argsort, Py.last_n. fold sorted.
      apply in_map_iff. exists i'. split.
      + apply nth_error_nth. exact Ec'.
      + rewrite length_map. fold k. rewrite skipn_map.
        apply in_map_iff. exists (q', i'). split; [reflexivity | exact Hsk].
    - eapply nth_error_In. exact Ec'.
    - congruence. }
  rewrite <- (firstn_skipn k sorted) in Hmem. apply in_app_or in Hmem.
  destruct Hmem as [Hpre | Hsuf].
  - assert (Hne : skipn k sorted <> []).
    { intro E. apply (f_equal (@List.length _)) in E.
      rewrite length_skipn in E. simpl in E.
      assert (0 < List.length population)%nat
        by (apply Nat.lt_le_trans with (S i); [lia | apply nth_error_Some; congruence]).
      lia. }
    destruct (skipn k sorted) as [|[q' i'] rest] eqn:Esk; [congruence|].
    destruct (Helite q' i' (or_introl eq_refl)) as (c' & H1 & H2 & H3).
    exists c', q'. repeat split; try assumption.
    apply (sorted_split_le score_le sorted k (sort_scores_sorted _) (q, i) (q', i'));
      [exact Hpre | rewrite Esk; left; reflexivity].
  - destruct (Helite q i Hsuf) as (c' & H1 & H2 & H3).
    exists c', q. repeat split; try assumption. apply Qle_refl.
Qed.

(** X2.  Elitism: a generation never loses its best score.  For every member
    of the current population there is a member of the next population, itself
    carried over from the current one, whose fitness is at least as high. *)
Theorem generation_keeps_best (returns risks sentiments : list (string * Q))
    (population_size : Z) (elite_frac mutation_rate : Q)
    (population pop' : list (list Q)) (s s' : nat) (c : list Q) (q : Q)
    (H : generation returns risks sentiments population_size elite_frac
           mutation_rate population s = Return (pop', s'))
    (Hin : In c population)
    (Hf : fitness returns risks sentiments c = Return q) :
  exists c' q',
    In c' pop' /\ In c' population
    /\ fitness returns risks sentiments c' = Return q' /\ q <= q'.
Proof.
  apply generation_Return in H.
  destruct H as (scores & children & Hs & -> & _ & _).
  destruct (select_elites_dominate (fitness returns risks sentiments)
              population scores
              (elite_count elite_frac population_size) c q) as (c' & q' & H1 & H2 & H3 & H4);
    try assumption.
  - unfold elite_count. lia.
  - exists c', q'. repeat split; try assumption.
    apply in_or_app. left. exact H1.
Qed.

End Elite.

Lemma generation_keeps_best_witness :
  exists pop' s' c' q',
    generation (random := Samples.counting_random) Samples.two_returns
      Samples.two_risks Samples.two_sentiments 4%Z (1 # 2) (1 # 10)
      Samples.four_candidates 0%nat = Return (pop', s')
    /\ In c' pop' /\ In c' Samples.four_candidates
    /\ fitness Samples.two_returns Samples.two_risks Samples.two_sentiments c'
       = Return q'
    /\ (7 # 40) <= q'.
Proof.
  destruct (generation (random := Samples.counting_random) Samples.two_returns
              Samples.two_risks Samples.two_sentiments 4%Z (1 # 2) (1 # 10)
              Samples.four_candidates 0%nat) as [[pop' s']|e] eqn:Hg;
    [|vm_compute in Hg; discriminate Hg].
  destruct (fitness Samples.two_returns Samples.two_risks Samples.two_sentiments
              [1 # 2; 1 # 2]) as [q|e] eqn:Hf;
    [|vm_compute in Hf; discriminate Hf].
  destruct (generation_keeps_best (random := Samples.counting_random)
              Samples.two_returns Samples.two_risks Samples.two_sentiments
              4%Z (1 # 2) (1 # 10) Samples.four_candidates pop' 0%nat s'
              [1 # 2; 1 # 2] q Hg (or_introl eq_refl) Hf)
    as (c' & q' & H1 & H2 & H3 & H4).
  exists pop', s', c', q'. split; [reflexivity|]. repeat split; try assumption.
  eapply Qle_trans; [|exact H4].
  vm_compute in Hf. injection Hf as <-. vm_compute. discriminate.
Defined.

End AllocatorElite.

Module AllocatorRuns.
Import World Allocator AllocatorFacts AllocatorShape AllocatorElite.

(** *** The best candidate *)

Lemma argmax_from_spec (scores : list Q) :
  forall (i bi : nat) (b : Q) (j : nat) (m : Q),
    argmax_from i bi b scores = (j, m) ->
    b <= m
    /\ Forall (fun q => q <= m) scores
    /\ ((j = bi /\ m = b)
        \/ ((i <= j)%nat /\ nth_error scores (j - i) = Some m)).
Proof.
  induction scores as [|x r IH]; intros i bi b j m H; simpl in H.
  - inversion H. subst. split; [apply Qle_refl|]. split; [constructor | left; tauto].
  - destruct (Qlt_bool b x) eqn:E.
    + apply Qlt_bool_iff in E.
      destruct (IH _ _ _ _ _ H) as (H1 & H2 & H3).
      split; [eapply Qle_trans; [apply Qlt_le_weak, E | exact H1]|].
      split; [constructor; assumption|].
      right. destruct H3 as [[-> ->] | [Hi Hn]].
      * split; [lia|]. rewrite Nat.sub_diag. reflexivity.
      * split; [lia|]. replace (j - i)%nat with (S (j - S i)) by lia. exact Hn.
    + apply Qlt_bool_false_iff in E.
      destruct (IH _ _ _ _ _ H) as (H1 & H2 & H3).
      split; [exact H1|].
      split; [constructor; [eapply Qle_trans; eassumption | exact H2]|].
      destruct H3 as [H3 | [Hi Hn]]; [left; exact H3|].
      right. split; [lia|]. replace (j - i)%nat with (S (j - S i)) by lia. exact Hn.
Qed.

Lemma argmax_spec (scores : list Q) (j : nat) (m : Q) :
  argmax scores = Return (j, m) ->
  nth_error scores j = Some m /\ Forall (fun q => q <= m) scores.
Proof.
  unfold argmax. destruct scores as [|x r]; [discriminate|].
  intro H. inversion H as [H'].
  destruct (argmax_from_spec r 1 0 x j m H') as (H1 & H2 & H3).
  split; [|constructor; assumption].
  destruct H3 as [[-> ->] | [Hi Hn]]; [reflexivity|].
  destruct j as [|j]; [lia|]. simpl.
  replace (S j - 1)%nat with j in Hn by lia. exact Hn.
Qed.

Lemma map_result_In {A B : Type} (f : A -> result B) (l : list A) (l' : list B) :
  map_result f l = Return l' ->
  forall a b, In a l -> f a = Return b -> In b l'.
Proof.
  intros H a b Hin Hf. apply In_nth_error in Hin. destruct Hin as (i & Hi).
  destruct (map_result_nth f l l' H i a Hi) as (b' & Hb & Hf').
  assert (b' = b) by congruence. subst. eapply nth_error_In. exact Hb.
Qed.

Lemma map_fst_combine {A B : Type} (l : list A) (l' : list B) :
  List.length l = List.length l' -> map fst (combine l l') = l.
Proof.
  revert l'. induction l as [|x l IH]; intros [|y l'] H; simpl in *;
    try reflexivity; try discriminate.
  f_equal. apply IH. lia.
Qed.

Section Best.
Context {random : Random}.

(** X3.  What [evolutionary_optimize] returns: the fitness it reports is that
    of a candidate of the final population and no candidate of that population
    scores more; the allocation pairs the tickers of [returns], in their
    order, with the weights of that candidate rounded to three decimals. *)
Theorem optimize_returns_best (returns risks sentiments : list (string * Q))
    (population_size generations : Z) (elite_frac mutation_rate : Q)
    (s s' : nat) (allocation : list (string * Q)) (best : Q)
    (H : evolutionary_optimize returns risks sentiments population_size
           generations elite_frac mutation_rate s
         = Return ((allocation, best), s')) :
  exists pop c,
    final_population returns risks sentiments population_size generations
      elite_frac mutation_rate s = Return (pop, s')
    /\ In c pop
    /\ fitness returns risks sentiments c = Return best
    /\ (forall c2 q2, In c2 pop ->
          fitness returns risks sentiments c2 = Return q2 -> q2 <= best)
    /\ allocation = combine (map fst returns) (map round3 c)
    /\ map fst allocation = map fst returns.
Proof.
  unfold evolutionary_optimize in H.
  unbind H. rename a into pop. rename H0 into Hp.
  unbind H. rename a into scores. apply glift_Return in H0. destruct H0 as [Hs ->].
  unbind H. rename a into top. apply glift_Return in H0. destruct H0 as [Ha ->].
  destruct top as [j m]. unfold gret in H. injection H as <- <- <-.
  simpl fst. simpl snd.
  apply argmax_spec in Ha. destruct Ha as [Hj Hmax].
  pose proof (map_result_length _ _ _ Hs) as L.
  assert (Hlt : (j < List.length pop)%nat)
    by (rewrite <- L; apply nth_error_Some; congruence).
  destruct (nth_error pop j) as [c|] eqn:Ec; [|apply nth_error_None in Ec; lia].
  destruct (map_result_nth _ _ _ Hs j c Ec) as (q & Hq & Hf).
  assert (q = m) by congruence. subst q.
  rewrite (nth_error_nth pop j [] Ec).
  exists pop, c. split; [exact Hp|]. split; [eapply nth_error_In; exact Ec|].
  split; [exact Hf|]. split.
  - intros c2 q2 Hin Hf2. rewrite Forall_forall in Hmax.
    apply Hmax. eapply map_result_In; eassumption.
  - split; [reflexivity|].
    apply map_fst_combine. rewrite !length_map.
    destruct (final_population_shaped _ _ _ _ _ _ _ _ _ _ Hp) as [_ F].
    rewrite Forall_forall in F. symmetry. apply F. eapply nth_error_In. exact Ec.
Qed.

End Best.

Lemma optimize_returns_best_witness :
  exists allocation best s' pop c,
    evolutionary_optimize (random := Samples.counting_random) Samples.two_returns
      Samples.two_risks Samples.two_sentiments 4%Z 2%Z (1 # 2) (1 # 10) 0%nat
    = Return ((allocation, best), s')
    /\ In c pop
    /\ fitness Samples.two_returns Samples.two_risks Samples.two_sentiments c
       = Return best
    /\ map fst allocation = ["AAA"; "BBB"].
Proof.
  destruct (evolutionary_optimize (random := Samples.counting_random)
              Samples.two_returns Samples.two_risks Samples.two_sentiments
              4%Z 2%Z (1 # 2) (1 # 10) 0%nat) as [[[allocation best] s']|e] eqn:E;
    [|vm_compute in E; discriminate E].
  destruct (optimize_returns_best (random := Samples.counting_random)
              _ _ _ _ _ _ _ _ _ _ _ E) as (pop & c & _ & H1 & H2 & _ & _ & H3).
  exists allocation, best, s', pop, c. split; [reflexivity|].
  split; [exact H1|]. split; [exact H2 | exact H3].
Defined.

End AllocatorRuns.

Module AllocatorEdges.
Import World Allocator AllocatorFacts AllocatorShape AllocatorElite AllocatorRuns.

(** *** Fitness and missing keys *)

Lemma weighted_total (value : string -> result Q) (tickers : list string) :
  (forall t, In t tickers -> exists v, value t = Return v) ->
  forall (weights : list Q) (acc : Q),
    List.length weights = List.length tickers ->
    exists q, weighted weights tickers value acc = Return q.
Proof.
  induction tickers as [|t ts IH]; intros Hv weights acc L.
  - destruct weights; [|discriminate]. exists acc. reflexivity.
  - destruct weights as [|w ws]; [discriminate|]. simpl.
    destruct (Hv t (or_introl eq_refl)) as (v & ->). simpl.
    apply IH; [intros t' Ht'; apply Hv; right; exact Ht' | simpl in L; lia].
Qed.


Lemma getitem_own_key (d : list (string * Q)) (t : string) :
  In t (map fst d) -> exists v, getitem d t = Return v.
Proof.
  intro H. unfold getitem.
  destruct (PriceDataFacts.lookup_Some_of_key t d H) as (v & ->).
  exists v. reflexivity.
Qed.

Lemma fitness_total (returns risks sentiments : list (string * Q)) (c : list Q) :
  risks_cover returns risks ->
  List.length c = List.length returns ->
  exists q, fitness returns risks sentiments c = Return q.
Proof.
  intros Hr L. unfold fitness.
  assert (L' : List.length c = List.length (map fst returns))
    by (rewrite length_map; exact L).
  destruct (weighted_total (getitem returns) (map fst returns)
              (getitem_own_key returns) c 0 L') as (q1 & ->). simpl.
  destruct (weighted_total (getitem risks) (map fst returns)) with (weights := c) (acc := 0)
    as (q2 & ->); [|exact L'|].
  { intros t Ht. destruct (Hr t Ht) as (v & Ev). exists v. unfold getitem. rewrite Ev. reflexivity. }
  simpl.
  destruct (weighted_total
              (fun t => Return (match Py.lookup t sentiments with
                                | Some v => v | None => 0 end))
              (map fst returns)) with (weights := c) (acc := 0) as (q3 & ->);
    [intros; eexists; reflexivity | exact L' |].
  simpl. eexists. reflexivity.
Qed.


Lemma map_result_total {A B : Type} (f : A -> result B) (l : list A) :
  (forall a, In a l -> exists b, f a = Return b) ->
  exists l', map_result f l = Return l'.
Proof.
  induction l as [|x l IH]; intro H; simpl.
  - exists []. reflexivity.
  - destruct (H x (or_introl eq_refl)) as (y & ->). simpl.
    destruct IH as (ys & ->); [intros a Ha; apply H; right; exact Ha|].
    simpl. eexists. reflexivity.
Qed.


Section Edges.
Context {random : Random}.


(** *** An empty population *)

Lemma evolve_empty (generations : nat) (returns risks sentiments : list (string * Q))
    (population_size : Z) (elite_frac mutation_rate : Q) (s : nat) :
  (population_size <= 0)%Z ->
  evolve generations returns risks sentiments population_size elite_frac
    mutation_rate [] s = Return ([], s).
Proof.
  intro Hp. induction generations as [|g IH]; simpl; [reflexivity|].
  unfold generation. simpl.
  assert (E : Z.to_nat (population_size - elite_count elite_frac population_size) = 0%nat)
    by (unfold elite_count; lia).
  unfold gbind at 1. unfold gbind at 1. simpl. unfold gbind at 1. rewrite E. simpl.
  exact IH.
Qed.

(** X5.  With [population_size <= 0] there is no candidate to pick a best
    from: the run raises [ValueError], whatever the other arguments. *)
Theorem empty_population_raises (returns risks sentiments : list (string * Q))
    (population_size generations : Z) (elite_frac mutation_rate : Q) (s : nat)
    (Hp : (population_size <= 0)%Z) :
  evolutionary_optimize returns risks sentiments population_size generations
    elite_frac mutation_rate s = Raise ValueError.
Proof.
  unfold evolutionary_optimize, final_population.
  replace (Z.to_nat population_size) with 0%nat by lia. simpl initial_population.
  unfold gbind at 1. unfold gbind at 1. unfold gret at 1.
  rewrite evolve_empty by exact Hp. reflexivity.
Qed.

(** *** A single elite *)

Lemma make_child_one_elite (n : Z) (elites : list (list Q)) (mr : Q) (s : nat) :
  (List.length elites < 2)%nat -> make_child n elites mr s = Raise ValueError.
Proof.
  intro H. unfold make_child, sample2.
  destruct (Z.of_nat (List.length elites) <? 2)%Z eqn:E; [reflexivity|].
  apply Z.ltb_ge in E. lia.
Qed.

(** X6.  When the elite count is 1 and the population is larger, the first
    child cannot be made: [random.sample(elites, 2)] has a single elite to
    draw from and raises [ValueError].  (With the default [elite_frac = 0.2]
    this is every population of 2 to 9 candidates.) *)
Theorem single_elite_raises (returns risks sentiments : list (string * Q))
    (population_size generations : Z) (elite_frac mutation_rate : Q) (s : nat)
    (Hr : risks_cover returns risks)
    (Hg : (0 < generations)%Z)
    (He : elite_count elite_frac population_size = 1%Z)
    (Hp : (2 <= population_size)%Z) :
  evolutionary_optimize returns risks sentiments population_size generations
    elite_frac mutation_rate s = Raise ValueError.
Proof.
  unfold evolutionary_optimize, final_population.
  destruct (initial_population_total (Z.to_nat population_size)
              (List.length returns) s) as (pop & s1 & Ep).
  destruct (initial_population_shape _ _ _ _ _ Ep) as [L F].
  unfold gbind at 1. unfold gbind at 1. rewrite Ep.
  destruct (Z.to_nat generations) as [|g] eqn:G; [lia|]. simpl evolve.
  destruct (map_result_total (fitness returns risks sentiments) pop) as (scores & Es).
  { intros c Hc. apply fitness_total; [exact Hr|].
    rewrite Forall_forall in F. apply F, Hc. }
  unfold generation. unfold gbind at 1. unfold gbind at 1. rewrite Es.
  unfold glift. unfold gbind at 1. rewrite He.
  destruct (Z.to_nat (population_size - 1)) as [|k] eqn:K; [lia|].
  simpl make_children. unfold gbind at 1.
  rewrite make_child_one_elite; [reflexivity|].
  destruct (select_elites_spec pop scores 1 (map_result_length _ _ _ Es)) as [Le _].
  rewrite Le. lia.
Qed.

(** *** Runs that get through *)

Lemma randint_total (a b : Z) (s : nat) :
  (a <= b)%Z -> exists x, randint a b s = Return (x, S s).
Proof.
  intro H. unfold randint. destruct (b <? a)%Z eqn:E; [lia|].
  eexists. reflexivity.
Qed.

Lemma sample2_total {A : Type} (d : A) (l : list A) (s : nat) :
  (2 <= List.length l)%nat -> exists p s', sample2 d l s = Return (p, s').
Proof.
  intro H. unfold sample2.
  destruct (Z.of_nat (List.length l) <? 2)%Z eqn:E; [lia|].
  destruct (randint_total 0 (Z.of_nat (List.length l) - 1) s) as (i & Ei); [lia|].
  destruct (randint_total 0 (Z.of_nat (List.length l) - 2) (S s)) as (j & Ej); [lia|].
  rewrite (gbind_step _ _ _ _ _ Ei), (gbind_step _ _ _ _ _ Ej).
  eexists. eexists. reflexivity.
Qed.

Lemma make_child_total (n : Z) (elites : list (list Q)) (mr : Q) (s : nat) :
  (2 <= n)%Z -> (2 <= List.length elites)%nat ->
  exists child s', make_child n elites mr s = Return (child, s').
Proof.
  intros Hn He. unfold make_child.
  destruct (sample2_total [] elites s He) as ([p1 p2] & s1 & E1).
  rewrite (gbind_step _ _ _ _ _ E1).
  destruct (randint_total 1 (n - 1) s1) as (cut & E2); [lia|].
  rewrite (gbind_step _ _ _ _ _ E2).
  unfold gbind at 1. unfold random_unit at 1.
  destruct (Qlt_bool _ mr).
  - destruct (randint_total 0 (n - 1) (S (S s1))) as (idx & E3); [lia|].
    unfold gbind at 1. rewrite (gbind_step _ _ _ _ _ E3).
    unfold gbind at 1. unfold normal at 1. unfold gret.
    eexists. eexists. reflexivity.
  - unfold gbind, gret. eexists. eexists. reflexivity.
Qed.

Lemma make_children_total (todo : nat) (n : Z) (elites : list (list Q)) (mr : Q) :
  todo = 0%nat \/ ((2 <= n)%Z /\ (2 <= List.length elites)%nat) ->
  forall s, exists children s', make_children todo n elites mr s = Return (children, s').
Proof.
  intro H. induction todo as [|k IH]; intro s; simpl.
  - exists [], s. reflexivity.
  - destruct H as [H | [Hn He]]; [discriminate|].
    destruct (make_child_total n elites mr s Hn He) as (c & s1 & E1).
    rewrite (gbind_step _ _ _ _ _ E1).
    destruct (IH (or_intror (conj Hn He)) s1) as (cs & s2 & E2).
    rewrite (gbind_step _ _ _ _ _ E2).
    eexists. eexists. reflexivity.
Qed.

Lemma generation_total (returns risks sentiments : list (string * Q))
    (population_size : Z) (elite_frac mutation_rate : Q)
    (population : list (list Q)) (s : nat) :
  runnable returns risks population_size elite_frac ->
  shaped (Z.to_nat population_size) (List.length returns) population ->
  exists pop' s',
    generation returns risks sentiments population_size elite_frac mutation_rate
      population s = Return (pop', s').
Proof.
  intros (Hn & Hr & Hp & He) [L F]. unfold generation.
  destruct (map_result_total (fitness returns risks sentiments) population)
    as (scores & Es).
  { intros c Hc. apply fitness_total; [exact Hr|].
    rewrite Forall_forall in F. apply F, Hc. }
  unfold gbind at 1. rewrite Es. unfold glift.
  destruct (select_elites_spec population scores
              (elite_count elite_frac population_size)
              (map_result_length _ _ _ Es)) as [Le _].
  destruct (make_children_total
              (Z.to_nat (population_size - elite_count elite_frac population_size))
              (Z.of_nat (List.length returns))
              (select_elites population scores (elite_count elite_frac population_size))
              mutation_rate) with (s := s) as (cs & s1 & Ec).
  { destruct He as [He | He]; [left; lia|].
    destruct (Z_le_gt_dec population_size (elite_count elite_frac population_size));
      [left; lia|].
    right. split; [lia|]. rewrite Le, L. lia. }
  rewrite (gbind_step _ _ _ _ _ Ec). eexists. eexists. reflexivity.
Qed.

Lemma evolve_total (generations : nat) (returns risks sentiments : list (string * Q))
    (population_size : Z) (elite_frac mutation_rate : Q) :
  runnable returns risks population_size elite_frac ->
  forall (population : list (list Q)) (s : nat),
    shaped (Z.to_nat population_size) (List.length returns) population ->
    exists pop' s',
      evolve generations returns risks sentiments population_size elite_frac
        mutation_rate population s = Return (pop', s').
Proof.
  intro R. induction generations as [|g IH]; intros population s Sh; simpl.
  - exists population, s. reflexivity.
  - destruct (generation_total returns risks sentiments population_size elite_frac
                mutation_rate population s R Sh) as (p1 & s1 & E1).
    rewrite (gbind_step _ _ _ _ _ E1).
    apply IH. eapply generation_shape; eassumption.
Qed.

(** X7.  With two tickers or more, a risk for every ticker, a population of at
    least one candidate, and an elite count that is at least 2 or leaves no
    child to make, [evolutionary_optimize] returns an allocation: no step
    raises, whatever the random draws and the number of generations. *)
Theorem runnable_returns (returns risks sentiments : list (string * Q))
    (population_size generations : Z) (elite_frac mutation_rate : Q) (s : nat)
    (R : runnable returns risks population_size elite_frac) :
  exists allocation best s',
    evolutionary_optimize returns risks sentiments population_size generations
      elite_frac mutation_rate s = Return ((allocation, best), s').
Proof.
  unfold evolutionary_optimize, final_population.
  destruct (initial_population_total (Z.to_nat population_size)
              (List.length returns) s) as (pop & s1 & Ep).
  pose proof (initial_population_shape _ _ _ _ _ Ep) as Sh.
  destruct (evolve_total (Z.to_nat generations) returns risks sentiments
              population_size elite_frac mutation_rate R pop s1 Sh)
    as (pop' & s2 & Ee).
  pose proof (evolve_shape _ _ _ _ _ _ _ _ _ _ _ Sh Ee) as [L F].
  unfold gbind at 1. unfold gbind at 1. rewrite Ep, Ee.
  destruct R as (_ & Hr & Hp & _).
  destruct (map_result_total (fitness returns risks sentiments) pop')
    as (scores & Es).
  { intros c Hc. apply fitness_total; [exact Hr|].
    rewrite Forall_forall in F. apply F, Hc. }
  unfold gbind at 1. rewrite Es. unfold glift at 1.
  pose proof (map_result_length _ _ _ Es) as Ls.
  destruct scores as [|x r]; [simpl in Ls; lia|].
  unfold gbind, glift, argmax, gret.
  destruct (argmax_from 1 0 x r) as [j m].
  eexists. eexists. eexists. reflexivity.
Qed.

End Edges.


Lemma empty_population_raises_witness :
  evolutionary_optimize (random := Samples.counting_random)
    Samples.two_returns Samples.two_risks Samples.two_sentiments
    0%Z 100%Z (1 # 5) (1 # 10) 0%nat
  = Raise ValueError.
Proof.
  apply (empty_population_raises (random := Samples.counting_random)). lia.
Defined.

Lemma single_elite_raises_witness :
  evolutionary_optimize (random := Samples.counting_random)
    Samples.two_returns Samples.two_risks Samples.two_sentiments
    9%Z 100%Z (1 # 5) (1 # 10) 0%nat
  = Raise ValueError.
Proof.
  apply (single_elite_raises (random := Samples.counting_random)).
  - intros t [<- | [<- | []]]; eexists; reflexivity.
  - lia.
  - reflexivity.
  - lia.
Defined.

Lemma runnable_returns_witness :
  exists allocation best s',
    evolutionary_optimize (random := Samples.counting_random)
      Samples.two_returns Samples.two_risks Samples.two_sentiments
      50%Z 100%Z (1 # 5) (1 # 10) 0%nat = Return ((allocation, best), s').
Proof.
  apply (runnable_returns (random := Samples.counting_random)).
  repeat split.
  - simpl. lia.
  - intros t [<- | [<- | []]]; eexists; reflexivity.
  - lia.
  - right. vm_compute. discriminate.
Defined.

End AllocatorEdges.

Module AllocatorRounding.
Import World Allocator AllocatorFacts AllocatorShape AllocatorElite AllocatorRuns.

Lemma round3_spec (w : Q) :
  exists k : Z,
    round3 w = inject_Z k / 1000
    /\ inject_Z k - (1 # 2) <= w * 1000
    /\ w * 1000 <= inject_Z k + (1 # 2).
Proof.
  unfold round3.
  generalize (Qfloor_le (w * 1000)), (Qlt_floor (w * 1000)).
  generalize (w * 1000). intros x Hlo Hhi.
  rewrite inject_Z_plus in Hhi. change (inject_Z 1) with 1 in Hhi.
  assert (P1 : inject_Z (Qfloor x + 1) == inject_Z (Qfloor x) + 1)
    by (rewrite inject_Z_plus; reflexivity).
  destruct (Qlt_bool (1 # 2) (x - inject_Z (Qfloor x))) eqn:E1.
  - apply Qlt_bool_iff in E1.
    exists (Qfloor x + 1)%Z. split; [reflexivity|].
    rewrite P1. split; lra.
  - apply Qlt_bool_false_iff in E1.
    destruct (Qlt_bool (x - inject_Z (Qfloor x)) (1 # 2)) eqn:E2.
    + exists (Qfloor x). split; [reflexivity|]. split; lra.
    + apply Qlt_bool_false_iff in E2.
      destruct (Z.odd (Qfloor x)).
      * exists (Qfloor x + 1)%Z. split; [reflexivity|].
        rewrite P1. split; lra.
      * exists (Qfloor x). split; [reflexivity|]. split; lra.
Qed.

(** X8.  [round(w, 3)] as the allocation applies it: the result is a whole
    number of thousandths and differs from [w] by at most half a
    thousandth. *)
Theorem round3_error (w : Q) :
  (exists k : Z, round3 w == inject_Z k / 1000)
  /\ Qabs (round3 w - w) <= 1 # 2000.
Proof.
  destruct (round3_spec w) as (k & E & Hlo & Hhi).
  split; [exists k; rewrite E; reflexivity|].
  rewrite E. apply Qabs_Qle_condition.
  assert (D : inject_Z k / 1000 == inject_Z k * (1 # 1000)) by (unfold Qdiv; reflexivity).
  rewrite D. split; lra.
Qed.

Lemma round3_unit (w : Q) : 0 <= w -> w <= 1 -> 0 <= round3 w /\ round3 w <= 1.
Proof.
  intros H0 H1.
  destruct (round3_spec w) as (k & E & Hlo & Hhi).
  rewrite E.
  assert (K0 : (0 <= k)%Z).
  { apply Z.lt_succ_r. rewrite Zlt_Qlt. rewrite <- Z.add_1_r, inject_Z_plus.
    change (inject_Z 1) with 1. change (inject_Z 0) with 0. lra. }
  assert (K1 : (k <= 1000)%Z).
  { apply Z.lt_succ_r. rewrite Zlt_Qlt. rewrite <- Z.add_1_r, inject_Z_plus.
    change (inject_Z 1) with 1. change (inject_Z 1000) with 1000. lra. }
  rewrite Zle_Qle in K0, K1.
  change (inject_Z 0) with 0 in K0. change (inject_Z 1000) with 1000 in K1.
  assert (D : inject_Z k / 1000 == inject_Z k * (1 # 1000)) by (unfold Qdiv; reflexivity).
  rewrite D. split; lra.
Qed.

Lemma entry_le_sum (l : list Q) (x : Q) :
  Forall (fun y => 0 <= y) l -> In x l -> x <= Qsum l.
Proof.
  induction 1 as [|y l Hy F IH]; intro Hin; [destruct Hin|].
  rewrite Qsum_cons. pose proof (Qsum_nonneg l F) as Hs.
  destruct Hin as [<- | Hin]; [lra|].
  specialize (IH Hin). lra.
Qed.

Section Weights.
Context {random : Random}.

(** X9.  Every weight of the allocation [evolutionary_optimize] returns lies
    between 0 and 1 and is a whole number of thousandths. *)
Theorem allocation_weights (returns risks sentiments : list (string * Q))
    (population_size generations : Z) (elite_frac mutation_rate : Q)
    (s s' : nat) (allocation : list (string * Q)) (best : Q)
    (H : evolutionary_optimize returns risks sentiments population_size
           generations elite_frac mutation_rate s
         = Return ((allocation, best), s')) :
  Forall (fun p => 0 <= snd p /\ snd p <= 1
                   /\ exists k : Z, snd p == inject_Z k / 1000) allocation.
Proof.
  unfold evolutionary_optimize in H.
  unbind H. rename a into pop. rename H0 into Hp.
  unbind H. rename a into scores. apply glift_Return in H0. destruct H0 as [Hs ->].
  unbind H. rename a into top. apply glift_Return in H0. destruct H0 as [Ha ->].
  unfold gret in H. injection H as <- _ _.
  assert (N : Forall normalized pop).
  { unfold final_population in Hp. unbind Hp.
    eapply evolve_normalized; [|exact Hp].
    eapply initial_population_normalized. exact H. }
  assert (Nc : normalized (nth (fst top) pop [])) by (apply nth_normalized, N).
  destruct Nc as (w & ->).
  apply Forall_forall. intros [t x] Hin. simpl.
  apply in_combine_r in Hin. apply in_map_iff in Hin.
  destruct Hin as (y & <- & Hy).
  pose proof (normalize_nonneg w) as Hn.
  assert (Y0 : 0 <= y) by (rewrite Forall_forall in Hn; apply Hn, Hy).
  assert (Y1 : y <= 1).
  { pose proof (entry_le_sum _ _ Hn Hy). pose proof (normalize_sum_below_one w). lra. }
  destruct (round3_unit y Y0 Y1) as [R0 R1].
  split; [exact R0|]. split; [exact R1|].
  destruct (round3_spec y) as (k & E & _). exists k. rewrite E. reflexivity.
Qed.

End Weights.

Lemma allocation_weights_witness :
  exists allocation best s',
    evolutionary_optimize (random := Samples.counting_random) Samples.two_returns
      Samples.two_risks Samples.two_sentiments 4%Z 2%Z (1 # 2) (1 # 10) 0%nat
    = Return ((allocation, best), s')
    /\ Forall (fun p => 0 <= snd p /\ snd p <= 1
                        /\ exists k : Z, snd p == inject_Z k / 1000) allocation.
Proof.
  destruct (evolutionary_optimize (random := Samples.counting_random)
              Samples.two_returns Samples.two_risks Samples.two_sentiments
              4%Z 2%Z (1 # 2) (1 # 10) 0%nat) as [[[allocation best] s']|e] eqn:E;
    [|vm_compute in E; discriminate E].
  exists allocation, best, s'. split; [reflexivity|].
  exact (allocation_weights (random := Samples.counting_random) _ _ _ _ _ _ _ _ _ _ _ E).
Defined.

End AllocatorRounding.

(** ** More on the tiering engine *)

Module TieringMore.
Import Frames World PriceData Tiering TieringFacts App.

Lemma categorize_esg_range (s : pyfloat) :
  In (categorize_esg s) ["Low"; "Medium"; "High"].
Proof.
  unfold categorize_esg.
  destruct (flt s (Num 20)); [simpl; tauto|].
  destruct (flt s (Num 30)); simpl; tauto.
Qed.

Lemma categorize_risk_range (v : pyfloat) (th : thresholds_t) :
  In (categorize_risk v th) ["Low"; "Medium"; "High"].
Proof.
  unfold categorize_risk.
  destruct (fle v (low th)); [simpl; tauto|].
  destruct (fle v (high th)); simpl; tauto.
Qed.

Lemma decide_tier_range (esg_cat risk_cat sentiment esg_pref risk_pref : string)
    (industry_label : option string) (industry : string) :
  In (decide_tier esg_cat risk_cat sentiment esg_pref risk_pref industry_label industry)
     ["Green"; "Yellow"; "Red"].
Proof.
  rewrite decide_tier_precedence. unfold Spec.tier_by_precedence.
  destruct (_ && _); [simpl; tauto|].
  destruct (_ && _); simpl; tauto.
Qed.

(** A recommendation as the loop builds it. *)
Lemma recommend_In (esg_df : list esg_row) (vol : list (string * pyfloat))
    (th : thresholds_t) (sentiment_scores : list (string * string))
    (esg_pref risk_pref : string) (industry_label : option string)
    (r : recommendation) :
  In r (recommend esg_df vol th sentiment_scores esg_pref risk_pref industry_label) ->
  exists row,
    In row esg_df
    /\ isnan (row_ESG_Score row) = false
    /\ dict_mem (row_Ticker row) vol = true
    /\ Ticker r = row_Ticker row
    /\ ESG_Score r = row_ESG_Score row
    /\ ESG_Category r = categorize_esg (row_ESG_Score row)
    /\ Risk_Category r = categorize_risk (Volatility r) th
    /\ Sentiment r = dict_get sentiment_scores (row_Ticker row) "neutral"
    /\ Tier r = decide_tier (ESG_Category r) (Risk_Category r) (Sentiment r)
                  esg_pref risk_pref industry_label (row_Industry row).
Proof.
  induction esg_df as [|row rest IH]; simpl; [tauto|].
  destruct (isnan (row_ESG_Score row)) eqn:En; simpl.
  - intro H. destruct (IH H) as (row' & Hin & Hr). exists row'. split; [right|]; assumption.
  - destruct (dict_mem (row_Ticker row) vol) eqn:Em; simpl.
    + intros [<- | H].
      * exists row. simpl. repeat split; try assumption; try reflexivity. left. reflexivity.
      * destruct (IH H) as (row' & Hin & Hr). exists row'. split; [right|]; assumption.
    + intro H. destruct (IH H) as (row' & Hin & Hr). exists row'. split; [right|]; assumption.
Qed.

Lemma recommend_tiers (esg_df : list esg_row) (vol : list (string * pyfloat))
    (th : thresholds_t) (sentiment_scores : list (string * string))
    (esg_pref risk_pref : string) (industry_label : option string) :
  Forall (fun r => In (Tier r) ["Green"; "Yellow"; "Red"])
    (recommend esg_df vol th sentiment_scores esg_pref risk_pref industry_label).
Proof.
  apply Forall_forall. intros r Hr.
  destruct (recommend_In _ _ _ _ _ _ _ _ Hr)
    as (row & _ & _ & _ & _ & _ & _ & _ & _ & ->).
  apply decide_tier_range.
Qed.

(** X10.  Every recommendation carries an ESG category and a risk category
    among Low, Medium and High and a tier among Green, Yellow and Red, and its
    ticker is a ticker of the ESG table with a numeric score and a
    volatility. *)
Theorem recommendation_ranges (esg_df : list esg_row) (vol : list (string * pyfloat))
    (th : thresholds_t) (sentiment_scores : list (string * string))
    (esg_pref risk_pref : string) (industry_label : option string) :
  Forall (fun r =>
            In (ESG_Category r) ["Low"; "Medium"; "High"]
            /\ In (Risk_Category r) ["Low"; "Medium"; "High"]
            /\ In (Tier r) ["Green"; "Yellow"; "Red"]
            /\ In (Ticker r) (map row_Ticker esg_df)
            /\ isnan (ESG_Score r) = false
            /\ In (Ticker r) (map fst vol))
    (recommend esg_df vol th sentiment_scores esg_pref risk_pref industry_label).
Proof.
  apply Forall_forall. intros r Hr.
  destruct (recommend_In _ _ _ _ _ _ _ _ Hr)
    as (row & Hin & Hn & Hm & Et & Es & Ec & Er & _ & Etier).
  rewrite Ec, Er, Etier, Et, Es.
  split; [apply categorize_esg_range|].
  split; [apply categorize_risk_range|].
  split; [apply decide_tier_range|].
  split; [apply in_map; exact Hin|].
  split; [exact Hn | apply dict_mem_In; exact Hm].
Qed.

(** X11.  The preferences are compared as they are spelled: with an ESG
    preference (or a risk preference) that is not exactly "Low", "Medium" or
    "High", as "low" is, no ticker is Green. *)
Theorem unknown_preference_never_green (esg_df : list esg_row)
    (vol : list (string * pyfloat)) (th : thresholds_t)
    (sentiment_scores : list (string * string))
    (esg_pref risk_pref : string) (industry_label : option string)
    (H : ~ In esg_pref ["Low"; "Medium"; "High"]
         \/ ~ In risk_pref ["Low"; "Medium"; "High"]) :
  Forall (fun r => Tier r <> "Green")
    (recommend esg_df vol th sentiment_scores esg_pref risk_pref industry_label).
Proof.
  apply Forall_forall. intros r Hr.
  destruct (recommend_In _ _ _ _ _ _ _ _ Hr)
    as (row & _ & _ & _ & _ & _ & Ec & Er & _ & Etier).
  rewrite Etier, decide_tier_precedence. unfold Spec.tier_by_precedence.
  destruct (String.eqb (ESG_Category r) esg_pref) eqn:E1;
    destruct (String.eqb (Risk_Category r) risk_pref) eqn:E2; simpl;
    try (destruct (negb _); discriminate); try discriminate.
  apply String.eqb_eq in E1. apply String.eqb_eq in E2. exfalso.
  destruct H as [H | H]; apply H.
  - rewrite <- E1, Ec. apply categorize_esg_range.
  - rewrite <- E2, Er. apply categorize_risk_range.
Qed.

Lemma unknown_preference_never_green_witness :
  Forall (fun r => Tier r <> "Green")
    (recommend [mkEsgRow "AAA" (Num 15) "Banks"] [("AAA", Num 0.1)]
       (mkThresholds (Num 0.2) (Num 0.4)) [] "low" "Low" None).
Proof.
  apply unknown_preference_never_green.
  left. simpl. intros [E | [E | [E | []]]]; discriminate E.
Defined.

(** X12.  Both categorisers are monotone: a higher ESG score never falls into
    a lower band, and a higher volatility never falls into a lower risk band,
    whatever the two thresholds. *)
Theorem categorisers_monotone (s1 s2 v1 v2 lo hi : Q)
    (Hs : s1 <= s2) (Hv : v1 <= v2) :
  (categorize_esg (Num s2) = "Low" -> categorize_esg (Num s1) = "Low")
  /\ (categorize_esg (Num s1) = "High" -> categorize_esg (Num s2) = "High")
  /\ (categorize_risk (Num v2) (mkThresholds (Num lo) (Num hi)) = "Low" ->
      categorize_risk (Num v1) (mkThresholds (Num lo) (Num hi)) = "Low")
  /\ (categorize_risk (Num v1) (mkThresholds (Num lo) (Num hi)) = "High" ->
      categorize_risk (Num v2) (mkThresholds (Num lo) (Num hi)) = "High").
Proof.
  destruct (categorize_esg_cases (Num s1)) as (A1 & _ & A3).
  destruct (categorize_esg_cases (Num s2)) as (B1 & _ & B3).
  destruct (categorize_risk_cases (Num v1) (mkThresholds (Num lo) (Num hi)))
    as (C1 & _ & C3).
  destruct (categorize_risk_cases (Num v2) (mkThresholds (Num lo) (Num hi)))
    as (D1 & _ & D3).
  simpl in *.
  rewrite A1, A3, B1, B3, C1, C3, D1, D3.
  rewrite !Qlt_bool_iff, !Qlt_bool_false_iff, !Qle_bool_iff, !Qle_bool_false_iff.
  repeat split; intros; lra.
Qed.

Lemma categorisers_monotone_witness :
  (categorize_esg (Num 25) = "Low" -> categorize_esg (Num 15) = "Low")
  /\ (categorize_esg (Num 15) = "High" -> categorize_esg (Num 25) = "High")
  /\ (categorize_risk (Num 0.5) (mkThresholds (Num 0.2) (Num 0.4)) = "Low" ->
      categorize_risk (Num 0.1) (mkThresholds (Num 0.2) (Num 0.4)) = "Low")
  /\ (categorize_risk (Num 0.1) (mkThresholds (Num 0.2) (Num 0.4)) = "High" ->
      categorize_risk (Num 0.5) (mkThresholds (Num 0.2) (Num 0.4)) = "High").
Proof.
  apply (categorisers_monotone 15 25 0.1 0.5 0.2 0.4); vm_compute; discriminate.
Defined.

Lemma tier_precedence_length (esg_df : list esg_row) (vol : list (string * pyfloat))
    (th : thresholds_t) (sentiment_scores : list (string * string))
    (esg_pref risk_pref : string) (industry_label : option string) :
  map Ticker (recommend esg_df vol th sentiment_scores esg_pref risk_pref
                industry_label)
  = map row_Ticker (filter (eligible vol) esg_df).
Proof.
  induction esg_df as [|row rest IH]; [reflexivity|].
  simpl. unfold eligible at 1.
  destruct (isnan (row_ESG_Score row) || negb (dict_mem (row_Ticker row) vol));
    simpl; [exact IH | f_equal; exact IH].
Qed.

Lemma filter_two_perm {A : Type} (p q : A -> bool) (l : list A) :
  (forall x, In x l -> p x = negb (q x)) ->
  Permutation (filter p l ++ filter q l) l.
Proof.
  induction l as [|x l IH]; intro H; simpl; [constructor|].
  assert (IH' : Permutation (filter p l ++ filter q l) l)
    by (apply IH; intros y Hy; apply H; right; exact Hy).
  rewrite (H x (or_introl eq_refl)). destruct (q x); simpl.
  - rewrite <- Permutation_middle. constructor. exact IH'.
  - constructor. exact IH'.
Qed.

Section WithNumerics.
Context {numerics : Numerics}.

(** X13.  [optimize_portfolio] never returns an empty list: it returns one
    recommendation per ticker with a numeric score and a volatility, and the
    single "No suitable match" record exactly when there is no such
    ticker. *)
Theorem optimize_never_empty (prices : Matrix) (esg_df : list esg_row)
    (sentiment_scores : list (string * string)) (esg_pref risk_pref : string)
    (industry_label : option string) :
  let out := optimize_from_prices prices esg_df sentiment_scores esg_pref
               risk_pref industry_label in
  out <> []
  /\ List.length out
     = Nat.max 1 (List.length (filter (eligible (volatility prices)) esg_df))
  /\ (out = [TickerOnly "No suitable match"]
      <-> forall row, In row esg_df -> eligible (volatility prices) row = false).
Proof.
  unfold optimize_from_prices.
  pose proof (recommend_nil_iff esg_df (volatility prices)
                (thresholds_of (volatility prices)) sentiment_scores esg_pref
                risk_pref industry_label) as Hnil.
  pose proof (f_equal (@List.length _)
                (tier_precedence_length esg_df (volatility prices)
                   (thresholds_of (volatility prices)) sentiment_scores esg_pref
                   risk_pref industry_label)) as Hlen.
  destruct (recommend esg_df (volatility prices) (thresholds_of (volatility prices))
              sentiment_scores esg_pref risk_pref industry_label) as [|r rs].
  - split; [discriminate|]. split.
    + simpl in Hlen. rewrite length_map in Hlen. rewrite <- Hlen. reflexivity.
    + split; [intros _; apply Hnil; reflexivity | reflexivity].
  - split; [discriminate|]. split.
    + simpl in *. rewrite !length_map in *. rewrite <- Hlen. reflexivity.
    + split; [discriminate|]. intro H. apply Hnil in H. discriminate.
Qed.

(** X14.  What the chat shows of the result of [optimize_portfolio] is never
    empty; it falls back to the "No suitable match" record (step "restart")
    exactly when [optimize_portfolio] returned that record; when a ticker is
    Green only the Green ones are shown, in their order; and when none is,
    every recommendation is shown, the Yellow ones before the Red ones. *)
Theorem chat_shows (prices : Matrix) (esg_df : list esg_row)
    (sentiment_scores : list (string * string)) (esg_pref risk_pref : string)
    (industry_label : option string) :
  let out := optimize_from_prices prices esg_df sentiment_scores esg_pref
               risk_pref industry_label in
  let shown := fst (tier_separation out) in
  let step := snd (tier_separation out) in
  shown <> []
  /\ (step = "restart" <-> out = [TickerOnly "No suitable match"])
  /\ (step = "restart" -> shown = [TickerOnly "No suitable match"])
  /\ (filter (has_tier "Green") out <> [] -> shown = filter (has_tier "Green") out)
  /\ (filter (has_tier "Green") out = [] -> step = "pick_tickers" ->
      Permutation shown out
      /\ shown = (filter (has_tier "Yellow") out ++ filter (has_tier "Red") out)%list).
Proof.
  unfold optimize_from_prices.
  pose proof (recommend_tiers esg_df (volatility prices)
                (thresholds_of (volatility prices)) sentiment_scores esg_pref
                risk_pref industry_label) as R.
  destruct (recommend esg_df (volatility prices) (thresholds_of (volatility prices))
              sentiment_scores esg_pref risk_pref industry_label) as [|r rs].
  - simpl. repeat split; try discriminate; try reflexivity.
    intro H. exfalso. apply H. reflexivity.
  - set (out := map Full (r :: rs)).
    assert (T : forall x, In x out ->
              has_tier "Green" x = false ->
              has_tier "Yellow" x = negb (has_tier "Red" x)).
    { intros x Hx. unfold out in Hx. apply in_map_iff in Hx.
      destruct Hx as (y & <- & Hy). rewrite Forall_forall in R.
      pose proof (R y Hy) as Ht.
      unfold has_tier. simpl in *.
      destruct Ht as [<- | [<- | [<- | []]]]; simpl; intros; try reflexivity.
      discriminate. }
    cbv zeta. unfold tier_separation.
    destruct (filter (has_tier "Green") out) as [|g gs] eqn:G.
    + assert (P : Permutation (filter (has_tier "Yellow") out
                               ++ filter (has_tier "Red") out) out).
      { apply filter_two_perm. intros x Hx. apply T; [exact Hx|].
        destruct (has_tier "Green" x) eqn:Eg; [|reflexivity].
        assert (In x (filter (has_tier "Green") out))
          by (apply filter_In; split; assumption).
        rewrite G in H. destruct H. }
      destruct (filter (has_tier "Yellow") out ++ filter (has_tier "Red") out)%list
        as [|y ys] eqn:YR.
      * exfalso. apply Permutation_nil in P. discriminate P.
      * simpl. split; [discriminate|]. split; [split; discriminate|].
        split; [discriminate|]. split; [intro H; exfalso; apply H; reflexivity|].
        intros _ _. split; [exact P | reflexivity].
    + simpl. split; [discriminate|]. split; [split; discriminate|].
      split; [discriminate|]. split; [reflexivity|]. discriminate.
Qed.

End WithNumerics.

End TieringMore.

(** ** More on the price fetcher *)

Module PriceDataMore.
Import Frames World PriceData PriceDataFacts.

Section Sources.
Context {pandas : Pandas} {sources : Sources}.

Local Arguments _normalize_df : simpl never.

(** X15.  In cache-first mode the cache is read first.  A cached frame that is
    not empty and has at least [min_rows] rows is served as it is, and no live
    source is called.  Otherwise Yahoo is asked, then Stooq when Yahoo's frame
    is too thin and the fallback is enabled; the live frame replaces the
    cached one when it is not empty, even if it is thinner than [min_rows],
    and the cached frame is kept when the live sources gave nothing. *)
Theorem cache_first_order (t p i : string) (m : Z) (uc al : bool) (w : world) :
  exists c wc,
    (if uc then _load_csv t else ret empty_frame) w = (Return c, wc)
    /\ disk wc = disk w
    /\ exists a wa,
         _download_yf t p i wc = (Return a, wa)
         /\ exists b wb,
              _download_stooq t p wa = (Return b, wb)
              /\ fetch_one t p i false m uc al w
                 = if too_thin c m then
                     if too_thin a m && al then
                       (Return (if empty b then c else b), wb)
                     else
                       (Return (if empty a then c else a), wa)
                   else (Return c, wc).
Proof.
  assert (C : exists c wc,
             (if uc then _load_csv t else ret empty_frame) w = (Return c, wc)
             /\ disk wc = disk w).
  { destruct uc.
    - destruct (load_csv_total t w) as (c & wc & Ec).
      exists c, wc. split; [exact Ec|].
      pose proof (load_csv_keeps t w) as K. rewrite Ec in K. exact K.
    - exists empty_frame, w. split; reflexivity. }
  destruct C as (c & wc & Ec & Kc).
  exists c, wc. split; [exact Ec|]. split; [exact Kc|].
  destruct (download_yf_spec t p i wc) as (a & Ea & _).
  eexists a, _. split; [exact Ea|].
  match type of Ea with _ = (_, ?x) => set (wa := x) in * end.
  destruct (download_stooq_spec t p wa) as (b & Eb & _).
  eexists b, _. split; [exact Eb|].
  unfold fetch_one, bind. rewrite Ec.
  destruct (too_thin c m); [|reflexivity].
  rewrite Ea. destruct (too_thin a m && al).
  - rewrite Eb. destruct (empty b); reflexivity.
  - unfold ret at 1. destruct (empty a); reflexivity.
Qed.

(** X16.  Neither live downloader ever raises or touches the files: when the
    library is not installed it answers the empty frame without any call, and
    when the call raises, or answers something that is not a frame, or an
    empty frame, it answers the empty frame too. *)
Theorem live_downloads_never_raise (t p i : string) (w : world) :
  (exists df,
     _download_yf t p i w
     = (Return df, mkWorld (disk w) ((if HAS_YF then [EvYahoo t] else []) ++ trace w))
     /\ canonical df
     /\ (HAS_YF = false -> df = empty_frame)
     /\ ((forall raw, yf_download (trace w) t p i = Return (Some raw) -> empty raw = true)
         -> df = empty_frame))
  /\ (exists df,
        _download_stooq t p w
        = (Return df, mkWorld (disk w) ((if HAS_PDR then [EvStooq t] else []) ++ trace w))
        /\ canonical df
        /\ (HAS_PDR = false -> df = empty_frame)
        /\ ((forall raw, DataReader (trace w) t = Return (Some raw) -> empty raw = true)
            -> df = empty_frame)).
Proof.
  split.
  - destruct (download_yf_spec t p i w) as (df & E & C).
    exists df. split; [exact E|]. split; [exact C|].
    unfold _download_yf in E. split.
    + intro H. rewrite H in E. simpl in E. inversion E. reflexivity.
    + intro H. destruct HAS_YF; simpl in E; [|inversion E; reflexivity].
      unfold try_except, bind, call_yahoo in E.
      destruct (yf_download (trace w) t p i) as [[raw|]|e];
        try (inversion E; reflexivity).
      rewrite (H raw eq_refl) in E. inversion E. reflexivity.
  - destruct (download_stooq_spec t p w) as (df & E & C).
    exists df. split; [exact E|]. split; [exact C|].
    unfold _download_stooq in E. split.
    + intro H. rewrite H in E. simpl in E. inversion E. reflexivity.
    + intro H. destruct HAS_PDR; simpl in E; [|inversion E; reflexivity].
      unfold try_except, bind, call_stooq in E.
      destruct (DataReader (trace w) t) as [[raw|]|e];
        try (inversion E; reflexivity).
      rewrite (H raw eq_refl) in E. inversion E. reflexivity.
Qed.

(** *** The cache *)

Lemma load_csv_from_missing (d t : string) (w : world) :
  Py.lookup (csv_path d t) (disk w) = None ->
  _load_csv_from d t w
  = (Return empty_frame, mkWorld (disk w) (EvExists (csv_path d t) :: trace w)).
Proof.
  intro H. unfold _load_csv_from, bind, exists_. rewrite H. reflexivity.
Qed.

Lemma load_csv_from_unreadable (d t text : string) (w : world) :
  Py.lookup (csv_path d t) (disk w) = Some text ->
  (forall header, exists e, read_csv text header = Raise e) ->
  fst (_load_csv_from d t w) = Return empty_frame.
Proof.
  intros H Hbad. unfold _load_csv_from, bind, exists_. rewrite H. simpl.
  unfold try_except, bind, read_file. simpl. rewrite H.
  destruct (Hbad false) as (e1 & E1). destruct (Hbad true) as (e2 & E2).
  unfold lift. rewrite E1. simpl. rewrite H. rewrite E2. reflexivity.
Qed.

(** X17.  [_load_csv] tolerates whatever the cache holds: it never raises and
    never writes, and its frame is canonical.  When neither directory has a
    file for the ticker it answers the empty frame after two existence checks
    and no read; files the CSV reader rejects give the empty frame as well. *)
Theorem load_csv_tolerant (t : string) (w : world) :
  (exists df w',
     _load_csv t w = (Return df, w') /\ canonical df /\ disk w' = disk w)
  /\ (Py.lookup (csv_path "data/prices" t) (disk w) = None ->
      Py.lookup (csv_path "data/cache_prices" t) (disk w) = None ->
      _load_csv t w
      = (Return empty_frame,
         mkWorld (disk w)
           (EvExists (csv_path "data/cache_prices" t)
            :: EvExists (csv_path "data/prices" t) :: trace w)))
  /\ ((forall d, In d CACHE_DIRS ->
         match Py.lookup (csv_path d t) (disk w) with
         | None => True
         | Some text => forall header, exists e, read_csv text header = Raise e
         end) ->
      fst (_load_csv t w) = Return empty_frame).
Proof.
  split; [|split].
  - destruct (load_csv_total t w) as (df & w' & E).
    exists df, w'. split; [exact E|]. split.
    + eapply load_csv_canonical. exact E.
    + pose proof (load_csv_keeps t w) as K. rewrite E in K. exact K.
  - intros H1 H2. unfold _load_csv, CACHE_DIRS. simpl load_csv_dirs.
    unfold bind at 1. rewrite (load_csv_from_missing _ _ _ H1). simpl.
    unfold bind at 1. rewrite load_csv_from_missing by exact H2. reflexivity.
  - intro H. unfold _load_csv.
    assert (G : forall dirs w1, disk w1 = disk w ->
              (forall d, In d dirs -> In d CACHE_DIRS) ->
              fst (load_csv_dirs dirs t w1) = Return empty_frame).
    { induction dirs as [|d dirs IH]; intros w1 Hd Hsub; [reflexivity|].
      simpl. unfold bind.
      pose proof (proj1 (load_csv_from_reads [csv_path d t] d t (or_introl eq_refl)) w1)
        as K.
      assert (F : fst (_load_csv_from d t w1) = Return empty_frame).
      { specialize (H d (Hsub d (or_introl eq_refl))). rewrite <- Hd in H.
        destruct (Py.lookup (csv_path d t) (disk w1)) as [text|] eqn:L.
        - eapply load_csv_from_unreadable; eassumption.
        - rewrite load_csv_from_missing by exact L. reflexivity. }
      destruct (_load_csv_from d t w1) as [r w2]. simpl in F, K. subst r. simpl.
      apply IH; [congruence | intros d' Hd'; apply Hsub; right; exact Hd']. }
    apply G; [reflexivity | tauto].
Qed.

(** *** What [get_price_history] writes *)




End Sources.

(** *** More on the normaliser *)

Lemma rows_of_self (rs : list row) :
  rows_of (map label rs) (map Date rs) (map Adj_Close rs) = rs.
Proof.
  unfold rows_of. induction rs as [|[l d p] rs IH]; simpl; [reflexivity|].
  f_equal. exact IH.
Qed.

Lemma filter_all {A : Type} (f : A -> bool) (l : list A) :
  Forall (fun x => f x = true) l -> filter f l = l.
Proof.
  induction 1 as [|x l Hx _ IH]; simpl; [reflexivity|].
  rewrite Hx, IH. reflexivity.
Qed.

(** With pairwise distinct keys there is one ascending arrangement. *)
Lemma sorted_perm_unique {A : Type} (key : A -> Z) (l : list A) :
  NoDup (map key l) ->
  StronglySorted (key_le key) l ->
  forall l', StronglySorted (key_le key) l' -> Permutation l l' -> l = l'.
Proof.
  induction l as [|a l IH]; intros N S l' S' P.
  - apply Permutation_nil in P. subst. reflexivity.
  - destruct l' as [|b l'];
      [apply Permutation_sym, Permutation_nil in P; discriminate P|].
    inversion N as [|? ? Na N']; subst.
    inversion S as [|? ? Sl Fa]; subst.
    inversion S' as [|? ? Sl' Fb]; subst.
    assert (E : a = b).
    { assert (Ha : In a (b :: l')) by (apply (Permutation_in _ P); left; reflexivity).
      destruct Ha as [<- | Ha]; [reflexivity|].
      assert (Hb : In b (a :: l))
        by (apply (Permutation_in _ (Permutation_sym P)); left; reflexivity).
      destruct Hb as [-> | Hb]; [reflexivity|].
      rewrite Forall_forall in Fa, Fb.
      pose proof (Fa b Hb) as L1. pose proof (Fb a Ha) as L2.
      unfold key_le in L1, L2.
      exfalso. apply Na. replace (key a) with (key b) by lia.
      apply in_map, Hb. }
    subst b. f_equal. apply IH; try assumption.
    apply Permutation_cons_inv with (a := a). exact P.
Qed.

Lemma find_all_false {A : Type} (f : A -> bool) (l : list A) :
  (forall x, In x l -> f x = false) -> find f l = None.
Proof.
  induction l as [|x l IH]; intro H; simpl; [reflexivity|].
  rewrite (H x (or_introl eq_refl)). apply IH. intros y Hy. apply H. right. exact Hy.
Qed.

Lemma mem_In (x : string) (l : list string) : Py.mem x l = true <-> In x l.
Proof.
  unfold Py.mem. rewrite existsb_exists. split.
  - intros (y & Hy & E). apply String.eqb_eq in E. subst. exact Hy.
  - intro H. exists x. split; [exact H | apply String.eqb_refl].
Qed.

Lemma names_flatten (df : DataFrame) :
  names (if is_multi df then flatten df else df) = names df.
Proof.
  unfold is_multi, flatten, names.
  destruct (columns df) as [l|l] eqn:E; simpl; [rewrite E; reflexivity|].
  rewrite map_map. reflexivity.
Qed.

Lemma names_rename (df : DataFrame) (old new : string) :
  flat df ->
  names (rename df old new)
  = map (fun n => if String.eqb n old then new else n) (names df).
Proof.
  unfold flat, is_multi, names, rename. simpl.
  destruct (columns df) as [l|l]; [|discriminate].
  intros _. rewrite !map_map. reflexivity.
Qed.

Section Normaliser.
Context {pandas : Pandas}.

Local Arguments _normalize_df : simpl never.

Lemma normalize_canonical_form (iname : option string) (rs : list row) :
  empty (frame_of_rows iname rs) = false ->
  _normalize_df (Some (frame_of_rows iname rs))
  = Return (frame_of_rows iname
              (sort_values
                 (dropna
                    (rows_of (map label rs)
                       (map cell_of_time (_to_datetime_robust (map Date rs)))
                       (map CNum (to_numeric (map Adj_Close rs))))))).
Proof.
  intro H. unfold _normalize_df. rewrite H. reflexivity.
Qed.

(** X19.  Normalising is idempotent on a frame whose dates are pairwise
    distinct, with kernels that leave typed values alone (a float stays the
    float it is, a timestamp the timestamp it is): the frame [_normalize_df]
    returns is returned unchanged when it is normalised again, as [_save_csv]
    does before writing; an output without rows comes back as
    [pd.DataFrame()].  (Rows of one and the same date may change places when
    pandas sorts them again; with distinct dates the ascending order is the
    only one.) *)
Theorem normalize_df_idempotent (df : option DataFrame) (out : DataFrame)
    (Hnum : forall xs, to_numeric (map CNum xs) = xs)
    (Hiso : forall ts, to_datetime_format (map CTime ts) = map Some ts)
    (H : _normalize_df df = Return out)
    (Hdistinct : NoDup (column out "Date")) :
  _normalize_df (Some out) = Return (if empty out then empty_frame else out).
Proof.
  apply normalize_df_canonical in H. destruct H as [|iname rs T S].
  - reflexivity.
  - change (column (frame_of_rows iname rs) "Date") with (map Date rs) in Hdistinct.
    destruct (empty (frame_of_rows iname rs)) eqn:Em.
    + unfold _normalize_df. rewrite Em. reflexivity.
    + rewrite normalize_canonical_form by exact Em.
      assert (ED : map Date rs = map CTime (map (fun r => time_key (Date r)) rs)).
      { rewrite map_map. apply map_ext_in. intros r Hr.
        rewrite Forall_forall in T. destruct (T r Hr) as (t & x & -> & _). reflexivity. }
      assert (EP : map Adj_Close rs
                   = map CNum (map (fun r => match Adj_Close r with
                                             | CNum x => x | _ => NaN end) rs)).
      { rewrite map_map. apply map_ext_in. intros r Hr.
        rewrite Forall_forall in T. destruct (T r Hr) as (t & x & _ & -> & _). reflexivity. }
      assert (R : _to_datetime_robust (map Date rs)
                  = map Some (map (fun r => time_key (Date r)) rs)).
      { unfold _to_datetime_robust. rewrite ED, Hiso.
        replace (existsb _ (map Some _)) with false; [reflexivity|].
        symmetry. generalize (map (fun r => time_key (Date r)) rs).
        intro l. induction l; simpl; [reflexivity | assumption]. }
      rewrite R, EP, Hnum. rewrite (map_map Some cell_of_time).
      change (map (fun x => cell_of_time (Some x))) with (map CTime).
      rewrite <- ED, <- EP, rows_of_self.
      unfold dropna. rewrite filter_all.
      * (* any ascending arrangement of [rs] is [rs] itself *)
        f_equal. f_equal. symmetry.
        apply (sorted_perm_unique (fun r => time_key (Date r))).
        -- rewrite ED in Hdistinct. apply NoDup_map_inv in Hdistinct.
           exact Hdistinct.
        -- exact S.
        -- apply sort_by_sorted.
        -- apply Permutation_sym, sort_by_perm.
      * eapply Forall_impl; [|exact T]. intros r (t & x & -> & -> & N).
        simpl. rewrite N. reflexivity.
Qed.

(** X20.  A frame without a price-like column is no error: when a date column
    can be resolved and none of the accepted price names is a column,
    [_normalize_df] answers [pd.DataFrame()].  The labels of a [MultiIndex]
    are compared after joining, so a column [("Adj Close", "AAPL")], which
    joins to ["Adj Close AAPL"], is not a price column. *)
Theorem no_price_column_empty (df : DataFrame) (c : string)
    (Hd : Py.first_in date_names (names df) = Some c)
    (Hp : forall n, In n price_names -> ~ In n (names df)) :
  _normalize_df (Some df) = Return empty_frame.
Proof.
  unfold _normalize_df. destruct (empty df); [reflexivity|].
  pose proof (flatten_flat df) as F. pose proof (names_flatten df) as N.
  set (df0 := if is_multi df then flatten df else df) in *.
  rewrite N, Hd.
  assert (G : forall out, flat out ->
            names out = names df0
            \/ names out = map (fun n => if String.eqb n c then "Date" else n) (names df0) ->
            Py.first_in price_names (names out) = None).
  { intros out _ Hn. unfold Py.first_in. apply find_all_false.
    intros n Hin. destruct (Py.mem n (names out)) eqn:E; [|reflexivity].
    exfalso. apply mem_In in E. destruct Hn as [Hn | Hn]; rewrite Hn in E.
    - rewrite N in E. exact (Hp n Hin E).
    - rewrite N in E. apply in_map_iff in E. destruct E as (x & Ex & Hx).
      destruct (String.eqb x c).
      + subst n. simpl in Hin.
        repeat (destruct Hin as [Hin | Hin]; [discriminate Hin|]). exact Hin.
      + subst n. exact (Hp x Hin Hx). }
  destruct (negb (String.eqb c "Date")); cbn [rbind].
  - rewrite (G (rename df0 c "Date")); [reflexivity | apply rename_flat, F |].
    right. apply names_rename, F.
  - rewrite (G df0); [reflexivity | exact F | left; reflexivity].
Qed.

Lemma lookup_None_iff {A : Type} (k : string) (l : list (string * A)) :
  Py.lookup k l = None <-> ~ In k (map fst l).
Proof.
  induction l as [|[k' v] l IH]; simpl; [tauto|].
  destruct (String.eqb k k') eqn:E.
  - apply String.eqb_eq in E. subst. split; [discriminate | tauto].
  - apply String.eqb_neq in E. rewrite IH. split; [|tauto].
    intros H [H1 | H1]; [congruence | tauto].
Qed.

Lemma rename_absent (l : list (string * list cell)) (old new : string) :
  ~ In old (map fst l) ->
  map (fun p => ((if String.eqb (fst p) old then new else fst p), snd p)) l = l.
Proof.
  induction l as [|[k v] l IH]; simpl; intro H; [reflexivity|].
  destruct (String.eqb k old) eqn:E.
  - apply String.eqb_eq in E. subst. tauto.
  - rewrite IH by tauto. reflexivity.
Qed.

(** X21.  [_normalize_df] is not total.  A frame with plain columns, a
    price-like column and no date-like column, whose index carries a name that
    is not date-like (and is neither ["index"] nor a column), makes it raise
    [KeyError]: the index is moved into a column under its own name, nothing
    is renamed to ["Date"], and [out["Date"]] fails. *)
Theorem named_index_raises (df : DataFrame) (n adj : string)
    (Hflat : flat df)
    (Hne : empty df = false)
    (Hdate : Py.first_in date_names (names df) = None)
    (Hname : index_name df = Some n)
    (Hn : Py.mem (Py.lower n) ["date"; "datetime"; "timestamp"] = false)
    (Hfresh : ~ In n ("index" :: names df))
    (Hidx : ~ In "index" (names df))
    (Hprice : Py.first_in price_names (n :: names df) = Some adj) :
  _normalize_df (Some df) = Raise KeyError.
Proof.
  unfold _normalize_df. rewrite Hne.
  unfold flat in Hflat. rewrite Hflat, Hdate, Hname, Hn, andb_false_r.
  unfold reset_index. rewrite Hname.
  unfold is_multi in Hflat. unfold names in *. unfold has_column.
  destruct (columns df) as [l|l] eqn:El; [|discriminate].
  assert (Hm : Py.mem n (map fst l) = false).
  { destruct (Py.mem n (map fst l)) eqn:E; [|reflexivity].
    apply mem_In in E. exfalso. apply Hfresh. right. exact E. }
  rewrite Hm. cbn [rbind]. unfold rename. cbn [columns index_name index].
  rewrite (rename_absent ((n, index df) :: l) "index" "Date")
    by (simpl; intros [E | E]; [apply Hfresh; left; symmetry; exact E | exact (Hidx E)]).
  cbn [names columns map fst]. rewrite Hprice.
  assert (Ha : In adj (n :: map fst l)).
  { apply find_some in Hprice. destruct Hprice as [_ Hp]. apply mem_In in Hp. exact Hp. }
  unfold getitem at 1. cbn [columns].
  destruct (Py.lookup adj ((n, index df) :: l)) as [col|] eqn:La;
    [|apply lookup_None_iff in La; exfalso; apply La; exact Ha].
  cbn [rbind]. unfold getitem at 1, setitem. cbn [columns].
  rewrite lookup_dict_set_other by discriminate.
  assert (Ld : Py.lookup "Date" ((n, index df) :: l) = None).
  { apply lookup_None_iff. simpl. intros [E | E].
    - subst n. discriminate Hn.
    - assert (M : Py.mem "Date" (map fst l) = true) by (apply mem_In; exact E).
      unfold Py.first_in, date_names in Hdate. simpl in Hdate.
      rewrite M in Hdate. discriminate Hdate. }
  rewrite Ld. reflexivity.
Qed.

End Normaliser.

Lemma typed_to_numeric (xs : list pyfloat) :
  to_numeric (Pandas := Samples.typed_pandas) (map CNum xs) = xs.
Proof. simpl. rewrite map_map. apply map_id. Defined.

Lemma typed_to_datetime (ts : list Z) :
  to_datetime_format (Pandas := Samples.typed_pandas) (map CTime ts) = map Some ts.
Proof. simpl. rewrite map_map. reflexivity. Defined.

Lemma normalize_df_idempotent_witness :
  exists out,
    _normalize_df (pandas := Samples.typed_pandas) (Some Samples.two_days)
    = Return out
    /\ NoDup (column out "Date")
    /\ _normalize_df (pandas := Samples.typed_pandas) (Some out)
       = Return (if empty out then empty_frame else out).
Proof.
  eexists. split; [vm_compute; reflexivity|].
  assert (D : NoDup [CTime 1704153600000000000; CTime 1704240000000000000]).
  { constructor; [intros [E | []]; discriminate E|].
    constructor; [intros []|constructor]. }
  split; [exact D|].
  apply (normalize_df_idempotent (pandas := Samples.typed_pandas)
           (Some Samples.two_days)).
  - exact typed_to_numeric.
  - exact typed_to_datetime.
  - vm_compute. reflexivity.
  - exact D.
Defined.

Lemma no_price_column_empty_witness :
  _normalize_df (pandas := Samples.typed_pandas) (Some Samples.yahoo_multi)
  = Return empty_frame.
Proof.
  apply (no_price_column_empty (pandas := Samples.typed_pandas)) with (c := "Date").
  - reflexivity.
  - intros n Hin Hn. simpl in Hin, Hn.
    repeat (destruct Hin as [<- | Hin];
            [repeat (destruct Hn as [Hn | Hn]; [discriminate Hn|]); exact Hn|]).
    exact Hin.
Defined.

Lemma named_index_raises_witness :
  _normalize_df (pandas := Samples.typed_pandas)
    (Some (mkDataFrame (Index [("Close", [CNum (Num 10)])]) (Some "day")
             [CTime 1704153600000000000]))
  = Raise KeyError.
Proof.
  apply (named_index_raises (pandas := Samples.typed_pandas)) with (n := "day") (adj := "Close").
  - reflexivity.
  - reflexivity.
  - reflexivity.
  - reflexivity.
  - reflexivity.
  - simpl. intros [E | [E | []]]; discriminate E.
  - simpl. intros [E | []]. discriminate E.
  - reflexivity.
Defined.

(** *** The shape of the price matrix *)

Lemma cell_eqb_refl (c : cell) : cell_eqb c c = true.
Proof.
  destruct c as [|s|x|t]; simpl.
  - reflexivity.
  - apply String.eqb_refl.
  - destruct x; simpl; try reflexivity. apply Qeq_bool_refl.
  - apply Z.eqb_refl.
Qed.

Lemma cells_eqb_length (a b : list cell) :
  cells_eqb a b = true -> List.length a = List.length b.
Proof.
  revert b. induction a as [|x a IH]; intros [|y b] H; simpl in *;
    try reflexivity; try discriminate.
  apply andb_true_iff in H. destruct H as [_ H]. f_equal. apply IH, H.
Qed.

Lemma value_at_In (d : cell) (idx : list cell) (vals : list pyfloat) :
  List.length idx = List.length vals ->
  existsb (cell_eqb d) idx = true ->
  In (value_at d idx vals) vals.
Proof.
  revert vals. induction idx as [|i idx IH]; intros [|v vals] L H; simpl in *;
    try discriminate.
  destruct (cell_eqb d i); [left; reflexivity|].
  right. apply IH; [lia | exact H].
Qed.

Lemma skipn_sorted {A : Type} (R : A -> A -> Prop) (k : nat) (l : list A) :
  StronglySorted R l -> StronglySorted R (skipn k l).
Proof.
  intro S. revert k. induction S as [|x l S IH F]; intro k.
  - rewrite skipn_nil. constructor.
  - destruct k as [|k]; simpl; [constructor; assumption | apply IH].
Qed.

Lemma skipn_Forall {A : Type} (P : A -> Prop) (k : nat) (l : list A) :
  Forall P l -> Forall P (skipn k l).
Proof.
  intro F. apply Forall_forall. intros x Hx. rewrite Forall_forall in F.
  apply F. rewrite <- (firstn_skipn k l). apply in_or_app. right. exact Hx.
Qed.

Lemma astype_float_typed (col : list cell) (xs : list pyfloat) :
  astype_float col = Return xs ->
  List.length xs = List.length col
  /\ (forall x, In x xs -> In (CNum x) col \/ (x = NaN /\ In CNone col)).
Proof.
  revert xs. induction col as [|c col IH]; intros xs H; simpl in H.
  - inversion H. split; [reflexivity | intros x []].
  - result_inv H. result_inv H. inversion H. subst xs.
    destruct (IH _ H1) as [L I]. split; [simpl; congruence|].
    intros x [<- | Hx].
    + destruct c; simpl in H0; inversion H0; subst.
      * right. split; [reflexivity | left; reflexivity].
      * left. left. reflexivity.
    + destruct (I x Hx) as [Hc | [Hn Hc]]; [left; right; exact Hc|].
      right. split; [exact Hn | right; exact Hc].
Qed.

(** The series of a bundle of canonical frames are clean. *)
Lemma series_of_bundle_clean (bundle : list (string * DataFrame)) (ss : list Series) :
  Forall (fun p => canonical (snd p)) bundle ->
  series_of_bundle bundle = Return ss ->
  Forall clean_series ss.
Proof.
  intro C. revert ss. induction C as [|[t df] bundle Cd C IH]; intros ss H; simpl in H.
  - inversion H. constructor.
  - destruct (empty df) eqn:Em; [apply IH, H|].
    result_inv H. result_inv H. result_inv H. result_inv H.
    inversion H. subst ss. constructor; [|apply IH; assumption].
    simpl in Cd. destruct Cd as [|iname rs T S]; [discriminate Em|].
    change (getitem (frame_of_rows iname rs) "Date") with (Return (map Date rs)) in H0.
    change (getitem (frame_of_rows iname rs) "Adj Close")
      with (Return (map Adj_Close rs)) in H1.
    inversion H0. inversion H1. subst a a0.
    destruct (astype_float_typed _ _ H2) as [L I].
    split; simpl.
    + rewrite L, !length_map. reflexivity.
    + apply Forall_forall. intros x Hx. rewrite Forall_forall in T.
      destruct (I x Hx) as [Hc | [_ Hc]]; apply in_map_iff in Hc;
        destruct Hc as (r & Er & Hr); destruct (T r Hr) as (t0 & x0 & _ & Ex & N);
        rewrite Ex in Er; inversion Er. subst. exact N.
Qed.

Lemma concat_inner_clean (ss : list Series) (mat : Matrix) :
  Forall clean_series ss ->
  concat_inner ss = Return mat ->
  Forall (fun r => List.length (snd r) = List.length (mcolumns mat)
                   /\ Forall (fun x => isnan x = false) (snd r)) (mrows mat).
Proof.
  intros C H. unfold concat_inner in H.
  destruct ss as [|s0 rest]; [discriminate|].
  destruct rest as [|s1 rest].
  - inversion H. subst mat. cbn [mrows mcolumns].
    apply Forall_forall. intros r Hr. apply in_map_iff in Hr.
    destruct Hr as (i & <- & Hi). apply in_seq in Hi. cbn [snd].
    split; [reflexivity|].
    constructor; [|constructor].
    inversion C as [|x l [L N] _]; subst.
    rewrite Forall_forall in N. apply N. apply nth_In. rewrite <- L. lia.
  - set (rest' := s1 :: rest) in *.
    destruct (existsb (fun s => has_duplicates (sindex s)) (s0 :: rest'));
      [discriminate|].
    inversion H. subst mat. cbn [mrows mcolumns].
    apply Forall_forall. intros r Hr. apply in_map_iff in Hr.
    destruct Hr as (d & <- & Hd). apply filter_In in Hd. destruct Hd as [Hd0 Hd].
    cbn [snd]. split; [simpl; rewrite ?length_map; reflexivity|].
    change (Forall (fun x => isnan x = false)
              (map (fun s => value_at d (sindex s) (svalues s)) (s0 :: rest'))).
    apply Forall_forall. intros x Hx. apply in_map_iff in Hx.
    destruct Hx as (s & <- & Hs).
    rewrite Forall_forall in C. destruct (C s Hs) as [L N].
    rewrite Forall_forall in N. apply N. apply value_at_In; [exact L|].
    destruct Hs as [<- | Hs].
    + apply existsb_exists. exists d. split; [exact Hd0 | apply cell_eqb_refl].
    + change (forallb (fun s => existsb (cell_eqb d) (sindex s)) rest' = true) in Hd.
      rewrite forallb_forall in Hd. apply Hd, Hs.
Qed.

Section Matrix.
Context {pandas : Pandas} {sources : Sources}.

Lemma dict_set_Forall {A : Type} (P : string * A -> Prop) (k : string) (v : A)
    (d : list (string * A)) :
  P (k, v) -> Forall P d -> Forall P (Py.dict_set k v d).
Proof.
  intros Hk F. induction F as [|[k' v'] d Hx F IH]; simpl.
  - constructor; [exact Hk | constructor].
  - destruct (String.eqb k k'); constructor; assumption.
Qed.

Lemma history_loop_canonical (tickers : list string) (p i : string)
    (pl : bool) (m : Z) (uc al : bool) :
  forall (out out' : list (string * DataFrame)) (w w' : world),
    Forall (fun q => canonical (snd q)) out ->
    history_loop tickers p i pl m uc al out w = (Return out', w') ->
    Forall (fun q => canonical (snd q)) out'.
Proof.
  induction tickers as [|t rest IH]; intros out out' w w' F H.
  - inversion H. subst. exact F.
  - destruct (history_loop_step t rest p i pl m uc al out w)
      as (df & w1 & w2 & _ & C & _ & _ & Eq).
    rewrite Eq in H. eapply IH; [|exact H].
    apply dict_set_Forall; assumption.
Qed.

(** X22.  The matrix [get_prices_matrix] returns is a full rectangle, aligned
    on the dates common to all its tickers: every row holds one price per
    column and none of them is NaN; the rows are in ascending order of date;
    and with a positive [lookback_days] there are at most that many. *)
Theorem prices_matrix_shape (tickers : list string) (lookback_days : Z)
    (period : option string) (i : string) (pl : bool) (m : Z) (uc al : bool)
    (w w' : world) (mat : Matrix)
    (H : get_prices_matrix tickers lookback_days period i pl m uc al w
         = (Return mat, w')) :
  Forall (fun r => List.length (snd r) = List.length (mcolumns mat)
                   /\ Forall (fun x => isnan x = false) (snd r)) (mrows mat)
  /\ StronglySorted (key_le (fun r => time_key (fst r))) (mrows mat)
  /\ ((0 < lookback_days)%Z ->
      (List.length (mrows mat) <= Z.to_nat lookback_days)%nat).
Proof.
  unfold get_prices_matrix in H.
  set (p := match period with
            | Some p => if String.eqb p "" then _ else p
            | None => _
            end) in H.
  unfold bind at 1 in H.
  destruct (get_price_history (map Py.upper tickers) p i pl m uc al w)
    as [[bundle|e] w1] eqn:Eh; [|discriminate].
  assert (Cb : Forall (fun q => canonical (snd q)) bundle).
  { unfold get_price_history in Eh.
    eapply history_loop_canonical; [|exact Eh]. constructor. }
  unfold bind at 1 in H. unfold lift at 1 in H.
  destruct (series_of_bundle bundle) as [ss|e] eqn:Es; [|discriminate].
  pose proof (series_of_bundle_clean _ _ Cb Es) as Cs.
  destruct ss as [|s0 rest].
  - inversion H. subst mat. simpl.
    split; [constructor|]. split; [constructor | intros _; lia].
  - unfold bind, lift in H.
    destruct (concat_inner (s0 :: rest)) as [wide|e] eqn:Ec; [|discriminate].
    pose proof (concat_inner_clean _ _ Cs Ec) as Cw.
    assert (Sorted_all :
              Forall (fun r => List.length (snd r) = List.length (mcolumns wide)
                               /\ Forall (fun x => isnan x = false) (snd r))
                (mrows (sort_index wide))
              /\ StronglySorted (key_le (fun r => time_key (fst r)))
                   (mrows (sort_index wide))).
    { unfold sort_index. cbn [mrows]. split.
      - apply (Permutation_Forall (Permutation_sym (sort_by_perm _ _))). exact Cw.
      - apply sort_by_sorted. }
    destruct Sorted_all as [F S].
    inversion H. subst mat.
    destruct (lookback_days >? 0)%Z eqn:El.
    + unfold tail, Py.last_n. cbn [mrows mcolumns]. split; [|split].
      * apply skipn_Forall. exact F.
      * apply skipn_sorted. exact S.
      * intros _. rewrite length_skipn. lia.
    + split; [exact F|]. split; [exact S|].
      intro Hpos. rewrite Z.gtb_ltb in El. apply Z.ltb_ge in El. lia.
Qed.

End Matrix.

Lemma prices_matrix_shape_witness :
  exists mat w',
    get_prices_matrix (pandas := Samples.typed_pandas)
      (sources := Samples.yahoo_knows_bbb)
      ["aaa"; "bbb"] 252 None "1d" true 1 true true Samples.no_files
    = (Return mat, w')
    /\ Forall (fun r => List.length (snd r) = List.length (mcolumns mat)
                        /\ Forall (fun x => isnan x = false) (snd r)) (mrows mat)
    /\ StronglySorted (key_le (fun r => time_key (fst r))) (mrows mat)
    /\ ((0 < 252)%Z -> (List.length (mrows mat) <= Z.to_nat 252)%nat).
Proof.
  destruct (get_prices_matrix (pandas := Samples.typed_pandas)
              (sources := Samples.yahoo_knows_bbb)
              ["aaa"; "bbb"] 252 None "1d" true 1 true true Samples.no_files)
    as [[mat|e] w'] eqn:E.
  - exists mat, w'. split; [reflexivity|].
    exact (prices_matrix_shape (pandas := Samples.typed_pandas)
             (sources := Samples.yahoo_knows_bbb) _ _ _ _ _ _ _ _ _ _ _ E).
  - vm_compute in E. discriminate.
Defined.

(** *** The cached tickers *)

Lemma add_stems_spec (stems seen : list string) :
  NoDup seen ->
  NoDup (add_stems seen stems)
  /\ (forall name, In name (add_stems seen stems)
                   <-> In name seen \/ In name (map Py.upper stems))
  /\ exists more, add_stems seen stems = (seen ++ more)%list.
Proof.
  unfold add_stems. revert seen.
  induction stems as [|stem stems IH]; intros seen N; cbn [fold_left map].
  - split; [exact N|]. split; [simpl; tauto|]. exists []. symmetry. apply app_nil_r.
  - destruct (Py.mem (Py.upper stem) seen) eqn:M.
    + destruct (IH seen N) as (N' & I & (more & E)).
      split; [exact N'|]. split; [|exists more; exact E].
      intro name. rewrite I. apply mem_In in M. simpl.
      split; [tauto|]. intros [H | [<- | H]]; tauto.
    + assert (N2 : NoDup (seen ++ [Py.upper stem])).
      { apply NoDup_app; [exact N | constructor; [intros [] | constructor] |].
        intros x Hx [<- | []]. apply mem_In in Hx. congruence. }
      destruct (IH _ N2) as (N' & I & (more & E)).
      split; [exact N'|]. split.
      * intro name. rewrite I, in_app_iff. simpl. tauto.
      * exists (Py.upper stem :: more). rewrite E, <- app_assoc. reflexivity.
Qed.

(** X23.  [list_cached_tickers] lists every cached ticker once, in upper
    case: the list has no duplicate, also when both cache directories hold a
    file for the ticker or the file names differ in case only, and a name is
    in it exactly when it is the upper-cased stem of a csv file of one of the
    cache directories. *)
Theorem cached_tickers_distinct (glob_stems : string -> list string) :
  NoDup (list_cached_tickers glob_stems)
  /\ forall name,
       In name (list_cached_tickers glob_stems)
       <-> exists d stem,
             In d CACHE_DIRS /\ In stem (glob_stems d) /\ name = Py.upper stem.
Proof.
  unfold list_cached_tickers, CACHE_DIRS. cbn [fold_left].
  destruct (add_stems_spec (glob_stems "data/prices") [] (NoDup_nil _))
    as (N1 & I1 & _).
  destruct (add_stems_spec (glob_stems "data/cache_prices") _ N1) as (N2 & I2 & _).
  split; [exact N2|].
  intro name. rewrite I2, I1. split.
  - intros [[[] | H] | H]; apply in_map_iff in H; destruct H as (stem & <- & Hs).
    + exists "data/prices", stem. simpl. tauto.
    + exists "data/cache_prices", stem. simpl. tauto.
  - intros (d & stem & [<- | [<- | []]] & Hs & ->).
    + left. right. apply in_map, Hs.
    + right. apply in_map, Hs.
Qed.

End PriceDataMore.

(** ** From the price sources to the recommendations *)

Module Pipeline.
Import Frames World PriceData Tiering PriceDataFacts TieringFacts PriceDataMore.

Lemma series_of_empty_bundle (bundle : list (string * DataFrame)) :
  Forall (fun q => empty (snd q) = true) bundle ->
  series_of_bundle bundle = Return [].
Proof.
  induction 1 as [|[t df] bundle Hd F IH]; simpl; [reflexivity|].
  simpl in Hd. rewrite Hd. exact IH.
Qed.

Section Pipeline.
Context {pandas : Pandas} {sources : Sources} {numerics : Numerics}.

(** When every source fails for every requested ticker the matrix is the
    empty one, and nothing is raised. *)
Lemma prices_matrix_all_fail (tickers : list string) (lookback_days : Z)
    (period : option string) (i : string) (pl : bool) (m : Z) (uc al : bool)
    (w0 : world) :
  (forall t, In t tickers -> sources_fail (Py.upper t) w0) ->
  exists w1,
    get_prices_matrix tickers lookback_days period i pl m uc al w0
    = (Return empty_matrix, w1).
Proof.
  intro HF. unfold get_prices_matrix.
  set (p := match period with
            | Some p => if String.eqb p "" then _ else p
            | None => _
            end).
  unfold get_price_history.
  assert (U : map Py.upper (map Py.upper tickers) = map Py.upper tickers).
  { rewrite map_map. apply map_ext. intro t. apply upper_idem. }
  rewrite U.
  destruct (history_loop_keys (map Py.upper tickers) p i pl m uc al [] w0)
    as (out & w1 & E & Hk & Hn).
  exists w1. unfold bind at 1. rewrite E.
  assert (F : Forall (fun q => empty (snd q) = true) out).
  { apply Forall_forall. intros [k df] Hin. simpl.
    assert (Kin : In k (map Py.upper tickers)).
    { destruct (proj1 (Hk k)) as [[] | Kin]; [|exact Kin].
      apply in_map_iff. exists (k, df). split; [reflexivity | exact Hin]. }
    apply in_map_iff in Kin. destruct Kin as (t & <- & Ht).
    destruct (history_loop_failing (Py.upper t) w0 (HF t Ht)
                (map Py.upper tickers) p i pl m uc al [] out w0 w1)
      as (d & L & Hd).
    - intros f _. reflexivity.
    - exact E.
    - left. apply in_map, Ht.
    - rewrite (lookup_NoDup _ d df out (Hn (NoDup_nil _)) L Hin). exact Hd. }
  unfold bind, lift. rewrite (series_of_empty_bundle _ F). reflexivity.
Qed.

(** X24.  When every price source fails for every ticker of the candidate
    set, [optimize_portfolio] raises nothing and returns the single record
    [{"Ticker": "No suitable match"}], whatever the scores, the sentiments and
    the preferences are. *)
Theorem no_prices_sentinel (esg_df : list esg_row)
    (sentiment_scores : list (string * string)) (esg_pref risk_pref : string)
    (industry_label : option string) (w0 : world)
    (HF : forall row, In row esg_df -> sources_fail (Py.upper (row_Ticker row)) w0) :
  exists w1,
    optimize_portfolio esg_df sentiment_scores esg_pref risk_pref industry_label w0
    = (Return [TickerOnly "No suitable match"], w1).
Proof.
  unfold optimize_portfolio.
  destruct (prices_matrix_all_fail (map row_Ticker esg_df) 252 None "1d" false
              120 true true w0) as (w1 & E).
  { intros t Ht. apply in_map_iff in Ht. destruct Ht as (row & <- & Hrow).
    apply HF, Hrow. }
  exists w1. unfold bind. rewrite E. unfold ret. f_equal. f_equal.
  unfold optimize_from_prices.
  assert (R : recommend esg_df (volatility empty_matrix)
                (thresholds_of (volatility empty_matrix))
                sentiment_scores esg_pref risk_pref industry_label = []).
  { apply recommend_nil_iff. intros row _. unfold eligible.
    apply negb_false_iff, orb_true_iff. right. reflexivity. }
  rewrite R. reflexivity.
Qed.

End Pipeline.

(** Neither source has anything for a ticker when Yahoo answers an empty
    frame, Stooq is unreachable and there is no file. *)
Lemma nothing_anywhere (T : string) :
  sources_fail (pandas := Samples.typed_pandas) (sources := Samples.empty_yahoo)
    T Samples.no_files.
Proof.
  repeat split.
  - intros p i w df w' H. vm_compute in H. inversion H. reflexivity.
  - intros p w df w' H. vm_compute in H. inversion H. reflexivity.
  - intros tr df w' H. vm_compute in H. inversion H. reflexivity.
Defined.

Lemma no_prices_sentinel_witness :
  exists w1,
    optimize_portfolio (pandas := Samples.typed_pandas)
      (sources := Samples.empty_yahoo) (numerics := Samples.constant_numerics)
      [mkEsgRow "AAA" (Num 15) "Banks"; mkEsgRow "BBB" (Num 25) "Software"]
      [("AAA", "positive")] "Low" "Low" None Samples.no_files
    = (Return [TickerOnly "No suitable match"], w1).
Proof.
  apply (no_prices_sentinel (pandas := Samples.typed_pandas)
           (sources := Samples.empty_yahoo) (numerics := Samples.constant_numerics)).
  intros row _. apply nothing_anywhere.
Defined.

End Pipeline.

(** ** The period helpers *)

Module PeriodFacts.
Import PriceData.

Lemma lower_digits (d : Decimal.uint) (rest : string) :
  Py.lower (NilEmpty.string_of_uint d ++ rest)
  = NilEmpty.string_of_uint d ++ Py.lower rest.
Proof.
  unfold Py.lower. induction d; simpl; try rewrite IHd; reflexivity.
Qed.

Lemma lstrip_digits (d : Decimal.uint) (rest : string) :
  d <> Decimal.Nil ->
  Py.lstrip (NilEmpty.string_of_uint d ++ rest)
  = NilEmpty.string_of_uint d ++ rest.
Proof.
  destruct d; intro H; try reflexivity. contradiction.
Qed.

Lemma to_uint_not_nil (n : nat) : Nat.to_uint n <> Decimal.Nil.
Proof.
  intro H. pose proof (DecimalNat.Unsigned.of_to n) as E.
  rewrite H in E. simpl in E. subst n. discriminate H.
Qed.

Lemma take_digits_step (c : ascii) (k : nat) (r : string) (a count : nat) :
  is_digit c = true -> (nat_of_ascii c - 48 = k)%nat ->
  take_digits (String c r) (Z.of_nat a) count
  = take_digits r (Z.of_nat (k + Nat.tail_mul 10 a)) (S count).
Proof.
  intros D K. cbn [take_digits]. rewrite D, K. f_equal.
  rewrite Nat.tail_mul_spec. lia.
Qed.

(** Reading the digits [str] wrote gives the number back. *)
Lemma take_digits_uint (d : Decimal.uint) (rest : string) :
  match rest with String c _ => is_digit c = false | EmptyString => True end ->
  forall (a count : nat),
    take_digits (NilEmpty.string_of_uint d ++ rest) (Z.of_nat a) count
    = (Z.of_nat (Nat.of_uint_acc d a), (count + Decimal.nb_digits d)%nat, rest).
Proof.
  intro Hrest.
  induction d; intros a count;
    try (cbn [NilEmpty.string_of_uint String.append];
         erewrite take_digits_step by (vm_compute; reflexivity);
         rewrite IHd; cbn [Nat.of_uint_acc Decimal.nb_digits plus];
         rewrite Nat.add_succ_r; reflexivity).
  cbn [NilEmpty.string_of_uint String.append Nat.of_uint_acc Decimal.nb_digits].
  rewrite Nat.add_0_r.
  destruct rest as [|c r]; [reflexivity|].
  simpl. rewrite Hrest. reflexivity.
Qed.

Lemma nb_digits_pos (d : Decimal.uint) :
  d <> Decimal.Nil -> exists k, Decimal.nb_digits d = S k.
Proof.
  destruct d; intro H; try (eexists; reflexivity). contradiction.
Qed.

(** A number, a unit letter and nothing else. *)
Lemma period_of_number (n : nat) (u : ascii) :
  is_digit u = false -> Py.is_space u = false -> Py.lower_ascii u = u ->
  _period_to_days (Py.str_of_nat n ++ String u "")
  = if Ascii.eqb u "d" then Z.of_nat n
    else if Ascii.eqb u "w" then (Z.of_nat n * 7)%Z
    else if Ascii.eqb u "m" then (Z.of_nat n * 30)%Z
    else if Ascii.eqb u "y" then (Z.of_nat n * 365)%Z
    else 365%Z.
Proof.
  intros D S L. unfold _period_to_days, Py.str_of_nat.
  rewrite lower_digits. unfold Py.lower at 1. cbn [Py.smap]. rewrite L.
  rewrite lstrip_digits by apply to_uint_not_nil.
  change 0%Z with (Z.of_nat 0).
  rewrite take_digits_uint by exact D.
  destruct (nb_digits_pos _ (to_uint_not_nil n)) as (k & ->).
  cbn [plus Py.lstrip]. rewrite S. cbn [Py.lstrip String.eqb].
  change (Nat.of_uint_acc (Nat.to_uint n) 0) with (Nat.of_uint (Nat.to_uint n)).
  rewrite DecimalNat.Unsigned.of_to. reflexivity.
Qed.

Lemma lower_upper_ascii (c : ascii) :
  Py.lower_ascii (Py.upper_ascii c) = Py.lower_ascii c.
Proof.
  destruct c as [[] [] [] [] [] [] [] []]; vm_compute; reflexivity.
Qed.

Lemma lower_upper (s : string) : Py.lower (Py.upper s) = Py.lower s.
Proof.
  unfold Py.lower, Py.upper.
  induction s as [|c s IH]; simpl; [reflexivity|].
  rewrite lower_upper_ascii, IH. reflexivity.
Qed.

(** X25.  [_period_to_days] reads a count followed by a unit letter as the
    code intends: [n] days for [d], [7 n] for [w], [30 n] for [m] and
    [365 n] for [y], for every natural number [n] written in decimal (of at
    most 4300 digits, the longest CPython's [int] converts by default); and
    the case of the letters does not matter. *)
Theorem period_to_days_parses (n : nat)
    (Hn : (Z.of_nat n < 10 ^ 4300)%Z) :
  _period_to_days (Py.str_of_nat n ++ "d") = Z.of_nat n
  /\ _period_to_days (Py.str_of_nat n ++ "w") = (Z.of_nat n * 7)%Z
  /\ _period_to_days (Py.str_of_nat n ++ "m") = (Z.of_nat n * 30)%Z
  /\ _period_to_days (Py.str_of_nat n ++ "y") = (Z.of_nat n * 365)%Z
  /\ forall period, _period_to_days (Py.upper period) = _period_to_days period.
Proof.
  clear Hn.
  repeat split; try (rewrite period_of_number; reflexivity).
  intro period. unfold _period_to_days. rewrite lower_upper. reflexivity.
Qed.

Lemma take_digits_nonneg (s : string) :
  forall (acc : Z) (count : nat),
    (0 <= acc)%Z -> (0 <= fst (fst (take_digits s acc count)))%Z.
Proof.
  induction s as [|c s IH]; intros acc count H; cbn [take_digits]; [exact H|].
  destruct (is_digit c); [apply IH; lia | exact H].
Qed.

(** X26.  Whatever the period string is, [_period_to_days] never answers a
    negative number of days: the pattern admits no sign, and a string it does
    not match counts as 365 days. *)
Theorem period_to_days_nonneg (period : string) :
  (0 <= _period_to_days period)%Z.
Proof.
  unfold _period_to_days.
  pose proof (take_digits_nonneg (Py.lstrip (Py.lower period)) 0 0 (Z.le_refl 0)) as N.
  destruct (take_digits (Py.lstrip (Py.lower period)) 0 0) as [[n count] rest].
  simpl in N.
  destruct count as [|count]; [lia|].
  destruct (Py.lstrip rest) as [|u tl]; [lia|].
  destruct (String.eqb (Py.lstrip tl) ""); [|lia].
  destruct (Ascii.eqb u "d"); [lia|].
  destruct (Ascii.eqb u "w"); [lia|].
  destruct (Ascii.eqb u "m"); [lia|].
  destruct (Ascii.eqb u "y"); lia.
Qed.

(** X27.  The period [get_prices_matrix] infers from a lookback of up to 1825
    days covers it: read back by [_period_to_days] it is at least as many
    days as the lookback asks for. *)
Theorem inferred_period_covers (lookback_days : Z)
    (H : (lookback_days <= 1825)%Z) :
  (lookback_days <= _period_to_days (_infer_period_from_lookback lookback_days))%Z.
Proof.
  unfold _infer_period_from_lookback.
  destruct (lookback_days <=? 260)%Z eqn:E1.
  - apply Z.leb_le in E1.
    change (_period_to_days "2y") with 730%Z. lia.
  - destruct (lookback_days <=? 520)%Z eqn:E2.
    + apply Z.leb_le in E2. change (_period_to_days "3y") with 1095%Z. lia.
    + change (_period_to_days "5y") with 1825%Z. exact H.
Qed.

Lemma period_to_days_parses_witness :
  _period_to_days (Py.str_of_nat 90 ++ "d") = 90%Z
  /\ _period_to_days (Py.str_of_nat 90 ++ "w") = 630%Z
  /\ _period_to_days (Py.str_of_nat 90 ++ "m") = 2700%Z
  /\ _period_to_days (Py.str_of_nat 90 ++ "y") = 32850%Z
  /\ forall period, _period_to_days (Py.upper period) = _period_to_days period.
Proof.
  apply (period_to_days_parses 90). vm_compute. reflexivity.
Defined.

Lemma inferred_period_covers_witness :
  (252 <= _period_to_days (_infer_period_from_lookback 252))%Z.
Proof.
  apply inferred_period_covers. lia.
Defined.

End PeriodFacts.
